(** * VCP trading platform: the pattern-detection and scoring engine

    A shallow embedding of
      - [backend/app/config.py]                    (scanner settings),
      - [backend/app/models/stock.py]              (VCPLeg, VCPSetup, BreakoutCandidate),
      - [backend/app/services/data_fetcher.py]     (relative strength, RS percentile),
      - [backend/app/services/vcp_scanner.py]      (filters, leg extraction, score, scan),
      - [backend/app/services/breakout_finder.py]  (breakout test, confirmation score),
    followed by the properties of the engine.

    Numbers.  A Python/numpy float is a rational number [Q] computed exactly;
    binary rounding error is outside the model.  A value that pandas may
    report as NaN (a rolling statistic over an incomplete window, a
    reduction of an empty series) has type [float := option Q], [None] being
    NaN: arithmetic propagates it and every comparison with it is false.
    There is no infinity: a division whose divisor is zero yields 0 (the
    convention of QArith) wherever the source does not guard the divisor;
    this only arises for prices that are zero (or round to zero).

    Data frames.  A frame is the list of its rows in index order.  The index
    is strictly increasing, so a label is represented by its position and
    label comparison is position comparison.

    Exceptions.  Code that can raise lives in the [result] monad; the
    [try/except Exception] wrappers of the services turn [Raise] into
    [None]. *)

From Stdlib Require Import String DecimalString QArith Qround Qabs Qminmax ZArith List Lia Lqa Bool.
From Stdlib Require Import Permutation.
Import ListNotations.

Local Open Scope Q_scope.

(* ===================================================================== *)
(** ** Exceptions *)
(* ===================================================================== *)

Inductive exn : Type :=
| IndexError
| TypeError
| ValidationError.

Inductive result (A : Type) : Type :=
| Ok (a : A)
| Raise (e : exn).

Arguments Ok {A} a.
Arguments Raise {A} e.

Definition bind {A B : Type} (m : result A) (k : A -> result B) : result B :=
  match m with
  | Ok a => k a
  | Raise e => Raise e
  end.

Declare Scope result_scope.
Delimit Scope result_scope with result.
Notation "x <- m ;; k" := (bind m (fun x => k))
  (at level 61, m at next level, right associativity) : result_scope.
Notation "' pat <- m ;; k" := (bind m (fun x => match x with pat => k end))
  (at level 61, pat pattern, m at next level, right associativity) : result_scope.

(** [try: ... except Exception: return None] around a body that returns an
    optional value. *)
Definition try_or_none {A : Type} (m : result (option A)) : option A :=
  match m with
  | Ok r => r
  | Raise _ => None
  end.

(* ===================================================================== *)
(** ** Numbers *)
(* ===================================================================== *)

Definition Qltb (x y : Q) : bool := negb (Qle_bool y x).

Definition float : Type := option Q.
Definition nan : float := None.
Definition fin (q : Q) : float := Some q.

Definition lift1 (op : Q -> Q) (a : float) : float :=
  match a with
  | Some x => Some (op x)
  | None => None
  end.

Definition lift2 (op : Q -> Q -> Q) (a b : float) : float :=
  match a, b with
  | Some x, Some y => Some (op x y)
  | _, _ => None
  end.

Definition cmp2 (op : Q -> Q -> bool) (a b : float) : bool :=
  match a, b with
  | Some x, Some y => op x y
  | _, _ => false
  end.

Definition fadd := lift2 Qplus.
Definition fsub := lift2 Qminus.
Definition fmul := lift2 Qmult.
Definition fdiv := lift2 Qdiv.
Definition fabs := lift1 Qabs.
Definition fltb := cmp2 Qltb.
Definition fleb := cmp2 Qle_bool.
Definition fgtb (a b : float) : bool := fltb b a.
Definition fgeb (a b : float) : bool := fleb b a.
Definition feqb := cmp2 Qeq_bool.

Declare Scope float_scope.
Delimit Scope float_scope with float.
Notation "a + b" := (fadd a b) : float_scope.
Notation "a - b" := (fsub a b) : float_scope.
Notation "a * b" := (fmul a b) : float_scope.
Notation "a / b" := (fdiv a b) : float_scope.
Notation "a <? b" := (fltb a b) (at level 70) : float_scope.
Notation "a <=? b" := (fleb a b) (at level 70) : float_scope.
Notation "a >? b" := (fgtb a b) (at level 70) : float_scope.
Notation "a >=? b" := (fgeb a b) (at level 70) : float_scope.
Notation "a =? b" := (feqb a b) (at level 70) : float_scope.

(** Order on floats as propositions: both sides are numbers and ordered. *)
Definition Fle (a b : float) : Prop :=
  match a, b with
  | Some x, Some y => x <= y
  | _, _ => False
  end.

Definition Flt (a b : float) : Prop :=
  match a, b with
  | Some x, Some y => x < y
  | _, _ => False
  end.

(** Python's builtin [min(a, b)] and [max(a, b)]: the first argument is kept
    unless the second is strictly smaller (larger). *)
Definition py_min (a b : float) : float := if (b <? a)%float then b else a.
Definition py_max (a b : float) : float := if (b >? a)%float then b else a.

Definition Qpy_min (a b : Q) : Q := if Qltb b a then b else a.
Definition Qpy_max (a b : Q) : Q := if Qltb a b then b else a.

(** Rounding to the nearest integer, ties to the even one. *)
Definition round_half_even (x : Q) : Z :=
  let f := Qfloor x in
  match Qcompare (x - inject_Z f) (1 # 2) with
  | Lt => f
  | Gt => (f + 1)%Z
  | Eq => if Z.even f then f else (f + 1)%Z
  end.

(** [round(x, ndigits)] for a float [x]. *)
Definition py_round (x : Q) (ndigits : nat) : Q :=
  let scale := Z.pow 10 (Z.of_nat ndigits) in
  inject_Z (round_half_even (x * inject_Z scale)) / inject_Z scale.

Definition fround (a : float) (ndigits : nat) : float :=
  lift1 (fun x => py_round x ndigits) a.

(** [int(x)]: truncation toward zero. *)
Definition py_int (x : Q) : Z := Z.quot (Qnum x) (Zpos (Qden x)).

(* ===================================================================== *)
(** ** Series and frames *)
(* ===================================================================== *)

Record Bar : Type := mkBar {
  date : string;
  open : Q;
  high : Q;
  low : Q;
  close : Q;
  volume : Q
}.

Definition DataFrame : Type := list Bar.
Definition Series : Type := list float.

(** The numbers of column [f], and the column as a pandas series [df[name]]. *)
Definition values (f : Bar -> Q) (df : DataFrame) : list Q := map f df.
Definition col (f : Bar -> Q) (df : DataFrame) : Series := map fin (values f df).

(** [s.iloc[i]], negative [i] counting from the end. *)
Definition iloc {A : Type} (s : list A) (i : Z) : result A :=
  let n := Z.of_nat (length s) in
  let j := if (i <? 0)%Z then (n + i)%Z else i in
  if (j <? 0)%Z then Raise IndexError
  else match nth_error s (Z.to_nat j) with
       | Some x => Ok x
       | None => Raise IndexError
       end.

(** One bound of a Python slice over a sequence of length [n]. *)
Definition slice_bound (n : nat) (dflt : nat) (b : option Z) : nat :=
  match b with
  | None => dflt
  | Some i =>
      if (i <? 0)%Z then Z.to_nat (Z.max 0 (Z.of_nat n + i))
      else Nat.min n (Z.to_nat i)
  end.

(** [s.iloc[start:stop]] *)
Definition islice {A : Type} (s : list A) (start stop : option Z) : list A :=
  let n := length s in
  let a := slice_bound n 0%nat start in
  let b := slice_bound n n stop in
  firstn (b - a) (skipn a s).

(** [s.tail(k)] *)
Definition tail {A : Type} (k : nat) (s : list A) : list A :=
  skipn (length s - k) s.

(** The observations of a series that are not NaN. *)
Fixpoint dropna (s : Series) : list Q :=
  match s with
  | [] => []
  | Some x :: s' => x :: dropna s'
  | None :: s' => dropna s'
  end.

Definition Qsum (l : list Q) : Q := fold_right Qplus 0 l.

Definition Qmean (l : list Q) : Q := Qsum l / inject_Z (Z.of_nat (length l)).

Definition reduce (op : Q -> Q -> Q) (l : list Q) : float :=
  match l with
  | [] => nan
  | x :: l' => fin (fold_left op l' x)
  end.

(** [s.max()], [s.min()], [s.mean()]: NaN is skipped, an empty series gives NaN. *)
Definition series_max (s : Series) : float := reduce Qmax (dropna s).
Definition series_min (s : Series) : float := reduce Qmin (dropna s).
Definition series_mean (s : Series) : float :=
  match dropna s with
  | [] => nan
  | l => fin (Qmean l)
  end.

(** A window statistic needs all [w] observations ([min_periods] is the
    window length). *)
Definition window_stat (w : nat) (agg : Series -> float) (win : Series) : float :=
  if (length (dropna win) =? w)%nat then agg win else nan.

(** [s.rolling(w).agg()]: the window of row [i] is rows [i-w+1 .. i]. *)
Definition rolling (w : nat) (agg : Series -> float) (s : Series) : Series :=
  map (fun i => if (S i <? w)%nat then nan
                else window_stat w agg (firstn w (skipn (S i - w) s)))
      (seq 0 (length s)).

(** [s.rolling(w, center=True).agg()]: the window of row [i] ends at row
    [i + (w-1)/2]. *)
Definition rolling_center (w : nat) (agg : Series -> float) (s : Series) : Series :=
  let off := ((w - 1) / 2)%nat in
  map (fun i => if (S (i + off) <? w)%nat then nan
                else window_stat w agg (firstn w (skipn (S (i + off) - w) s)))
      (seq 0 (length s)).

(** [s.shift(1)] *)
Definition shift1 (s : Series) : Series :=
  match s with
  | [] => []
  | _ => nan :: removelast s
  end.

Fixpoint zip_with {A B C : Type} (f : A -> B -> C) (l1 : list A) (l2 : list B) : list C :=
  match l1, l2 with
  | x :: l1', y :: l2' => f x y :: zip_with f l1' l2'
  | _, _ => []
  end.

(** [index[mask].tolist()]: the positions at which a boolean mask holds. *)
Fixpoint mask_positions (from : nat) (mask : list bool) : list nat :=
  match mask with
  | [] => []
  | true :: m => from :: mask_positions (S from) m
  | false :: m => mask_positions (S from) m
  end.

(* ===================================================================== *)
(** ** config.py *)
(* ===================================================================== *)

Record VcpSettings : Type := mkVcpSettings {
  min_market_cap : Q;
  min_legs : nat;
  max_legs : nat;
  final_base_depth_max : Q;
  lookback_days : nat;
  volume_sma_period : nat;
  rs_percentile_min : Q
}.

Definition VCP_SETTINGS : VcpSettings := {|
  min_market_cap := 2000000000;
  min_legs := 3;
  max_legs := 5;
  final_base_depth_max := 15 # 100;
  lookback_days := 252;
  volume_sma_period := 20;
  rs_percentile_min := 70
|}.

Record BreakoutSettings : Type := mkBreakoutSettings {
  pivot_range : nat;
  relative_volume_threshold : Q;
  breakout_volume_sma_period : nat
}.

Definition BREAKOUT_SETTINGS : BreakoutSettings := {|
  pivot_range := 100;
  relative_volume_threshold := 1;
  breakout_volume_sma_period := 20
|}.

Definition NIFTY_500_SYMBOLS : list string :=
  [ "RELIANCE"; "TCS"; "HDFCBANK"; "INFY"; "ICICIBANK";
    "HINDUNILVR"; "BHARTIARTL"; "SBIN"; "KOTAKBANK"; "ITC";
    "BAJFINANCE"; "LT"; "AXISBANK"; "ASIANPAINT"; "MARUTI";
    "HCLTECH"; "SUNPHARMA"; "TITAN"; "ULTRACEMCO"; "WIPRO";
    "ONGC"; "NTPC"; "POWERGRID"; "TATASTEEL"; "JSWSTEEL";
    "ADANIENT"; "ADANIPORTS"; "COALINDIA"; "BPCL"; "GRASIM";
    "TECHM"; "INDUSINDBK"; "HINDALCO"; "DRREDDY"; "DIVISLAB";
    "CIPLA"; "EICHERMOT"; "BAJAJ-AUTO"; "HEROMOTOCO"; "BRITANNIA";
    "NESTLEIND"; "APOLLOHOSP"; "TATACONSUM"; "M&M"; "TATAMOTORS";
    "SBILIFE"; "HDFCLIFE"; "BAJAJFINSV"; "SHREECEM"; "DMART" ]%string.

(* ===================================================================== *)
(** ** models/stock.py *)
(* ===================================================================== *)

Record VCPLeg : Type := mkVCPLeg {
  leg_number : nat;
  start_date : string;
  end_date : string;
  high_price : Q;
  low_price : Q;
  pullback_depth : Q;
  volume_ratio : float;
  duration_days : nat
}.

Record VCPSetup : Type := mkVCPSetup {
  symbol : string;
  stock_name : option string;
  current_price : Q;
  legs : list VCPLeg;
  total_base_depth : Q;
  base_duration_days : nat;
  pivot_price : float;
  distance_from_pivot : float;
  relative_strength : Q;
  rs_percentile : Q;
  volume_dry_up : float;
  trend_alignment : bool;
  score : float;
  detected_at : string;
  sma_20 : float;
  sma_50 : float;
  sma_200 : option float
}.

Record BreakoutCandidate : Type := mkBreakoutCandidate {
  bc_symbol : string;
  bc_stock_name : option string;
  breakout_date : string;
  breakout_price : Q;
  bc_pivot_price : float;
  breakout_volume : Z;
  relative_volume : float;
  price_change_pct : Q;
  gap_up_pct : Q;
  confirmation_score : float;
  vcp_setup : option VCPSetup
}.

(* ===================================================================== *)
(** ** services/data_fetcher.py *)
(* ===================================================================== *)

(** A value of the loosely typed [ticker.info] dictionary. *)
Inductive pyval : Type :=
| PNum (q : Q)
| PStr (s : string)
| PNone.

Definition Info : Type := list (string * pyval).

(** [d.get(key, default)] *)
Fixpoint dict_get {V : Type} (d : list (string * V)) (key : string) (default : V) : V :=
  match d with
  | [] => default
  | (k, v) :: d' => if String.eqb k key then v else dict_get d' key default
  end.

(** [d[key] = v] on an insertion-ordered dictionary. *)
Fixpoint dict_set {V : Type} (d : list (string * V)) (key : string) (v : V) : list (string * V) :=
  match d with
  | [] => [(key, v)]
  | (k, w) :: d' => if String.eqb k key then (k, v) :: d' else (k, w) :: dict_set d' key v
  end.

(** The market-data provider behind [DataFetcher]: what [get_stock_data],
    [get_stock_info] and [get_benchmark_data] answer (their own failures are
    already turned into [None] there), and the clock. *)
Record DataFetcher : Type := mkDataFetcher {
  get_stock_data : string -> option DataFrame;
  get_stock_info : string -> option Info;
  get_benchmark_data : option DataFrame;
  now_isoformat : string
}.

Definition get_multiple_stocks (data_fetcher : DataFetcher) (symbols : list string)
  : list (string * DataFrame) :=
  fold_left (fun result symbol =>
               match get_stock_data data_fetcher symbol with
               | Some df => dict_set result symbol df
               | None => result
               end)
            symbols [].

Local Open Scope result_scope.

Definition calculate_relative_strength (stock_df benchmark_df : DataFrame) (period : Z)
  : result Q :=
  if (Z.of_nat (length stock_df) <? period)%Z || (Z.of_nat (length benchmark_df) <? period)%Z
  then Ok 0
  else
    s_last <- iloc (values close stock_df) (-1) ;;
    s_first <- iloc (values close stock_df) (- period) ;;
    let stock_return := (s_last / s_first - 1) * 100 in
    b_last <- iloc (values close benchmark_df) (-1) ;;
    b_first <- iloc (values close benchmark_df) (- period) ;;
    let benchmark_return := (b_last / b_first - 1) * 100 in
    if Qeq_bool benchmark_return 0 then Ok stock_return
    else Ok (stock_return - benchmark_return).

(** [sorted(l)] on numbers. *)
Fixpoint insert_sorted (x : Q) (l : list Q) : list Q :=
  match l with
  | [] => [x]
  | y :: l' => if Qltb x y then x :: y :: l' else y :: insert_sorted x l'
  end.

Definition sorted (l : list Q) : list Q := fold_left (fun acc x => insert_sorted x acc) l [].

(** [for x in xs: r = f(x); out.append(r)] with a body that may raise. *)
Fixpoint map_result {A B : Type} (f : A -> result B) (xs : list A) : result (list B) :=
  match xs with
  | [] => Ok []
  | x :: xs' =>
      r <- f x ;;
      rs <- map_result f xs' ;;
      Ok (r :: rs)
  end.

(** [sum(1 for x in l if p(x))] *)
Definition count_if {A : Type} (p : A -> bool) (l : list A) : nat :=
  length (filter p l).

Definition calculate_rs_percentile (stock_df : DataFrame)
  (all_stocks_data : list (string * DataFrame)) (benchmark_df : DataFrame) (period : Z)
  : result Q :=
  all_rs <- map_result (fun '(sym, df) => calculate_relative_strength df benchmark_df period)
                       all_stocks_data ;;
  stock_rs <- calculate_relative_strength stock_df benchmark_df period ;;
  match all_rs with
  | [] => Ok 50
  | _ =>
      let all_rs_sorted := sorted all_rs in
      let count_below := count_if (fun x => Qltb x stock_rs) all_rs_sorted in
      let percentile :=
        (inject_Z (Z.of_nat count_below) / inject_Z (Z.of_nat (length all_rs))) * 100 in
      Ok percentile
  end.

(* ===================================================================== *)
(** ** services/vcp_scanner.py: the filter pipeline *)
(* ===================================================================== *)

(** The reason returned next to a filter's verdict; a formatted number is
    kept as the number. *)
Inductive message : Type :=
| MarketCapBelowThreshold
| PriceBelowSMA20
| RSPercentileBelow (rs : Q)
| Passed
| InsufficientData
| AlreadyBrokenOut
| TooFarFromPivot (distance_pct : float)
| WithinOfPivot (distance_pct : float)
| HL10Failed
| HL20Failed
| HL30Failed
| HigherLowsConfirmed.

(** [x < y] for a dictionary value [x] and a number [y]. *)
Definition pyval_ltb (x : pyval) (y : Q) : result bool :=
  match x with
  | PNum q => Ok (Qltb q y)
  | PStr _ | PNone => Raise TypeError
  end.

(** Truth value of [info : Optional[Dict]]. *)
Definition info_truthy (info : option Info) : bool :=
  match info with
  | Some (_ :: _) => true
  | _ => false
  end.

Definition info_dict (info : option Info) : Info :=
  match info with
  | Some d => d
  | None => []
  end.

Definition check_liquidity_filter (settings : VcpSettings) (df : DataFrame)
  (info : option Info) (rs_percentile : Q) : result (bool * message) :=
  below_cap <- (if info_truthy info
                then pyval_ltb (dict_get (info_dict info) "marketCap" (PNum 0))
                               (min_market_cap settings)
                else Ok false) ;;
  if below_cap then Ok (false, MarketCapBelowThreshold)
  else
    let sma_20 := rolling 20 series_mean (col close df) in
    last_close <- iloc (col close df) (-1) ;;
    last_sma <- iloc sma_20 (-1) ;;
    if (last_close <=? last_sma)%float then Ok (false, PriceBelowSMA20)
    else if Qltb rs_percentile (rs_percentile_min settings)
    then Ok (false, RSPercentileBelow rs_percentile)
    else Ok (true, Passed).

Definition check_uptrend_near_breakout (df : DataFrame) : result (bool * message) :=
  if (length df <? 101)%nat then Ok (false, InsufficientData)
  else
    current_close <- iloc (col close df) (-1) ;;
    let range_high_100 := series_max (islice (col high df) (Some (-101)%Z) (Some (-1)%Z)) in
    if (current_close >? range_high_100)%float then Ok (false, AlreadyBrokenOut)
    else
      let distance_pct :=
        (((range_high_100 - current_close) / range_high_100) * fin 100)%float in
      if (distance_pct >? fin 7)%float then Ok (false, TooFarFromPivot distance_pct)
      else Ok (true, WithinOfPivot distance_pct).

Definition check_higher_lows (df : DataFrame) : bool * message :=
  if (length df <? 60)%nat then (false, InsufficientData)
  else
    let lows := col low df in
    let low_10_current := series_min (islice lows (Some (-10)%Z) None) in
    let low_10_past := series_min (islice lows (Some (-20)%Z) (Some (-10)%Z)) in
    let low_20_current := series_min (islice lows (Some (-20)%Z) None) in
    let low_20_past := series_min (islice lows (Some (-40)%Z) (Some (-20)%Z)) in
    let low_30_current := series_min (islice lows (Some (-30)%Z) None) in
    let low_30_past := series_min (islice lows (Some (-60)%Z) (Some (-30)%Z)) in
    if (low_10_current <=? low_10_past)%float then (false, HL10Failed)
    else if (low_20_current <=? low_20_past)%float then (false, HL20Failed)
    else if (low_30_current <=? low_30_past)%float then (false, HL30Failed)
    else (true, HigherLowsConfirmed).

(** The loop over [comparison_points] of [check_volume_contracting]. *)
Fixpoint count_contractions (vol_sma : Series) (current_vol_sma : float)
  (comparison_points : list Z) (contractions : nat) : result nat :=
  match comparison_points with
  | [] => Ok contractions
  | offset :: rest =>
      if (offset <? Z.of_nat (length vol_sma))%Z then
        past_vol_sma <- iloc vol_sma (- (offset + 1))%Z ;;
        count_contractions vol_sma current_vol_sma rest
          (if (current_vol_sma <? past_vol_sma)%float then S contractions else contractions)
      else count_contractions vol_sma current_vol_sma rest contractions
  end.

Definition check_volume_contracting (df : DataFrame) : result (bool * float) :=
  if (length df <? 50)%nat then Ok (false, fin 0)
  else
    let vol_sma := rolling 20 series_mean (col volume df) in
    current_vol_sma <- iloc vol_sma (-2) ;;
    contractions <- count_contractions vol_sma current_vol_sma
                      [5; 10; 15; 20; 25; 30]%Z 0%nat ;;
    if (contractions =? 0)%nat then Ok (false, fin 0)
    else
      if (30 <? length vol_sma)%nat then
        let max_past_vol := series_max (islice vol_sma (Some (-31)%Z) (Some (-1)%Z)) in
        if (max_past_vol >? fin 0)%float
        then Ok (true, (((max_past_vol - current_vol_sma) / max_past_vol) * fin 100)%float)
        else Ok (true, fin 0)
      else Ok (true, fin 0).

(* ===================================================================== *)
(** ** services/vcp_scanner.py: the leg extractor *)
(* ===================================================================== *)

(** The variables the [while] loop of [detect_vcp_legs] updates. *)
Record LegScan : Type := mkLegScan {
  scan_legs : list VCPLeg;
  scan_leg_number : nat;
  scan_prev_pullback_depth : Q
}.

(** [analysis_df.loc[idx, name]] for a label [idx] of the frame. *)
Definition loc (f : Bar -> Q) (df : DataFrame) (idx : nat) : Q :=
  nth idx (values f df) 0.

Definition date_of (df : DataFrame) (idx : nat) : string :=
  nth idx (map date df) EmptyString.

(** The leg built from the swing [high_idx -> low_idx] once it is accepted. *)
Definition make_leg (analysis_df : DataFrame) (leg_number : nat)
  (high_idx low_idx : nat) (high_price low_price pullback_depth : Q) : VCPLeg :=
  let high_pos := high_idx in
  let low_pos := low_idx in
  let duration := (low_pos - high_pos)%nat in
  let volumes := col volume analysis_df in
  let leg_volume :=
    series_mean (islice volumes (Some (Z.of_nat high_idx)) (Some (Z.of_nat low_idx + 1)%Z)) in
  let prev_volume :=
    if (20 <? high_pos)%nat
    then series_mean (tail 20 (islice volumes None (Some (Z.of_nat high_pos))))
    else leg_volume in
  let volume_ratio :=
    if (prev_volume >? fin 0)%float then (leg_volume / prev_volume)%float else fin 1 in
  {| leg_number := leg_number;
     start_date := date_of analysis_df high_idx;
     end_date := date_of analysis_df low_idx;
     high_price := py_round high_price 2;
     low_price := py_round low_price 2;
     pullback_depth := py_round pullback_depth 2;
     volume_ratio := fround volume_ratio 2;
     duration_days := duration |}.

(** The [while i < len(high_indices) - 1 and leg_number < 5] loop, by
    recursion on the local highs still to visit (all but the last one). *)
Fixpoint leg_loop (analysis_df : DataFrame) (low_indices : list nat)
  (highs_to_visit : list nat) (st : LegScan) : LegScan :=
  match highs_to_visit with
  | [] => st
  | high_idx :: rest =>
      if (scan_leg_number st <? 5)%nat then
        let high_price := loc high analysis_df high_idx in
        let next_lows := filter (fun l => (high_idx <? l)%nat) low_indices in
        match next_lows with
        | [] => st
        | low_idx :: _ =>
            let low_price := loc low analysis_df low_idx in
            let pullback_depth := ((high_price - low_price) / high_price) * 100 in
            if Qltb pullback_depth (scan_prev_pullback_depth st) && Qltb 2 pullback_depth
            then
              let leg_number := S (scan_leg_number st) in
              let leg := make_leg analysis_df leg_number high_idx low_idx
                                  high_price low_price pullback_depth in
              leg_loop analysis_df low_indices rest
                {| scan_legs := scan_legs st ++ [leg];
                   scan_leg_number := leg_number;
                   scan_prev_pullback_depth := pullback_depth |}
            else leg_loop analysis_df low_indices rest st
        end
      else st
  end.

(** Python's [max(xs)] and [min(xs)] over a non-empty sequence [x :: xs]. *)
Definition py_max_of (x : Q) (xs : list Q) : Q := fold_left Qpy_max xs x.
Definition py_min_of (x : Q) (xs : list Q) : Q := fold_left Qpy_min xs x.

(** [rolling(5, center=True).max() == high] and the same for the lows. *)
Definition local_extremes (agg : Series -> float) (s : Series) : list nat :=
  mask_positions 0 (zip_with feqb (rolling_center 5 agg s) s).

Definition detect_vcp_legs (df : DataFrame) : list VCPLeg * Q :=
  if (length df <? 60)%nat then ([], 0)
  else
    let analysis_df := tail 126 df in
    let high_indices := local_extremes series_max (col high analysis_df) in
    let low_indices := local_extremes series_min (col low analysis_df) in
    if (length high_indices <? 2)%nat || (length low_indices <? 2)%nat then ([], 0)
    else
      let st := leg_loop analysis_df low_indices (removelast high_indices)
                  {| scan_legs := []; scan_leg_number := 0;
                     scan_prev_pullback_depth := 100 |} in
      let legs := scan_legs st in
      let total_depth :=
        match legs with
        | leg :: others =>
            let overall_high := py_max_of (high_price leg) (map high_price others) in
            let overall_low := py_min_of (low_price leg) (map low_price others) in
            ((overall_high - overall_low) / overall_high) * 100
        | [] => 0
        end in
      (legs, total_depth).

(* ===================================================================== *)
(** ** services/vcp_scanner.py: the score *)
(* ===================================================================== *)

(** [sum(1 for i in range(1, len(legs)) if legs[i].pullback_depth <
    legs[i-1].pullback_depth)] *)
Fixpoint count_contracting_pairs (legs : list VCPLeg) : nat :=
  match legs with
  | prev :: ((next :: _) as rest) =>
      ((if Qltb (pullback_depth next) (pullback_depth prev) then 1 else 0)
       + count_contracting_pairs rest)%nat
  | _ => 0%nat
  end.

Definition of_nat (n : nat) : Q := inject_Z (Z.of_nat n).

Definition calculate_vcp_score (legs : list VCPLeg)
  (base_depth volume_dry_up rs_percentile distance_from_pivot : float) : float :=
  let score := fin 0 in
  let leg_score := of_nat (Nat.min (length legs * 5) 20) in
  let score := (score + fin leg_score)%float in
  let score :=
    if (2 <=? length legs)%nat then
      let contractions := count_contracting_pairs legs in
      let contraction_score := (of_nat contractions / of_nat (length legs - 1)) * 25 in
      (score + fin contraction_score)%float
    else score in
  let score :=
    if (fin 10 <=? base_depth)%float && (base_depth <=? fin 20)%float then
      let depth_score := (fin 20 - fabs (base_depth - fin (25 # 2)) * fin 2)%float in
      (score + py_max depth_score (fin 0))%float
    else score in
  let vol_score := py_min (volume_dry_up / fin 2)%float (fin 15) in
  let score := (score + vol_score)%float in
  let rs_score := py_min (rs_percentile / fin 10)%float (fin 10) in
  let score := (score + rs_score)%float in
  let proximity_score :=
    if (distance_from_pivot <=? fin 5)%float then fin 10
    else if (distance_from_pivot <=? fin 10)%float
    then (fin 10 - (distance_from_pivot - fin 5))%float
    else fin 0 in
  let score := (score + proximity_score)%float in
  fround (py_min score (fin 100)) 1.

(* ===================================================================== *)
(** ** services/vcp_scanner.py: scanning *)
(* ===================================================================== *)

(** The scanner object: [__init__] sets [settings] to [VCP_SETTINGS], no
    benchmark and an empty cohort. *)
Record VCPScanner : Type := mkVCPScanner {
  settings : VcpSettings;
  benchmark_data : option DataFrame;
  all_stocks_data : list (string * DataFrame)
}.

Definition new_scanner : VCPScanner :=
  {| settings := VCP_SETTINGS; benchmark_data := None; all_stocks_data := [] |}.

Definition _load_benchmark (data_fetcher : DataFetcher) (self : VCPScanner) : VCPScanner :=
  match benchmark_data self with
  | None => {| settings := settings self;
               benchmark_data := get_benchmark_data data_fetcher;
               all_stocks_data := all_stocks_data self |}
  | Some _ => self
  end.

(** Lines 319-325 of [scan_stock]: the [rs_percentile] that is passed to the
    liquidity filter and to the score. *)
Definition scan_rs_percentile (benchmark : option DataFrame) (df : DataFrame) : result Q :=
  match benchmark with
  | Some benchmark_df =>
      rs <- calculate_relative_strength df benchmark_df 252 ;;
      Ok (Qpy_min (Qpy_max (50 + rs) 0) 100)
  | None => Ok 50
  end.

(** A dictionary value stored in an [Optional[str]] field of a model. *)
Definition as_optional_str (v : pyval) : result (option string) :=
  match v with
  | PStr s => Ok (Some s)
  | PNone => Ok None
  | PNum _ => Raise ValidationError
  end.

Definition stock_name_of (info : option Info) (symbol : string) : result (option string) :=
  if info_truthy info
  then as_optional_str (dict_get (info_dict info) "longName" (PStr symbol))
  else Ok (Some symbol).

(** Truth value of a float: zero is false, NaN is true. *)
Definition float_truthy (a : float) : bool := negb (a =? fin 0)%float.

(** The body of the [try] of [scan_stock], after the series was fetched and
    the benchmark loaded. *)
Definition scan_stock_body (settings : VcpSettings) (data_fetcher : DataFetcher)
  (benchmark : option DataFrame) (symbol : string) (df : DataFrame)
  : result (option VCPSetup) :=
  let info := get_stock_info data_fetcher symbol in
  rs_percentile <- scan_rs_percentile benchmark df ;;
  '(liquidity_pass, _) <- check_liquidity_filter settings df info rs_percentile ;;
  if negb liquidity_pass then Ok None else
  '(uptrend_pass, uptrend_msg) <- check_uptrend_near_breakout df ;;
  if negb uptrend_pass then Ok None else
  let '(hl_pass, _) := check_higher_lows df in
  if negb hl_pass then Ok None else
  '(vol_pass, vol_dry_up) <- check_volume_contracting df ;;
  if negb vol_pass then Ok None else
  let '(legs, base_depth) := detect_vcp_legs df in
  if (length legs <? min_legs settings)%nat then Ok None else
  if Qltb (final_base_depth_max settings * 100) base_depth then Ok None else
  current_price <- iloc (values close df) (-1) ;;
  sma_20 <- iloc (rolling 20 series_mean (col close df)) (-1) ;;
  sma_50 <- iloc (rolling 50 series_mean (col close df)) (-1) ;;
  sma_200 <- (if (200 <=? length df)%nat
              then (x <- iloc (rolling 200 series_mean (col close df)) (-1) ;; Ok (Some x))
              else Ok None) ;;
  let pivot_price := series_max (islice (col high df) (Some (-101)%Z) (Some (-1)%Z)) in
  let distance_from_pivot :=
    (((pivot_price - fin current_price) / pivot_price) * fin 100)%float in
  rs <- match benchmark with
        | Some benchmark_df => calculate_relative_strength df benchmark_df 252
        | None => Ok 0
        end ;;
  let score := calculate_vcp_score legs (fin base_depth) vol_dry_up (fin rs_percentile)
                                   distance_from_pivot in
  name <- stock_name_of info symbol ;;
  Ok (Some {|
    symbol := symbol;
    stock_name := name;
    current_price := py_round current_price 2;
    legs := legs;
    total_base_depth := py_round base_depth 2;
    base_duration_days := fold_right Nat.add 0%nat (map duration_days legs);
    pivot_price := fround pivot_price 2;
    distance_from_pivot := fround distance_from_pivot 2;
    relative_strength := py_round rs 2;
    rs_percentile := py_round rs_percentile 1;
    volume_dry_up := fround vol_dry_up 1;
    trend_alignment := (fin current_price >? sma_20)%float && (sma_20 >? sma_50)%float;
    score := score;
    detected_at := now_isoformat data_fetcher;
    sma_20 := fround sma_20 2;
    sma_50 := fround sma_50 2;
    sma_200 := match sma_200 with
               | Some x => if float_truthy x then Some (fround x 2) else None
               | None => None
               end
  |}).

Definition scan_stock (data_fetcher : DataFetcher) (self : VCPScanner) (symbol : string)
  : VCPScanner * option VCPSetup :=
  match get_stock_data data_fetcher symbol with
  | None => (self, None)
  | Some df =>
      if (length df <? 100)%nat then (self, None)
      else
        let self := _load_benchmark data_fetcher self in
        (self, try_or_none (scan_stock_body (settings self) data_fetcher
                                            (benchmark_data self) symbol df))
  end.

(** [results.sort(key=..., reverse=True)]: a stable sort, largest key first. *)
Fixpoint insert_desc {A : Type} (key : A -> float) (x : A) (l : list A) : list A :=
  match l with
  | [] => [x]
  | y :: l' => if (key y <? key x)%float then x :: y :: l' else y :: insert_desc key x l'
  end.

Definition sort_desc {A : Type} (key : A -> float) (l : list A) : list A :=
  fold_left (fun acc x => insert_desc key x acc) l [].

Definition scan_universe (data_fetcher : DataFetcher) (self : VCPScanner)
  (symbols : option (list string)) : VCPScanner * list VCPSetup :=
  let symbols := match symbols with Some l => l | None => NIFTY_500_SYMBOLS end in
  let self := _load_benchmark data_fetcher self in
  let self := {| settings := settings self;
                 benchmark_data := benchmark_data self;
                 all_stocks_data := get_multiple_stocks data_fetcher symbols |} in
  let '(self, results) :=
    fold_left (fun '(self, results) symbol =>
                 let '(self, setup) := scan_stock data_fetcher self symbol in
                 match setup with
                 | Some s => (self, results ++ [s])
                 | None => (self, results)
                 end)
              symbols (self, []) in
  (self, sort_desc score results).

(* ===================================================================== *)
(** ** services/breakout_finder.py *)
(* ===================================================================== *)

Definition check_breakout_conditions (settings : BreakoutSettings) (df : DataFrame)
  : result (bool * float * float) :=
  if (length df <? 101)%nat then Ok (false, fin 0, fin 0)
  else
    current_close <- iloc (col close df) (-1) ;;
    current_volume <- iloc (col volume df) (-1) ;;
    let pivot_price := series_max (islice (col high df) (Some (-101)%Z) (Some (-1)%Z)) in
    if (current_close <=? pivot_price)%float then Ok (false, fin 0, pivot_price)
    else
      vol_sma_20 <- iloc (rolling 20 series_mean (col volume df)) (-2) ;;
      let relative_volume :=
        if (vol_sma_20 >? fin 0)%float then (current_volume / vol_sma_20)%float else fin 0 in
      if (relative_volume <? fin (relative_volume_threshold settings))%float
      then Ok (false, relative_volume, pivot_price)
      else Ok (true, relative_volume, pivot_price).

(** [pd.concat([tr1, tr2, tr3], axis=1).max(axis=1)] of [_calculate_atr]. *)
Fixpoint true_range (highs lows prev_closes : Series) : Series :=
  match highs, lows, prev_closes with
  | h :: hs, l :: ls, c :: cs =>
      series_max [(h - l)%float; fabs (h - c)%float; fabs (l - c)%float]
      :: true_range hs ls cs
  | _, _, _ => []
  end.

Definition _calculate_atr (df : DataFrame) (period : nat) : result float :=
  let tr := true_range (col high df) (col low df) (shift1 (col close df)) in
  iloc (rolling period series_mean tr) (-1).

Definition calculate_confirmation_score (df : DataFrame) (relative_volume : float)
  : result float :=
  let score := fin 0 in
  current <- iloc df (-1) ;;
  previous <- iloc df (-2) ;;
  atr_14 <- _calculate_atr df 14 ;;
  let daily_range := high current - low current in
  let score :=
    if (atr_14 >? fin 0)%float then
      let range_ratio := (fin daily_range / atr_14)%float in
      (score + py_min (range_ratio * fin 10)%float (fin 25))%float
    else score in
  let score :=
    if Qltb 0 daily_range then
      let close_position := (close current - low current) / daily_range in
      (score + fin (close_position * 25))%float
    else score in
  let gap_pct := ((open current - close previous) / close previous) * 100 in
  let score :=
    if Qltb 0 gap_pct then (score + fin (Qpy_min (gap_pct * 5) 25))%float else score in
  let vol_score := py_min ((relative_volume - fin 1) * fin (25 # 2))%float (fin 25) in
  let score := (score + py_max vol_score (fin 0))%float in
  Ok (fround (py_min score (fin 100)) 1).

(** The body of the [try] of [find_breakout], once the series is there. *)
Definition find_breakout_body (settings : BreakoutSettings) (data_fetcher : DataFetcher)
  (symbol : string) (setup : option VCPSetup) (df : DataFrame)
  : result (option BreakoutCandidate) :=
  '(is_breakout, relative_volume, pivot_price) <- check_breakout_conditions settings df ;;
  if negb is_breakout then Ok None else
  let info := get_stock_info data_fetcher symbol in
  current <- iloc df (-1) ;;
  previous <- iloc df (-2) ;;
  let breakout_price := close current in
  let price_change_pct := ((breakout_price - close previous) / close previous) * 100 in
  let gap_up_pct := ((open current - close previous) / close previous) * 100 in
  confirmation_score <- calculate_confirmation_score df relative_volume ;;
  name <- stock_name_of info symbol ;;
  Ok (Some {|
    bc_symbol := symbol;
    bc_stock_name := name;
    breakout_date := date current;
    breakout_price := py_round breakout_price 2;
    bc_pivot_price := fround pivot_price 2;
    breakout_volume := py_int (volume current);
    relative_volume := fround relative_volume 2;
    price_change_pct := py_round price_change_pct 2;
    gap_up_pct := py_round gap_up_pct 2;
    confirmation_score := confirmation_score;
    vcp_setup := setup
  |}).

Definition find_breakout (settings : BreakoutSettings) (data_fetcher : DataFetcher)
  (symbol : string) (setup : option VCPSetup) : option BreakoutCandidate :=
  match get_stock_data data_fetcher symbol with
  | None => None
  | Some df =>
      if (length df <? 101)%nat then None
      else try_or_none (find_breakout_body settings data_fetcher symbol setup df)
  end.

Definition scan_for_breakouts (settings : BreakoutSettings) (data_fetcher : DataFetcher)
  (symbols : option (list string)) : list BreakoutCandidate :=
  let symbols := match symbols with Some l => l | None => NIFTY_500_SYMBOLS end in
  let breakouts :=
    fold_left (fun breakouts symbol =>
                 match find_breakout settings data_fetcher symbol None with
                 | Some b => breakouts ++ [b]
                 | None => breakouts
                 end)
              symbols [] in
  sort_desc confirmation_score breakouts.

Definition scan_vcp_breakouts (settings : BreakoutSettings) (data_fetcher : DataFetcher)
  (vcp_setups : list VCPSetup) : list BreakoutCandidate :=
  fold_left (fun breakouts setup =>
               match find_breakout settings data_fetcher (symbol setup) (Some setup) with
               | Some b => breakouts ++ [b]
               | None => breakouts
               end)
            vcp_setups [].

(* ===================================================================== *)
(** ** services/data_fetcher.py: symbols *)
(* ===================================================================== *)

(** [s.endswith(suffix)] *)
Definition endswith (s suffix : string) : bool :=
  let n := String.length s in
  let m := String.length suffix in
  (m <=? n)%nat && String.eqb (substring (n - m) m s) suffix.

Definition _get_yf_symbol (symbol : string) : string :=
  if negb (endswith symbol ".NS") then (symbol ++ ".NS")%string else symbol.

(* ===================================================================== *)
(** ** services/fundamental.py *)
(* ===================================================================== *)

Module FundamentalAnalyzer.

(** [models.stock.FundamentalData] *)
Record FundamentalData : Type := mkFundamentalData {
  symbol : string;
  market_cap : Q;
  market_cap_category : string;
  pe_ratio : option Q;
  pb_ratio : option Q;
  eps : option Q;
  revenue_growth_yoy : option Q;
  earnings_growth_yoy : option Q;
  debt_to_equity : option Q;
  roe : option Q;
  roa : option Q;
  current_ratio : option Q;
  dividend_yield : option Q;
  beta : option Q;
  sector : option string;
  industry : option string;
  quality_score : Q
}.

Definition _classify_market_cap (market_cap : Q) : string :=
  if Qle_bool 200000000000 market_cap then "Large Cap"
  else if Qle_bool 50000000000 market_cap then "Mid Cap"
  else "Small Cap".

(** Truth value of a dictionary value. *)
Definition pyval_truthy (v : pyval) : bool :=
  match v with
  | PNum q => negb (Qeq_bool q 0)
  | PStr s => negb (String.eqb s "")
  | PNone => false
  end.

(** [data.get(key, default) or default] *)
Definition get_or (data : Info) (key : string) (default : Q) : pyval :=
  let v := dict_get data key (PNum default) in
  if pyval_truthy v then v else PNum default.

(** [x > y] and [x < y] for a dictionary value [x] and a number [y]. *)
Definition pyval_gtb (x : pyval) (y : Q) : result bool :=
  match x with
  | PNum q => Ok (Qltb y q)
  | PStr _ | PNone => Raise TypeError
  end.

(** An [if x > t1: a1 / elif x > t2: a2 / ...] ladder: the points of the
    first threshold that [x] exceeds, none if it exceeds no threshold. *)
Fixpoint points_above (x : pyval) (ladder : list (Q * Z)) : result Z :=
  match ladder with
  | [] => Ok 0%Z
  | (threshold, points) :: rest =>
      above <- pyval_gtb x threshold ;;
      if above then Ok points else points_above x rest
  end.

(** The same ladder with [x < t]. *)
Fixpoint points_below (x : pyval) (ladder : list (Q * Z)) : result Z :=
  match ladder with
  | [] => Ok 0%Z
  | (threshold, points) :: rest =>
      below <- pyval_ltb x threshold ;;
      if below then Ok points else points_below x rest
  end.

Definition _calculate_quality_score (data : Info) : result Z :=
  let score := 0%Z in
  let earnings_growth := get_or data "earningsGrowth" 0 in
  p <- points_above earnings_growth
         [(25 # 100, 20%Z); (15 # 100, 15%Z); (10 # 100, 10%Z); (0, 5%Z)] ;;
  let score := (score + p)%Z in
  let revenue_growth := get_or data "revenueGrowth" 0 in
  p <- points_above revenue_growth [(20 # 100, 15%Z); (10 # 100, 10%Z); (0, 5%Z)] ;;
  let score := (score + p)%Z in
  let roe := get_or data "returnOnEquity" 0 in
  p <- points_above roe [(20 # 100, 20%Z); (15 # 100, 15%Z); (10 # 100, 10%Z); (0, 5%Z)] ;;
  let score := (score + p)%Z in
  let de_ratio := get_or data "debtToEquity" 100 in
  p <- points_below de_ratio [(30, 15%Z); (50, 10%Z); (100, 5%Z)] ;;
  let score := (score + p)%Z in
  let profit_margin := get_or data "profitMargins" 0 in
  p <- points_above profit_margin [(15 # 100, 15%Z); (10 # 100, 10%Z); (5 # 100, 5%Z)] ;;
  let score := (score + p)%Z in
  let current_ratio := get_or data "currentRatio" 0 in
  p <- points_above current_ratio [(2, 15%Z); (15 # 10, 10%Z); (1, 5%Z)] ;;
  let score := (score + p)%Z in
  (* [round(n, 1)] of an integer [n] is [n] *)
  Ok (Z.min score 100).

End FundamentalAnalyzer.

(* ===================================================================== *)
(** ** services/sentiment.py *)
(* ===================================================================== *)

Module SentimentAnalyzer.

Inductive SentimentType : Type :=
| POSITIVE
| NEGATIVE
| NEUTRAL.

(** An entry of the list [_fetch_news] returns. *)
Record Article : Type := mkArticle {
  title : string;
  summary : string;
  published : string;
  link : string
}.

Record SentimentData : Type := mkSentimentData {
  symbol : string;
  news_sentiment_score : Q;
  sentiment_label : SentimentType;
  news_count : nat;
  positive_news : nat;
  negative_news : nat;
  neutral_news : nat;
  top_headlines : list string;
  analyzed_at : string
}.

(** An entry of a parsed feed: [entry.title] may be missing (reading it then
    raises), the other fields are read with [entry.get(name, '')]. *)
Record Entry : Type := mkEntry {
  entry_title : option string;
  entry_summary : string;
  entry_published : string;
  entry_link : string
}.

(** What lies outside the analyzer: the entries (or the exception)
    [feedparser.parse] gives for a source template formatted with a symbol,
    the polarity TextBlob gives a text ([_analyze_sentiment], 0.0 when it
    fails) and the clock. *)
Record Services : Type := mkServices {
  parse_feed : string -> string -> result (list Entry);
  _analyze_sentiment : string -> Q;
  now_isoformat : string
}.

Definition NEWS_SOURCES : list string :=
  ["https://news.google.com/rss/search?q={symbol}+stock+india&hl=en-IN&gl=IN&ceid=IN:en"%string].

(** The inner loop of [_fetch_news]: entries are appended until one has no
    title; what was appended before stays. *)
Fixpoint append_entries (articles : list Article) (entries : list Entry) : list Article :=
  match entries with
  | [] => articles
  | entry :: rest =>
      match entry_title entry with
      | Some t =>
          append_entries
            (articles ++ [mkArticle t (entry_summary entry) (entry_published entry)
                                    (entry_link entry)])
            rest
      | None => articles
      end
  end.

Definition _fetch_news (self : Services) (symbol : string) (limit : nat) : list Article :=
  let articles :=
    fold_left (fun articles source_template =>
                 match parse_feed self source_template symbol with
                 | Ok entries => append_entries articles (firstn limit entries)
                 | Raise _ => articles
                 end)
              NEWS_SOURCES [] in
  firstn limit articles.

Definition _classify_sentiment (score : Q) : SentimentType :=
  if Qltb (1 # 10) score then POSITIVE
  else if Qltb score (- (1 # 10)) then NEGATIVE
  else NEUTRAL.

(** The variables the loop over the articles updates. *)
Record Tally : Type := mkTally {
  sentiments : list Q;
  positive_count : nat;
  negative_count : nat;
  neutral_count : nat
}.

Definition tally_article (self : Services) (t : Tally) (article : Article) : Tally :=
  let text := (title article ++ " " ++ summary article)%string in
  let sentiment := _analyze_sentiment self text in
  let sentiments := sentiments t ++ [sentiment] in
  if Qltb (1 # 10) sentiment
  then mkTally sentiments (S (positive_count t)) (negative_count t) (neutral_count t)
  else if Qltb sentiment (- (1 # 10))
  then mkTally sentiments (positive_count t) (S (negative_count t)) (neutral_count t)
  else mkTally sentiments (positive_count t) (negative_count t) (S (neutral_count t)).

(** [sum(xs)] *)
Definition py_sum (xs : list Q) : Q := fold_left Qplus xs 0.

Definition analyze (self : Services) (symbol : string) : option SentimentData :=
  let articles := _fetch_news self symbol 10 in
  match articles with
  | [] =>
      Some {| symbol := symbol;
              news_sentiment_score := 0;
              sentiment_label := NEUTRAL;
              news_count := 0;
              positive_news := 0;
              negative_news := 0;
              neutral_news := 0;
              top_headlines := [];
              analyzed_at := now_isoformat self |}
  | _ =>
      let t := fold_left (tally_article self) articles (mkTally [] 0 0 0) in
      let avg_sentiment :=
        match sentiments t with
        | [] => 0
        | _ => py_sum (sentiments t) / of_nat (length (sentiments t))
        end in
      let top_headlines := map title (firstn 5 articles) in
      Some {| symbol := symbol;
              news_sentiment_score := py_round avg_sentiment 3;
              sentiment_label := _classify_sentiment avg_sentiment;
              news_count := length articles;
              positive_news := positive_count t;
              negative_news := negative_count t;
              neutral_news := neutral_count t;
              top_headlines := top_headlines;
              analyzed_at := now_isoformat self |}
  end.

End SentimentAnalyzer.

(* ===================================================================== *)
(** ** api/routes.py: the combined score of [get_full_analysis] *)
(* ===================================================================== *)

(** Lines 160-177 of [get_full_analysis]: the blend of the VCP score, the
    fundamental quality score and the news sentiment score of the analyses
    that are there. *)
Definition combined_score_of (vcp_setup : option VCPSetup)
  (fundamentals : option FundamentalAnalyzer.FundamentalData)
  (sentiment : option SentimentAnalyzer.SentimentData) : float :=
  let combined_score := fin 0 in
  let components := 0%nat in
  let '(combined_score, components) :=
    match vcp_setup with
    | Some setup => ((combined_score + score setup * fin (4 # 10))%float, S components)
    | None => (combined_score, components)
    end in
  let '(combined_score, components) :=
    match fundamentals with
    | Some f =>
        ((combined_score + fin (FundamentalAnalyzer.quality_score f * (3 # 10)))%float,
         S components)
    | None => (combined_score, components)
    end in
  let '(combined_score, components) :=
    match sentiment with
    | Some s =>
        let sentiment_score := (SentimentAnalyzer.news_sentiment_score s + 1) * 50 in
        ((combined_score + fin (sentiment_score * (3 # 10)))%float, S components)
    | None => (combined_score, components)
    end in
  if (0 <? components)%nat
  then (combined_score / fin ((4 # 10) + (3 # 10) + (3 # 10))
        * fin (of_nat components) / fin 3 * fin 100)%float
  else combined_score.

(** Lines 179-187 of [get_full_analysis]. *)
Definition recommendation_of (combined_score : float) : string :=
  if (combined_score >=? fin 70)%float then "STRONG BUY"
  else if (combined_score >=? fin 55)%float then "BUY"
  else if (combined_score >=? fin 40)%float then "HOLD"
  else "AVOID".

(* ===================================================================== *)
(** ** Vocabulary of the properties *)
(* ===================================================================== *)

Definition depths (legs : list VCPLeg) : list Q := map pullback_depth legs.

(** [R l[i] l[i-1]] for every [i > 0]. *)
Definition consecutive (R : Q -> Q -> Prop) (l : list Q) : Prop :=
  forall i prev next,
    nth_error l i = Some prev -> nth_error l (S i) = Some next -> R next prev.

(** The contraction invariant on the stored depths, strict and weak. *)
Definition strict_contraction (legs : list VCPLeg) : Prop :=
  consecutive Qlt (depths legs) /\ Forall (fun d => 2 < d) (depths legs).

Definition weak_contraction (legs : list VCPLeg) : Prop :=
  consecutive Qle (depths legs) /\ Forall (fun d => 2 <= d) (depths legs).

(** What the loop of [detect_vcp_legs] maintains: the stored depths are the
    roundings of the unrounded depths [raw], which decrease strictly, exceed
    2 and are bounded below by the last accepted one. *)
Definition leg_inv (st : LegScan) : Prop :=
  exists raw : list Q,
    depths (scan_legs st) = map (fun d => py_round d 2) raw
    /\ consecutive Qlt raw
    /\ Forall (fun d => 2 < d) raw
    /\ Forall (fun d => scan_prev_pullback_depth st <= d) raw
    /\ length (scan_legs st) = scan_leg_number st
    /\ (scan_leg_number st <= 5)%nat.

(** The pivot of the breakout test and of the near-breakout filter:
    [df['high'].iloc[-101:-1].max()]. *)
Definition trailing_pivot (df : DataFrame) : float :=
  series_max (islice (col high df) (Some (-101)%Z) (Some (-1)%Z)).

(** A float that is a number and not negative. *)
Definition nonneg (a : float) : Prop := Fle (fin 0) a.

(** The settings with another market-cap floor. *)
Definition with_min_market_cap (cap : Q) (s : VcpSettings) : VcpSettings :=
  {| min_market_cap := cap;
     min_legs := min_legs s;
     max_legs := max_legs s;
     final_base_depth_max := final_base_depth_max s;
     lookback_days := lookback_days s;
     volume_sma_period := volume_sma_period s;
     rs_percentile_min := rs_percentile_min s |}.

(** Percentile rank as the specification words it (section 4.1): the
    fraction of cohort members whose relative strength is strictly less than
    the target's, times 100; 50 for an empty cohort. *)
Definition spec_percentile_rank (target_rs : Q) (cohort_rs : list Q) : Q :=
  match cohort_rs with
  | [] => 50
  | _ => of_nat (length (filter (fun x => Qltb x target_rs) cohort_rs))
         / of_nat (length cohort_rs) * 100
  end.

(* ===================================================================== *)
(** ** Example series *)
(* ===================================================================== *)

Definition day_label (i : nat) : string :=
  ("day-" ++ NilZero.string_of_uint (Nat.to_uint i))%string.

(** [n] prices going linearly from [a] towards [b] ([b] itself excluded). *)
Definition segment (a b : Q) (n : nat) : list Q :=
  map (fun k => Qred (a + (b - a) * (Z.of_nat k # Pos.of_nat n))) (seq 0 n).

(** One bar per price [p]: it opens and closes at [p], trades between [p-1]
    and [p+1], on a volume that shrinks by 100 a day. *)
Definition bars_of (path : list Q) : DataFrame :=
  map (fun '(i, p) =>
         mkBar (day_label i) p (p + 1) (p - 1) p (100000 - 100 * of_nat i))
      (combine (seq 0 (length path)) path).

(** 60 bars that rise by one point a day: no local high, no local low. *)
Definition rising_df : DataFrame := bars_of (segment 100 160 60).

(** 100 bars that rise by one point a day. *)
Definition hundred_df : DataFrame := bars_of (segment 100 200 100).

(** 60 bars with two swings of depth 2.004% and 2.002% (highs of 1000, lows
    of 979.96 and 979.98) and a third local high. *)
Definition rounding_df : DataFrame :=
  bars_of (segment 900 999 20 ++ segment 999 (98096 # 100) 8
           ++ segment (98096 # 100) 999 8 ++ segment 999 (98098 # 100) 8
           ++ segment (98098 # 100) 1005 8 ++ segment 1005 995 8).

(** 101 bars at a constant price with a last bar that closes at [last_close]
    and no volume at all. *)
Definition no_volume_df (last_close : Q) : DataFrame :=
  map (fun i => mkBar (day_label i) 100 101 99 100 0) (seq 0 100)
  ++ [mkBar (day_label 100) 100 (last_close + 1) 99 last_close 0].

Definition const_fetcher (df : DataFrame) : DataFetcher := {|
  get_stock_data := fun _ => Some df;
  get_stock_info := fun _ => None;
  get_benchmark_data := None;
  now_isoformat := "2024-01-01T00:00:00"
|}.

(** 100 quiet bars, then a bar that gaps up and closes 4% above the pivot
    of 101 on one and a half times the average volume. *)
Definition breakout_df : DataFrame :=
  map (fun i => mkBar (day_label i) 100 101 99 100 1000) (seq 0 100)
  ++ [mkBar (day_label 100) 102 106 101 105 1500].

(** 252 bars: a year-long advance from 50, then (inside the last 126 bars)
    four swings 100 -> 91 -> 102 -> 96 -> 104 -> 100 -> 106 -> 103 and a rise
    to a last close of 105. *)
Definition swing_path : list Q :=
  segment 50 100 146 ++ segment 100 91 15 ++ segment 91 102 20 ++ segment 102 96 10
  ++ segment 96 104 20 ++ segment 104 100 7 ++ segment 100 106 18 ++ segment 106 103 5
  ++ segment 103 105 10 ++ [105].

Definition vcp_df : DataFrame := bars_of swing_path.

(** 252 bars at a constant price of 100. *)
Definition flat_df : DataFrame := bars_of (repeat 100 252).

(** A provider that knows two symbols and has the flat series as benchmark. *)
Definition demo_fetcher : DataFetcher := {|
  get_stock_data := fun s =>
    if String.eqb s "ACME" then Some vcp_df
    else if String.eqb s "FLAT" then Some flat_df
    else None;
  get_stock_info := fun _ => None;
  get_benchmark_data := Some flat_df;
  now_isoformat := "2024-01-01T00:00:00"
|}.

(* ===================================================================== *)
(** ** Vocabulary of the further properties *)
(* ===================================================================== *)

(** The return in percent over the last [period] bars: last close against
    the close [period] bars from the end. *)
Definition trailing_return (df : DataFrame) (period : Z) : Q :=
  let closes := values close df in
  let n := length closes in
  (nth (n - 1) closes 0 / nth (n - Z.to_nat period) closes 0 - 1) * 100.

(** [key in d] and [d[key]] on an insertion-ordered dictionary. *)
Fixpoint dict_lookup {V : Type} (d : list (string * V)) (key : string) : option V :=
  match d with
  | [] => None
  | (k, v) :: d' => if String.eqb k key then Some v else dict_lookup d' key
  end.

(** The numbering the loop of [detect_vcp_legs] maintains. *)
Definition leg_numbered (st : LegScan) : Prop :=
  map leg_number (scan_legs st) = seq 1 (scan_leg_number st)
  /\ Forall (fun l => (1 <= duration_days l)%nat) (scan_legs st)
  /\ length (scan_legs st) = scan_leg_number st.

(** The setups found for a list of symbols, in scan order. *)
Definition setups_found (data_fetcher : DataFetcher) (self : VCPScanner)
  (symbols : list string) : list VCPSetup :=
  flat_map (fun s => match snd (scan_stock data_fetcher self s) with
                     | Some r => [r]
                     | None => []
                     end) symbols.

(** A list in descending order of a float key, all keys being numbers. *)
Fixpoint sorted_desc {A : Type} (key : A -> float) (l : list A) : Prop :=
  match l with
  | [] => True
  | x :: l' => Forall (fun y => Fle (key y) (key x)) l' /\ sorted_desc key l'
  end.

(** The candidates found for a list of symbols, in scan order. *)
Definition breakouts_found (settings : BreakoutSettings) (data_fetcher : DataFetcher)
  (symbols : list string) : list BreakoutCandidate :=
  flat_map (fun s => match find_breakout settings data_fetcher s None with
                     | Some b => [b]
                     | None => []
                     end) symbols.

(** A float that is a number. *)
Definition finite (a : float) : Prop := exists q, a = fin q.

(** A metric of an info record that is missing, None, a number or empty
    text: anything but non-empty text. *)
Definition numeric_or_absent (data : Info) (key : string) : Prop :=
  forall s, dict_lookup data key = Some (PStr s) -> s = EmptyString.

(** The six metrics [_calculate_quality_score] reads. *)
Definition quality_metrics : list string :=
  ["earningsGrowth"; "revenueGrowth"; "returnOnEquity"; "debtToEquity";
   "profitMargins"; "currentRatio"]%string.

(** The text [analyze] hands to TextBlob for an article. *)
Definition article_text (a : SentimentAnalyzer.Article) : string :=
  (SentimentAnalyzer.title a ++ " " ++ SentimentAnalyzer.summary a)%string.

(** The weighted mean of the three scores on the 0-100 scale: weights 0.4,
    0.3, 0.3, the news score mapped from [-1, 1] to [0, 100]. *)
Definition weighted_mean (vcp_score quality_score news_sentiment_score : Q) : Q :=
  (4 # 10) * vcp_score + (3 # 10) * quality_score
  + (3 # 10) * ((news_sentiment_score + 1) * 50).

(** A feed of [n] entries titled alike, for the examples. *)
Definition demo_news (polarity : Q) (n : nat) : SentimentAnalyzer.Services := {|
  SentimentAnalyzer.parse_feed := fun _ _ =>
    Ok (repeat (SentimentAnalyzer.mkEntry (Some "Acme beats estimates"%string)
                  EmptyString EmptyString EmptyString) n);
  SentimentAnalyzer._analyze_sentiment := fun _ => polarity;
  SentimentAnalyzer.now_isoformat := "2024-01-01T00:00:00"
|}.

(** A setup, a fundamental record and a sentiment record, for the
    examples. *)
Definition demo_setup : VCPSetup := {|
  symbol := "ACME"; stock_name := None; current_price := 100;
  legs := []; total_base_depth := 10; base_duration_days := 30;
  pivot_price := fin 105; distance_from_pivot := fin 5;
  relative_strength := 12; rs_percentile := 80;
  volume_dry_up := fin 20; trend_alignment := true;
  score := fin 80; detected_at := "2024-01-01T00:00:00";
  sma_20 := fin 98; sma_50 := fin 95; sma_200 := None
|}.

Definition demo_fundamentals : FundamentalAnalyzer.FundamentalData := {|
  FundamentalAnalyzer.symbol := "ACME";
  FundamentalAnalyzer.market_cap := 60000000000;
  FundamentalAnalyzer.market_cap_category := "Mid Cap";
  FundamentalAnalyzer.pe_ratio := None;
  FundamentalAnalyzer.pb_ratio := None;
  FundamentalAnalyzer.eps := None;
  FundamentalAnalyzer.revenue_growth_yoy := None;
  FundamentalAnalyzer.earnings_growth_yoy := None;
  FundamentalAnalyzer.debt_to_equity := None;
  FundamentalAnalyzer.roe := None;
  FundamentalAnalyzer.roa := None;
  FundamentalAnalyzer.current_ratio := None;
  FundamentalAnalyzer.dividend_yield := None;
  FundamentalAnalyzer.beta := None;
  FundamentalAnalyzer.sector := None;
  FundamentalAnalyzer.industry := None;
  FundamentalAnalyzer.quality_score := 60
|}.

Definition demo_sentiment : SentimentAnalyzer.SentimentData := {|
  SentimentAnalyzer.symbol := "ACME";
  SentimentAnalyzer.news_sentiment_score := 1 # 5;
  SentimentAnalyzer.sentiment_label := SentimentAnalyzer.POSITIVE;
  SentimentAnalyzer.news_count := 3;
  SentimentAnalyzer.positive_news := 3;
  SentimentAnalyzer.negative_news := 0;
  SentimentAnalyzer.neutral_news := 0;
  SentimentAnalyzer.top_headlines := [];
  SentimentAnalyzer.analyzed_at := "2024-01-01T00:00:00"
|}.

(* ===================================================================== *)
(** * Properties *)
(* ===================================================================== *)

(** ** Comparisons and rounding *)

Lemma Qltb_lt (x y : Q) : Qltb x y = true <-> x < y.
Proof.
  unfold Qltb. rewrite negb_true_iff. split; intro H.
  - apply Qnot_le_lt. intro Hle. apply Qle_bool_iff in Hle. congruence.
  - destruct (Qle_bool y x) eqn:E; [|reflexivity].
    apply Qle_bool_iff in E. exfalso. exact (Qlt_not_le _ _ H E).
Qed.

Lemma Qltb_ge (x y : Q) : Qltb x y = false <-> y <= x.
Proof.
  unfold Qltb. rewrite negb_false_iff. apply Qle_bool_iff.
Qed.

Lemma round_half_even_bounds (x : Q) :
  (Qfloor x <= round_half_even x <= Qfloor x + 1)%Z.
Proof.
  unfold round_half_even.
  destruct (Qcompare (x - inject_Z (Qfloor x)) (1 # 2)); [destruct (Z.even _)| |]; lia.
Qed.

Lemma round_half_even_mono (x y : Q) :
  x <= y -> (round_half_even x <= round_half_even y)%Z.
Proof.
  intro Hxy.
  pose proof (Qfloor_resp_le _ _ Hxy) as Hf.
  pose proof (round_half_even_bounds x) as Bx.
  pose proof (round_half_even_bounds y) as By.
  destruct (Z.eq_dec (Qfloor x) (Qfloor y)) as [E|N]; [|lia].
  unfold round_half_even in *. rewrite <- E in *.
  set (f := Qfloor x) in *.
  destruct (Qcompare_spec (x - inject_Z f) (1 # 2)) as [Hx|Hx|Hx];
    destruct (Qcompare_spec (y - inject_Z f) (1 # 2)) as [Hy|Hy|Hy];
    try (destruct (Z.even f)); try lia; exfalso; lra.
Qed.

Lemma round_half_even_Z (k : Z) : round_half_even (inject_Z k) = k.
Proof.
  unfold round_half_even. rewrite Qfloor_Z.
  destruct (Qcompare_spec (inject_Z k - inject_Z k) (1 # 2)) as [H|H|H];
    try reflexivity; exfalso; lra.
Qed.

Lemma round_half_even_comp (x y : Q) : x == y -> round_half_even x = round_half_even y.
Proof.
  intro E. unfold round_half_even. rewrite (Qfloor_comp _ _ E).
  assert (Ec : Qcompare (x - inject_Z (Qfloor y)) (1 # 2)
               = Qcompare (y - inject_Z (Qfloor y)) (1 # 2)).
  { apply Qcompare_comp; [rewrite E|]; reflexivity. }
  rewrite Ec. reflexivity.
Qed.

Lemma scale_pos (n : nat) : 0 < inject_Z (10 ^ Z.of_nat n).
Proof.
  change 0 with (inject_Z 0). rewrite <- Zlt_Qlt. apply Z.pow_pos_nonneg; lia.
Qed.

Lemma py_round_mono (x y : Q) (n : nat) : x <= y -> py_round x n <= py_round y n.
Proof.
  intro Hxy. unfold py_round.
  pose proof (scale_pos n) as Hs.
  set (s := inject_Z (10 ^ Z.of_nat n)) in *.
  assert (Hm : x * s <= y * s) by (apply Qmult_le_compat_r; lra).
  apply round_half_even_mono in Hm. rewrite Zle_Qle in Hm.
  apply Qmult_le_compat_r with (z := / s) in Hm; [exact Hm|].
  apply Qlt_le_weak, Qinv_lt_0_compat, Hs.
Qed.

Lemma py_round_Z (k : Z) (n : nat) : py_round (inject_Z k) n == inject_Z k.
Proof.
  unfold py_round.
  pose proof (scale_pos n) as Hs.
  rewrite (round_half_even_comp _ (inject_Z (k * 10 ^ Z.of_nat n))).
  - rewrite round_half_even_Z, inject_Z_mult. field. lra.
  - rewrite inject_Z_mult. reflexivity.
Qed.

Lemma py_round_le_Z (x : Q) (k : Z) (n : nat) : x <= inject_Z k -> py_round x n <= inject_Z k.
Proof.
  intro H. rewrite <- (py_round_Z k n). apply py_round_mono, H.
Qed.

Lemma py_round_ge_Z (x : Q) (k : Z) (n : nat) : inject_Z k <= x -> inject_Z k <= py_round x n.
Proof.
  intro H. rewrite <- (py_round_Z k n). apply py_round_mono, H.
Qed.

(** ** The leg extractor *)

Lemma consecutive_snoc (R : Q -> Q -> Prop) (l : list Q) (x : Q) :
  consecutive R l -> Forall (fun a => R x a) l -> consecutive R (l ++ [x]).
Proof.
  intros Hc Hall i prev next Hp Hn.
  assert (Hi : (S i < length (l ++ [x]))%nat).
  { apply nth_error_Some. congruence. }
  rewrite length_app in Hi. simpl in Hi.
  destruct (Nat.eq_dec (S i) (length l)) as [E|N].
  - rewrite nth_error_app1 in Hp by lia.
    rewrite nth_error_app2 in Hn by lia.
    replace (S i - length l)%nat with 0%nat in Hn by lia.
    simpl in Hn. injection Hn as <-.
    rewrite Forall_forall in Hall. apply Hall.
    eapply nth_error_In, Hp.
  - rewrite nth_error_app1 in Hp by lia.
    rewrite nth_error_app1 in Hn by lia.
    eapply Hc; eassumption.
Qed.

Lemma consecutive_round (raw : list Q) :
  consecutive Qlt raw -> consecutive Qle (map (fun d => py_round d 2) raw).
Proof.
  intros Hc i prev next Hp Hn.
  rewrite nth_error_map in Hp, Hn.
  destruct (nth_error raw i) as [a|] eqn:Ea; [|discriminate].
  destruct (nth_error raw (S i)) as [b|] eqn:Eb; [|discriminate].
  simpl in Hp, Hn. injection Hp as <-. injection Hn as <-.
  apply py_round_mono, Qlt_le_weak. eapply Hc; eassumption.
Qed.

Lemma leg_inv_init :
  leg_inv {| scan_legs := []; scan_leg_number := 0; scan_prev_pullback_depth := 100 |}.
Proof.
  exists []. simpl. repeat split; try constructor; try lia.
  intros [|i] prev next Hp; discriminate.
Qed.

Section LegLoop.

Variable analysis_df : DataFrame.
Variable low_indices : list nat.

Lemma leg_inv_accept (st : LegScan)
  (high_idx low_idx : nat) (high_price low_price pullback_depth : Q) :
  leg_inv st ->
  (scan_leg_number st < 5)%nat ->
  pullback_depth < scan_prev_pullback_depth st ->
  2 < pullback_depth ->
  leg_inv {| scan_legs := scan_legs st
                          ++ [make_leg analysis_df (S (scan_leg_number st)) high_idx low_idx
                                       high_price low_price pullback_depth];
             scan_leg_number := S (scan_leg_number st);
             scan_prev_pullback_depth := pullback_depth |}.
Proof.
  intros (raw & Hd & Hc & H2 & Hp & Hlen & Hn) Hlt Hprev Hgt.
  exists (raw ++ [pullback_depth]). simpl.
  split; [|split; [|split; [|split; [|split]]]].
  - unfold depths in *. rewrite !map_app, Hd. reflexivity.
  - apply consecutive_snoc; [exact Hc|].
    eapply Forall_impl; [|exact Hp]. simpl. intros a Ha. lra.
  - apply Forall_app. split; [exact H2|]. constructor; [exact Hgt|constructor].
  - apply Forall_app. split.
    + eapply Forall_impl; [|exact Hp]. simpl. intros a Ha. lra.
    + constructor; [lra|constructor].
  - rewrite length_app. simpl. lia.
  - lia.
Qed.

Lemma leg_loop_inv (highs_to_visit : list nat) :
  forall st, leg_inv st -> leg_inv (leg_loop analysis_df low_indices highs_to_visit st).
Proof.
  induction highs_to_visit as [|high_idx rest IH]; intros st Hst; simpl; [exact Hst|].
  destruct (scan_leg_number st <? 5)%nat eqn:Hn; [|exact Hst].
  apply Nat.ltb_lt in Hn.
  destruct (filter _ low_indices) as [|low_idx others]; [exact Hst|].
  destruct (Qltb _ (scan_prev_pullback_depth st)) eqn:Hprev; simpl; [|apply IH, Hst].
  destruct (Qltb 2 _) eqn:Hgt; [|apply IH, Hst].
  apply Qltb_lt in Hprev. apply Qltb_lt in Hgt.
  apply IH, leg_inv_accept; assumption.
Qed.

End LegLoop.

Lemma detect_vcp_legs_inv (df : DataFrame) :
  exists st, leg_inv st /\ fst (detect_vcp_legs df) = scan_legs st.
Proof.
  unfold detect_vcp_legs.
  destruct (length df <? 60)%nat; [exists (mkLegScan [] 0 100); split; [apply leg_inv_init|reflexivity]|].
  destruct (_ || _); [exists (mkLegScan [] 0 100); split; [apply leg_inv_init|reflexivity]|].
  eexists. split; [apply leg_loop_inv, leg_inv_init|reflexivity].
Qed.

Lemma leg_inv_weak (st : LegScan) : leg_inv st -> weak_contraction (scan_legs st).
Proof.
  intros (raw & Hd & Hc & H2 & _). unfold weak_contraction. rewrite Hd. split.
  - apply consecutive_round, Hc.
  - apply Forall_map. eapply Forall_impl; [|exact H2]. simpl. intros d Hd2.
    apply (py_round_ge_Z d 2 2), Qlt_le_weak, Hd2.
Qed.

(** C1 (as the code has it): the depths stored in the legs that
    [detect_vcp_legs] returns are the roundings to two decimals of the
    unrounded pullback depths; those decrease strictly and exceed 2, so the
    stored ones never increase from a leg to the next and are at least 2. *)
Theorem detect_vcp_legs_weak_contraction (df : DataFrame) :
  let legs := fst (detect_vcp_legs df) in
  (exists raw : list Q,
      depths legs = map (fun d => py_round d 2) raw
      /\ consecutive Qlt raw /\ Forall (fun d => 2 < d) raw)
  /\ weak_contraction legs.
Proof.
  destruct (detect_vcp_legs_inv df) as (st & Hst & ->). simpl. split.
  - destruct Hst as (raw & Hd & Hc & H2 & _). exists raw. auto.
  - apply leg_inv_weak, Hst.
Qed.

(** C1 (as written) fails: on [rounding_df] the two accepted swings have
    unrounded depths 2.004 and 2.002, both stored as 2.0; the stored depths
    neither decrease strictly nor exceed 2. *)
Lemma detect_vcp_legs_strict_contraction_fails :
  depths (fst (detect_vcp_legs rounding_df)) = [200 # 100; 200 # 100]
  /\ ~ consecutive Qlt (depths (fst (detect_vcp_legs rounding_df)))
  /\ ~ Forall (fun d => 2 < d) (depths (fst (detect_vcp_legs rounding_df)))
  /\ ~ strict_contraction (fst (detect_vcp_legs rounding_df)).
Proof.
  assert (E : depths (fst (detect_vcp_legs rounding_df)) = [200 # 100; 200 # 100])
    by (vm_compute; reflexivity).
  rewrite E. split; [reflexivity|].
  assert (Hc : ~ consecutive Qlt [200 # 100; 200 # 100]).
  { intro H. specialize (H 0%nat (200 # 100) (200 # 100) eq_refl eq_refl).
    revert H. unfold Qlt. simpl. lia. }
  assert (Ha : ~ Forall (fun d => 2 < d) [200 # 100; 200 # 100]).
  { intro H. inversion H as [|? ? H1 _]; subst. revert H1. unfold Qlt. simpl. lia. }
  split; [exact Hc|]. split; [exact Ha|].
  unfold strict_contraction. rewrite E. intros [H _]. exact (Hc H).
Qed.

(** C10: with at least 60 bars, when the 126-bar analysis window has fewer
    than two local highs or fewer than two local lows (5-bar centred
    window), [detect_vcp_legs] returns no leg and a total depth of 0. *)
Theorem detect_vcp_legs_too_few_extremes (df : DataFrame) :
  (60 <= length df)%nat ->
  (length (local_extremes series_max (col high (tail 126 df))) < 2)%nat
  \/ (length (local_extremes series_min (col low (tail 126 df))) < 2)%nat ->
  detect_vcp_legs df = ([], 0).
Proof.
  intros Hlen Hfew. unfold detect_vcp_legs.
  destruct (length df <? 60)%nat eqn:E; [reflexivity|].
  assert (Ht : ((length (local_extremes series_max (col high (tail 126 df))) <? 2)%nat
                || (length (local_extremes series_min (col low (tail 126 df))) <? 2)%nat)
               = true).
  { apply orb_true_iff. destruct Hfew as [H|H]; [left|right]; apply Nat.ltb_lt, H. }
  rewrite Ht. reflexivity.
Qed.

Lemma detect_vcp_legs_too_few_extremes_witness :
  (60 <= length rising_df)%nat
  /\ local_extremes series_max (col high (tail 126 rising_df)) = []
  /\ detect_vcp_legs rising_df = ([], 0).
Proof.
  assert (Hlen : (60 <= length rising_df)%nat) by (vm_compute; lia).
  assert (Hhi : local_extremes series_max (col high (tail 126 rising_df)) = [])
    by (vm_compute; reflexivity).
  split; [exact Hlen|]. split; [exact Hhi|].
  apply (detect_vcp_legs_too_few_extremes rising_df Hlen).
  left. rewrite Hhi. simpl. lia.
Defined.

(** ** The relative strength ranker *)

Lemma iloc_from_end {A : Type} (s : list A) (k : Z) :
  (0 < k <= Z.of_nat (length s))%Z -> exists x, iloc s (- k) = Ok x.
Proof.
  intros [Hk Hn]. unfold iloc.
  destruct (- k <? 0)%Z eqn:E; [|apply Z.ltb_ge in E; lia].
  destruct (Z.of_nat (length s) + - k <? 0)%Z eqn:E2; [apply Z.ltb_lt in E2; lia|].
  destruct (nth_error s (Z.to_nat (Z.of_nat (length s) + - k))) as [x|] eqn:En.
  - exists x. reflexivity.
  - apply nth_error_None in En. lia.
Qed.

Lemma calculate_relative_strength_total (stock_df benchmark_df : DataFrame) (period : Z) :
  (0 < period)%Z ->
  exists rs, calculate_relative_strength stock_df benchmark_df period = Ok rs.
Proof.
  intro Hp. unfold calculate_relative_strength.
  destruct (_ || _) eqn:E; [eexists; reflexivity|].
  apply orb_false_iff in E. destruct E as [Es Eb].
  apply Z.ltb_ge in Es. apply Z.ltb_ge in Eb.
  assert (Hs : length (values close stock_df) = length stock_df) by apply length_map.
  assert (Hb : length (values close benchmark_df) = length benchmark_df) by apply length_map.
  destruct (iloc_from_end (values close stock_df) 1) as [s1 E1]; [lia|].
  destruct (iloc_from_end (values close stock_df) period) as [s2 E2]; [lia|].
  destruct (iloc_from_end (values close benchmark_df) 1) as [b1 E3]; [lia|].
  destruct (iloc_from_end (values close benchmark_df) period) as [b2 E4]; [lia|].
  change (- (1))%Z with (-1)%Z in E1, E3.
  rewrite E1. simpl. rewrite E2. simpl. rewrite E3. simpl. rewrite E4. simpl.
  destruct (Qeq_bool _ 0); eexists; reflexivity.
Qed.

Lemma map_result_total {A B : Type} (f : A -> result B) (xs : list A) :
  (forall x, exists y, f x = Ok y) ->
  exists ys, map_result f xs = Ok ys /\ length ys = length xs.
Proof.
  intro Hf. induction xs as [|x xs IH]; simpl.
  - exists []. split; reflexivity.
  - destruct (Hf x) as [y Ey]. destruct IH as (ys & Eys & Hl).
    rewrite Ey, Eys. simpl. exists (y :: ys). split; [reflexivity|simpl; lia].
Qed.

Lemma insert_sorted_perm (x : Q) (l : list Q) : Permutation (insert_sorted x l) (x :: l).
Proof.
  induction l as [|y l IH]; simpl; [reflexivity|].
  destruct (Qltb x y); [reflexivity|].
  rewrite IH. apply perm_swap.
Qed.

Lemma sorted_perm (l : list Q) : Permutation (sorted l) l.
Proof.
  unfold sorted.
  assert (H : forall acc, Permutation (fold_left (fun acc x => insert_sorted x acc) l acc)
                                      (acc ++ l)).
  { induction l as [|x l IH]; intro acc; simpl.
    - rewrite app_nil_r. reflexivity.
    - rewrite IH, insert_sorted_perm. apply Permutation_middle. }
  apply (H []).
Qed.

Lemma count_if_perm {A : Type} (p : A -> bool) (l l' : list A) :
  Permutation l l' -> count_if p l = count_if p l'.
Proof.
  unfold count_if. induction 1; simpl.
  - reflexivity.
  - destruct (p x); simpl; congruence.
  - destruct (p x), (p y); reflexivity.
  - congruence.
Qed.

Lemma spec_percentile_rank_bounds (target_rs : Q) (cohort_rs : list Q) :
  0 <= spec_percentile_rank target_rs cohort_rs <= 100.
Proof.
  unfold spec_percentile_rank.
  destruct cohort_rs as [|r rs]; [split; unfold Qle; simpl; lia|].
  set (l := r :: rs).
  set (c := length (filter (fun x => Qltb x target_rs) l)).
  assert (Hc : (c <= length l)%nat) by apply filter_length_le.
  assert (Hl : (0 < length l)%nat) by (simpl; lia).
  assert (Hcq : 0 <= of_nat c).
  { unfold of_nat. change 0 with (inject_Z 0). rewrite <- Zle_Qle. lia. }
  assert (Hlq : 0 < of_nat (length l)).
  { unfold of_nat. change 0 with (inject_Z 0). rewrite <- Zlt_Qlt. lia. }
  assert (Hle : of_nat c <= of_nat (length l)).
  { unfold of_nat. rewrite <- Zle_Qle. lia. }
  assert (Hfrac : 0 <= of_nat c / of_nat (length l) <= 1).
  { split.
    - apply Qle_shift_div_l; [exact Hlq|]. lra.
    - apply Qle_shift_div_r; [exact Hlq|]. lra. }
  split; lra.
Qed.

(** C7: the result of [calculate_rs_percentile] is the percentile rank of
    the specification, computed from the relative strengths the code
    assigns to the target and to the cohort members; it lies in [0, 100],
    and it is exactly 50 for an empty cohort. *)
Theorem calculate_rs_percentile_is_rank (stock_df : DataFrame)
  (cohort : list (string * DataFrame)) (benchmark_df : DataFrame) (period : Z) :
  (0 < period)%Z ->
  exists (stock_rs : Q) (cohort_rs : list Q),
    calculate_relative_strength stock_df benchmark_df period = Ok stock_rs
    /\ map_result (fun '(_, df) => calculate_relative_strength df benchmark_df period) cohort
       = Ok cohort_rs
    /\ length cohort_rs = length cohort
    /\ calculate_rs_percentile stock_df cohort benchmark_df period
       = Ok (spec_percentile_rank stock_rs cohort_rs)
    /\ 0 <= spec_percentile_rank stock_rs cohort_rs <= 100
    /\ (cohort = [] ->
        calculate_rs_percentile stock_df cohort benchmark_df period = Ok 50).
Proof.
  intro Hp.
  destruct (calculate_relative_strength_total stock_df benchmark_df period Hp) as [stock_rs Es].
  destruct (map_result_total
              (fun '(_, df) => calculate_relative_strength df benchmark_df period) cohort)
    as (cohort_rs & Ec & Hl).
  { intros [sym df]. apply calculate_relative_strength_total, Hp. }
  exists stock_rs, cohort_rs.
  assert (Hres : calculate_rs_percentile stock_df cohort benchmark_df period
                 = Ok (spec_percentile_rank stock_rs cohort_rs)).
  { unfold calculate_rs_percentile. rewrite Ec. simpl. rewrite Es. simpl.
    destruct cohort_rs as [|r rs]; [reflexivity|].
    unfold spec_percentile_rank, of_nat.
    rewrite (count_if_perm _ _ _ (sorted_perm (r :: rs))). reflexivity. }
  repeat split; try assumption; try apply spec_percentile_rank_bounds.
  intros ->. rewrite Hres. simpl in Hl. destruct cohort_rs; [reflexivity|discriminate].
Qed.

Lemma calculate_rs_percentile_is_rank_witness :
  exists (stock_rs : Q) (cohort_rs : list Q),
    calculate_relative_strength vcp_df flat_df 252 = Ok stock_rs
    /\ map_result (fun '(_, df) => calculate_relative_strength df flat_df 252)
                  [("ACME"%string, vcp_df); ("FLAT"%string, flat_df)]
       = Ok cohort_rs
    /\ length cohort_rs = 2%nat
    /\ calculate_rs_percentile vcp_df [("ACME"%string, vcp_df); ("FLAT"%string, flat_df)]
                               flat_df 252
       = Ok (spec_percentile_rank stock_rs cohort_rs)
    /\ 0 <= spec_percentile_rank stock_rs cohort_rs <= 100
    /\ ([("ACME"%string, vcp_df); ("FLAT"%string, flat_df)] = [] ->
        calculate_rs_percentile vcp_df [("ACME"%string, vcp_df); ("FLAT"%string, flat_df)]
                                flat_df 252 = Ok 50).
Proof.
  apply (calculate_rs_percentile_is_rank vcp_df
           [("ACME"%string, vcp_df); ("FLAT"%string, flat_df)] flat_df 252).
  reflexivity.
Defined.

(** ** The score *)

(** C3: the score is a function of its arguments, but it is only capped
    from above: with no leg, a base depth of 0, a volume dry-up of -100, an
    RS percentile of 0 and a distance from the pivot of 20, the terms are
    0, 0, min(-50, 15) = -50, 0 and 0, and the score returned is -50. *)
Lemma calculate_vcp_score_negative :
  exists s : Q,
    calculate_vcp_score [] (fin 0) (fin (-100)) (fin 0) (fin 20) = fin s
    /\ s == -50 /\ s < 0.
Proof.
  eexists. split; [vm_compute; reflexivity|].
  split; [reflexivity|]. unfold Qlt. simpl. lia.
Qed.

(** ** The universe scan *)

(** What [scan_stock] returns does not depend on the cohort held by the
    scanner. *)
Lemma scan_stock_cohort_irrelevant (data_fetcher : DataFetcher) (self : VCPScanner)
  (cohort : list (string * DataFrame)) (symbol : string) :
  snd (scan_stock data_fetcher
         {| settings := settings self;
            benchmark_data := benchmark_data self;
            all_stocks_data := cohort |} symbol)
  = snd (scan_stock data_fetcher self symbol).
Proof.
  unfold scan_stock.
  destruct (get_stock_data data_fetcher symbol) as [df|]; [|reflexivity].
  destruct (length df <? 100)%nat; [reflexivity|].
  unfold _load_benchmark. cbn [settings benchmark_data all_stocks_data].
  destruct (benchmark_data self) eqn:E; cbn [snd settings benchmark_data];
    rewrite ?E; reflexivity.
Qed.

(** C2: in a scan of the universe [ACME; FLAT] the cohort holds both series,
    ACME's relative strength (110) exceeds FLAT's (0) and equals its own, so
    its percentile rank in the cohort is 50; [scan_stock] feeds
    min(max(50 + 110, 0), 100) = 100 to the liquidity filter and the score,
    and the setup is reported with [rs_percentile] 100. *)
Lemma scan_universe_ignores_cohort :
  let r := scan_universe demo_fetcher new_scanner (Some ["ACME"; "FLAT"]%string) in
  map symbol (snd r) = ["ACME"%string]
  /\ map fst (all_stocks_data (fst r)) = ["ACME"; "FLAT"]%string
  /\ (exists fed, scan_rs_percentile (benchmark_data (fst r)) vcp_df = Ok fed /\ fed == 100)
  /\ Forall (fun p => p == 100) (map rs_percentile (snd r))
  /\ (exists rank, calculate_rs_percentile vcp_df (all_stocks_data (fst r)) flat_df 252
                   = Ok rank /\ rank == 50).
Proof.
  cbv zeta.
  split; [vm_compute; reflexivity|].
  split; [vm_compute; reflexivity|].
  split; [eexists; split; [vm_compute; reflexivity|reflexivity]|].
  split.
  - assert (E : map rs_percentile
                  (snd (scan_universe demo_fetcher new_scanner (Some ["ACME"; "FLAT"]%string)))
                = [1000 # 10]) by (vm_compute; reflexivity).
    rewrite E. constructor; [reflexivity|constructor].
  - eexists. split; [vm_compute; reflexivity|reflexivity].
Qed.

(** ** The breakout detector *)

Lemma Fle_fleb (a b : float) : Fle a b -> (a <=? b)%float = true.
Proof.
  destruct a as [x|], b as [y|]; simpl; try contradiction.
  intro H. apply Qle_bool_iff, H.
Qed.

Lemma Fle_not_fltb (a b : float) : Fle a b -> (b <? a)%float = false.
Proof.
  destruct a as [x|], b as [y|]; simpl; try contradiction.
  intro H. apply Qltb_ge, H.
Qed.

Lemma iloc_last {A : Type} (s : list A) :
  (0 < length s)%nat -> exists x, iloc s (-1) = Ok x.
Proof.
  intro H. apply (iloc_from_end s 1). lia.
Qed.

Lemma length_col (f : Bar -> Q) (df : DataFrame) : length (col f df) = length df.
Proof.
  unfold col, values. rewrite !length_map. reflexivity.
Qed.

(** The window of the pivot is the 100 bars that precede the current one. *)
Lemma trailing_window {A : Type} (s : list A) :
  (101 <= length s)%nat ->
  islice s (Some (-101)%Z) (Some (-1)%Z) = firstn 100 (skipn (length s - 101) s).
Proof.
  intro H. unfold islice, slice_bound. simpl.
  replace (Z.to_nat (Z.max 0 (Z.of_nat (length s) + -101))) with (length s - 101)%nat by lia.
  replace (Z.to_nat (Z.max 0 (Z.of_nat (length s) + -1))) with (length s - 1)%nat by lia.
  replace (length s - 1 - (length s - 101))%nat with 100%nat by lia.
  reflexivity.
Qed.

Lemma fold_left_Qmax_upper (l : list Q) :
  forall a, a <= fold_left Qmax l a /\ Forall (fun x => x <= fold_left Qmax l a) l.
Proof.
  induction l as [|x l IH]; intro a; simpl.
  - split; [apply Qle_refl|constructor].
  - destruct (IH (Qmax a x)) as [Ha Hall]. split.
    + eapply Qle_trans; [apply Q.le_max_l|exact Ha].
    + constructor; [|exact Hall].
      eapply Qle_trans; [apply Q.le_max_r|exact Ha].
Qed.

(** The pivot is an upper bound of the highs of these bars. *)
Lemma trailing_pivot_upper (df : DataFrame) (b : Bar) :
  In b (islice df (Some (-101)%Z) (Some (-1)%Z)) ->
  Fle (fin (high b)) (trailing_pivot df).
Proof.
  intro Hin. unfold trailing_pivot, col, values.
  assert (E : islice (map fin (map high df)) (Some (-101)%Z) (Some (-1)%Z)
              = map fin (map high (islice df (Some (-101)%Z) (Some (-1)%Z)))).
  { unfold islice. rewrite !length_map, !skipn_map, !firstn_map. reflexivity. }
  rewrite E.
  assert (D : forall l : list Q, dropna (map fin l) = l).
  { induction l as [|x l IH]; simpl; [reflexivity|]. rewrite IH. reflexivity. }
  unfold series_max. rewrite D.
  apply (in_map high) in Hin.
  destruct (map high (islice df (Some (-101)%Z) (Some (-1)%Z))) as [|x l]; [contradiction|].
  cbn [reduce Fle fin].
  destruct (fold_left_Qmax_upper l x) as [Hx Hall].
  destruct Hin as [<-|Hin]; [exact Hx|].
  rewrite Forall_forall in Hall. apply Hall, Hin.
Qed.

(** C8: with at least 101 bars and a 20-bar volume average one bar back that
    is zero or negative, [check_breakout_conditions] raises nothing and
    answers (False, 0, pivot): either the close does not clear the pivot, or
    the relative volume takes the fallback 0 and misses the threshold. *)
Theorem check_breakout_zero_volume_sma (settings : BreakoutSettings) (df : DataFrame)
  (vol_sma_20 : float) :
  0 < relative_volume_threshold settings ->
  (101 <= length df)%nat ->
  iloc (rolling 20 series_mean (col volume df)) (-2) = Ok vol_sma_20 ->
  Fle vol_sma_20 (fin 0) ->
  check_breakout_conditions settings df = Ok (false, fin 0, trailing_pivot df).
Proof.
  intros Hthr Hlen Hsma Hle. unfold check_breakout_conditions.
  destruct (length df <? 101)%nat eqn:E; [apply Nat.ltb_lt in E; lia|].
  destruct (iloc_last (col close df)) as [c Ec]; [rewrite length_col; lia|].
  destruct (iloc_last (col volume df)) as [v Ev]; [rewrite length_col; lia|].
  rewrite Ec. cbn [bind]. rewrite Ev. cbn [bind]. fold (trailing_pivot df).
  destruct (c <=? trailing_pivot df)%float; [reflexivity|].
  rewrite Hsma. cbn [bind].
  unfold fgtb. rewrite (Fle_not_fltb _ _ Hle).
  apply Qltb_lt in Hthr. cbn [fltb cmp2 fin]. rewrite Hthr. reflexivity.
Qed.

Lemma check_breakout_zero_volume_sma_witness :
  (101 <= length (no_volume_df 150))%nat
  /\ iloc (rolling 20 series_mean (col volume (no_volume_df 150))) (-2) = Ok (fin (0 # 20))
  /\ iloc (col close (no_volume_df 150)) (-1) = Ok (fin 150)
  /\ check_breakout_conditions BREAKOUT_SETTINGS (no_volume_df 150)
     = Ok (false, fin 0, trailing_pivot (no_volume_df 150)).
Proof.
  assert (Hlen : (101 <= length (no_volume_df 150))%nat) by (vm_compute; lia).
  assert (Hsma : iloc (rolling 20 series_mean (col volume (no_volume_df 150))) (-2)
                 = Ok (fin (0 # 20))) by (vm_compute; reflexivity).
  split; [exact Hlen|]. split; [exact Hsma|]. split; [vm_compute; reflexivity|].
  apply (check_breakout_zero_volume_sma BREAKOUT_SETTINGS (no_volume_df 150) (fin (0 # 20))).
  - reflexivity.
  - exact Hlen.
  - exact Hsma.
  - simpl. unfold Qle. simpl. lia.
Defined.

(** C5: when the last close does not exceed the pivot (the highest high of
    the 100 bars before the current one), [find_breakout] returns nothing. *)
Theorem find_breakout_needs_close_above_pivot (settings : BreakoutSettings)
  (data_fetcher : DataFetcher) (symbol : string) (setup : option VCPSetup)
  (df : DataFrame) (current_close : float) :
  get_stock_data data_fetcher symbol = Some df ->
  iloc (col close df) (-1) = Ok current_close ->
  Fle current_close (trailing_pivot df) ->
  find_breakout settings data_fetcher symbol setup = None.
Proof.
  intros Hdf Hc Hle. unfold find_breakout. rewrite Hdf.
  destruct (length df <? 101)%nat eqn:E; [reflexivity|].
  unfold find_breakout_body, check_breakout_conditions. rewrite E, Hc. cbn [bind].
  destruct (iloc (col volume df) (-1)) as [v|e]; cbn [bind]; [|reflexivity].
  fold (trailing_pivot df). rewrite (Fle_fleb _ _ Hle). reflexivity.
Qed.

Lemma find_breakout_needs_close_above_pivot_witness :
  iloc (col close (no_volume_df 101)) (-1) = Ok (fin 101)
  /\ trailing_pivot (no_volume_df 101) = fin 101
  /\ find_breakout BREAKOUT_SETTINGS (const_fetcher (no_volume_df 101)) "ACME" None = None.
Proof.
  assert (Hc : iloc (col close (no_volume_df 101)) (-1) = Ok (fin 101))
    by (vm_compute; reflexivity).
  assert (Hp : trailing_pivot (no_volume_df 101) = fin 101) by (vm_compute; reflexivity).
  split; [exact Hc|]. split; [exact Hp|].
  apply (find_breakout_needs_close_above_pivot BREAKOUT_SETTINGS
           (const_fetcher (no_volume_df 101)) "ACME" None (no_volume_df 101) (fin 101)).
  - reflexivity.
  - exact Hc.
  - rewrite Hp. simpl. unfold Qle. simpl. lia.
Defined.

(** A close above the pivot on confirming volume is reported: true range
    of the last bar 6, ATR 32/14, terms 21.875 + 20 + 10 + 6.25. *)
Example find_breakout_reports_breakout :
  option_map (fun b => (breakout_price b, bc_pivot_price b, relative_volume b,
                        confirmation_score b))
             (find_breakout BREAKOUT_SETTINGS (const_fetcher breakout_df) "ACME" None)
  = Some (10500 # 100, fin (10100 # 100), fin (150 # 100), fin (581 # 10)).
Proof.
  vm_compute. reflexivity.
Qed.

(** ** The scan of one symbol *)

(** One step through the body of a scan: a call that may raise, a test that
    returns early, or a pair to unpack. *)
Ltac scan_step H :=
  match type of H with
  | bind ?m _ = Ok _ =>
      let E := fresh "E" in
      destruct m as [?|?] eqn:E; cbn [bind] in H; [|discriminate H]
  | (let '(_, _) := ?p in _) = Ok _ =>
      let E := fresh "E" in destruct p as [? ?] eqn:E
  | (if negb ?c then _ else _) = Ok (Some _) =>
      destruct c; cbn [negb] in H; [|discriminate H]
  | (if ?c then _ else _) = Ok (Some _) =>
      let E := fresh "E" in destruct c eqn:E; [discriminate H|]
  end.

Lemma scan_stock_body_some (settings : VcpSettings) (data_fetcher : DataFetcher)
  (benchmark : option DataFrame) (symbol : string) (df : DataFrame) (setup : VCPSetup) :
  scan_stock_body settings data_fetcher benchmark symbol df = Ok (Some setup) ->
  legs setup = fst (detect_vcp_legs df)
  /\ total_base_depth setup = py_round (snd (detect_vcp_legs df)) 2
  /\ (length (fst (detect_vcp_legs df)) <? min_legs settings)%nat = false
  /\ Qltb (final_base_depth_max settings * 100) (snd (detect_vcp_legs df)) = false.
Proof.
  unfold scan_stock_body. intro H.
  scan_step H. scan_step H. destruct a0 as [liquidity_pass ?]. scan_step H.
  scan_step H. destruct a0 as [uptrend_pass ?]. scan_step H.
  scan_step H. scan_step H.
  scan_step H. destruct a0 as [vol_pass vol_dry_up]. scan_step H.
  scan_step H. scan_step H. scan_step H.
  repeat scan_step H.
  injection H as <-. cbn [legs total_base_depth fst snd]. auto.
Qed.

Lemma load_benchmark_settings (data_fetcher : DataFetcher) (self : VCPScanner) :
  settings (_load_benchmark data_fetcher self) = settings self.
Proof.
  unfold _load_benchmark. destruct (benchmark_data self); reflexivity.
Qed.

Lemma scan_stock_some (data_fetcher : DataFetcher) (self : VCPScanner) (symbol : string)
  (setup : VCPSetup) :
  snd (scan_stock data_fetcher self symbol) = Some setup ->
  exists df benchmark,
    get_stock_data data_fetcher symbol = Some df
    /\ scan_stock_body (settings self) data_fetcher benchmark symbol df = Ok (Some setup).
Proof.
  unfold scan_stock.
  destruct (get_stock_data data_fetcher symbol) as [df|]; [|discriminate].
  destruct (length df <? 100)%nat; [discriminate|].
  cbn [snd]. rewrite load_benchmark_settings.
  destruct (scan_stock_body _ _ _ _ _) as [[s|]|e] eqn:E; cbn [try_or_none];
    try discriminate.
  intro H. injection H as ->. eauto.
Qed.

Lemma detect_vcp_legs_at_most_5 (df : DataFrame) :
  (length (fst (detect_vcp_legs df)) <= 5)%nat.
Proof.
  destruct (detect_vcp_legs_inv df) as (st & (raw & _ & _ & _ & _ & Hlen & Hn) & ->).
  lia.
Qed.

(** C4: under the default settings a setup returned by [scan_stock] has 3
    to 5 legs and a total base depth of at most 15; and when the legs
    extracted from the series are fewer than 3 (more than 5 never happens)
    or the base depth exceeds 15, nothing is returned. *)
Theorem scan_stock_setup_bounds (data_fetcher : DataFetcher) (self : VCPScanner)
  (symbol : string) :
  settings self = VCP_SETTINGS ->
  (forall setup,
      snd (scan_stock data_fetcher self symbol) = Some setup ->
      (3 <= length (legs setup) <= 5)%nat /\ total_base_depth setup <= 15)
  /\ (forall df,
         get_stock_data data_fetcher symbol = Some df ->
         (length (fst (detect_vcp_legs df)) < 3)%nat
         \/ (5 < length (fst (detect_vcp_legs df)))%nat
         \/ 15 < snd (detect_vcp_legs df) ->
         snd (scan_stock data_fetcher self symbol) = None).
Proof.
  intro Hset.
  assert (Hsome : forall setup,
             snd (scan_stock data_fetcher self symbol) = Some setup ->
             exists df, get_stock_data data_fetcher symbol = Some df
                        /\ legs setup = fst (detect_vcp_legs df)
                        /\ total_base_depth setup = py_round (snd (detect_vcp_legs df)) 2
                        /\ (3 <= length (fst (detect_vcp_legs df)) <= 5)%nat
                        /\ snd (detect_vcp_legs df) <= 15).
  { intros setup H.
    destruct (scan_stock_some _ _ _ _ H) as (df & benchmark & Hdf & Hbody).
    apply scan_stock_body_some in Hbody. rewrite Hset in Hbody.
    destruct Hbody as (Hlegs & Hdepth & Hmin & Hmax).
    exists df. repeat split; try assumption.
    - apply Nat.ltb_ge in Hmin. exact Hmin.
    - apply detect_vcp_legs_at_most_5.
    - apply Qltb_ge in Hmax. cbn [final_base_depth_max VCP_SETTINGS] in Hmax. lra. }
  split.
  - intros setup H. destruct (Hsome setup H) as (df & _ & -> & -> & Hn & Hd).
    split; [exact Hn|]. apply (py_round_le_Z _ 15 2), Hd.
  - intros df Hdf Hbad.
    destruct (snd (scan_stock data_fetcher self symbol)) as [setup|] eqn:E; [|reflexivity].
    exfalso. destruct (Hsome setup eq_refl) as (df' & Hdf' & _ & _ & Hn & Hd).
    rewrite Hdf in Hdf'. injection Hdf' as <-.
    destruct Hbad as [Hb|[Hb|Hb]]; [lia|lia|lra].
Qed.

Lemma scan_stock_setup_bounds_witness :
  exists setup,
    snd (scan_stock demo_fetcher new_scanner "ACME") = Some setup
    /\ length (legs setup) = 3%nat
    /\ (3 <= length (legs setup) <= 5)%nat /\ total_base_depth setup <= 15.
Proof.
  destruct (snd (scan_stock demo_fetcher new_scanner "ACME")) as [setup|] eqn:E.
  - exists setup. split; [reflexivity|]. split.
    + assert (H : option_map (fun s => length (legs s))
                    (snd (scan_stock demo_fetcher new_scanner "ACME")) = Some 3%nat)
        by (vm_compute; reflexivity).
      rewrite E in H. injection H as H. exact H.
    + apply (proj1 (scan_stock_setup_bounds demo_fetcher new_scanner "ACME" eq_refl)).
      exact E.
  - exfalso.
    assert (H : snd (scan_stock demo_fetcher new_scanner "ACME") <> None)
      by (vm_compute; discriminate).
    exact (H E).
Defined.

(** ** Short series *)

Lemma scan_stock_body_short (settings : VcpSettings) (data_fetcher : DataFetcher)
  (benchmark : option DataFrame) (symbol : string) (df : DataFrame) :
  (length df < 101)%nat ->
  try_or_none (scan_stock_body settings data_fetcher benchmark symbol df) = None.
Proof.
  intro Hlen. unfold scan_stock_body.
  destruct (scan_rs_percentile benchmark df) as [rs|e]; cbn [bind]; [|reflexivity].
  destruct (check_liquidity_filter _ _ _ _) as [[liquidity_pass m]|e]; cbn [bind];
    [|reflexivity].
  destruct liquidity_pass; cbn [negb]; [|reflexivity].
  unfold check_uptrend_near_breakout.
  apply Nat.ltb_lt in Hlen. rewrite Hlen. reflexivity.
Qed.

(** C6: for a series of fewer than 101 bars both [scan_stock] and
    [find_breakout] return nothing; no exception leaves either of them. *)
Theorem short_series_no_result (data_fetcher : DataFetcher) (self : VCPScanner)
  (breakout_settings : BreakoutSettings) (symbol : string) (setup : option VCPSetup)
  (df : DataFrame) :
  get_stock_data data_fetcher symbol = Some df ->
  (length df < 101)%nat ->
  snd (scan_stock data_fetcher self symbol) = None
  /\ find_breakout breakout_settings data_fetcher symbol setup = None.
Proof.
  intros Hdf Hlen. split.
  - unfold scan_stock. rewrite Hdf.
    destruct (length df <? 100)%nat; [reflexivity|].
    cbn [snd]. apply scan_stock_body_short, Hlen.
  - unfold find_breakout. rewrite Hdf.
    apply Nat.ltb_lt in Hlen. rewrite Hlen. reflexivity.
Qed.

Lemma short_series_no_result_witness :
  length hundred_df = 100%nat
  /\ snd (scan_stock (const_fetcher hundred_df) new_scanner "ACME") = None
  /\ find_breakout BREAKOUT_SETTINGS (const_fetcher hundred_df) "ACME" None = None.
Proof.
  assert (Hlen : length hundred_df = 100%nat) by (vm_compute; reflexivity).
  split; [exact Hlen|].
  apply (short_series_no_result (const_fetcher hundred_df) new_scanner BREAKOUT_SETTINGS
           "ACME" None hundred_df).
  - reflexivity.
  - rewrite Hlen. lia.
Defined.

(** ** The liquidity filter *)

(** C9: without an info record the liquidity filter ignores the market
    capitalisation: its answer does not depend on the floor, a failure is
    due to the close against its 20-bar average or to the RS percentile, and
    it passes when both of these hold.  The floor is applied exactly when a
    (non-empty) record is there: a verdict "market cap below threshold"
    implies a record, and a record with a capitalisation under the floor
    gets that verdict. *)
Theorem check_liquidity_filter_without_info (settings : VcpSettings) (df : DataFrame)
  (rs_percentile : Q) :
  (forall cap,
      check_liquidity_filter (with_min_market_cap cap settings) df None rs_percentile
      = check_liquidity_filter settings df None rs_percentile)
  /\ (forall m,
         check_liquidity_filter settings df None rs_percentile = Ok (false, m) ->
         m = PriceBelowSMA20 \/ m = RSPercentileBelow rs_percentile)
  /\ (forall last_close last_sma,
         iloc (col close df) (-1) = Ok last_close ->
         iloc (rolling 20 series_mean (col close df)) (-1) = Ok last_sma ->
         Flt last_sma last_close ->
         rs_percentile_min settings <= rs_percentile ->
         check_liquidity_filter settings df None rs_percentile = Ok (true, Passed))
  /\ (forall info verdict,
         check_liquidity_filter settings df info rs_percentile
         = Ok (verdict, MarketCapBelowThreshold) ->
         exists d, info = Some d /\ d <> [])
  /\ (forall d cap,
         d <> [] ->
         dict_get d "marketCap" (PNum 0) = PNum cap ->
         cap < min_market_cap settings ->
         check_liquidity_filter settings df (Some d) rs_percentile
         = Ok (false, MarketCapBelowThreshold)).
Proof.
  split; [reflexivity|]. split; [|split; [|split]].
  - intros m. unfold check_liquidity_filter. cbn [info_truthy bind].
    destruct (iloc (col close df) (-1)) as [c|e]; cbn [bind]; [|discriminate].
    destruct (iloc (rolling 20 series_mean (col close df)) (-1)) as [a|e]; cbn [bind];
      [|discriminate].
    destruct (c <=? a)%float; [intro H; injection H as <-; left; reflexivity|].
    destruct (Qltb rs_percentile (rs_percentile_min settings)); [|discriminate].
    intro H; injection H as <-; right; reflexivity.
  - intros c a Hc Ha Hlt Hrs. unfold check_liquidity_filter. cbn [info_truthy bind].
    rewrite Hc. cbn [bind]. rewrite Ha. cbn [bind].
    assert (Hle : (c <=? a)%float = false).
    { destruct c as [x|], a as [y|]; simpl in *; try contradiction.
      destruct (Qle_bool x y) eqn:E; [|reflexivity].
      apply Qle_bool_iff in E. exfalso. lra. }
    rewrite Hle. apply Qltb_ge in Hrs. rewrite Hrs. reflexivity.
  - intros info verdict. unfold check_liquidity_filter.
    destruct info as [[|kv d]|]; cbn [info_truthy bind].
    + destruct (iloc (col close df) (-1)) as [c|e]; cbn [bind]; [|discriminate].
      destruct (iloc (rolling 20 series_mean (col close df)) (-1)) as [a|e]; cbn [bind];
        [|discriminate].
      destruct (c <=? a)%float; [discriminate|].
      destruct (Qltb rs_percentile (rs_percentile_min settings)); discriminate.
    + intros _. exists (kv :: d). split; [reflexivity|discriminate].
    + destruct (iloc (col close df) (-1)) as [c|e]; cbn [bind]; [|discriminate].
      destruct (iloc (rolling 20 series_mean (col close df)) (-1)) as [a|e]; cbn [bind];
        [|discriminate].
      destruct (c <=? a)%float; [discriminate|].
      destruct (Qltb rs_percentile (rs_percentile_min settings)); discriminate.
  - intros d cap Hd Hget Hcap. unfold check_liquidity_filter.
    destruct d as [|kv d]; [contradiction|]. cbn [info_truthy info_dict].
    rewrite Hget. cbn [pyval_ltb bind]. apply Qltb_lt in Hcap. rewrite Hcap. reflexivity.
Qed.

Lemma check_liquidity_filter_without_info_witness :
  check_liquidity_filter VCP_SETTINGS vcp_df None 100 = Ok (true, Passed)
  /\ check_liquidity_filter VCP_SETTINGS vcp_df (Some [("marketCap"%string, PNum 1000)]) 100
     = Ok (false, MarketCapBelowThreshold).
Proof.
  pose proof (check_liquidity_filter_without_info VCP_SETTINGS vcp_df 100)
    as (_ & _ & Hpass & _ & Hcap).
  split.
  - assert (Hc : iloc (col close vcp_df) (-1) = Ok (fin 105)) by (vm_compute; reflexivity).
    assert (Ha : exists a, iloc (rolling 20 series_mean (col close vcp_df)) (-1) = Ok (fin a)
                           /\ a < 105).
    { eexists. split; [vm_compute; reflexivity|]. unfold Qlt. simpl. lia. }
    destruct Ha as (a & Ha & Hlt).
    apply (Hpass (fin 105) (fin a) Hc Ha).
    + exact Hlt.
    + unfold Qle. simpl. lia.
  - apply (Hcap [("marketCap"%string, PNum 1000)] 1000).
    + discriminate.
    + reflexivity.
    + unfold Qlt. simpl. lia.
Defined.

(** ** Bounds of the score *)

Lemma capped_at_100 (x : float) (s : Q) :
  fround (py_min x (fin 100)) 1 = fin s -> s <= 100.
Proof.
  unfold py_min. destruct x as [x|]; cbn [fltb cmp2 fin].
  - destruct (Qltb 100 x) eqn:E; cbn [fround lift1 fin]; intro H; injection H as <-.
    + apply (py_round_le_Z _ 100 1). unfold Qle. simpl. lia.
    + apply Qltb_ge in E. apply (py_round_le_Z _ 100 1), E.
  - discriminate.
Qed.

Lemma calculate_vcp_score_le_100 (legs : list VCPLeg)
  (base_depth volume_dry_up rs_percentile distance_from_pivot : float) (s : Q) :
  calculate_vcp_score legs base_depth volume_dry_up rs_percentile distance_from_pivot = fin s ->
  s <= 100.
Proof.
  unfold calculate_vcp_score. cbv zeta. apply capped_at_100.
Qed.

Ltac float_unfold :=
  unfold nonneg, fadd, fsub, fmul, fdiv, fgtb, fltb, fleb, fround, fin in *;
  cbn [Fle Flt lift1 lift2 cmp2] in *.

Lemma Qle_bool_lt (x y : Q) : Qle_bool x y = false -> y < x.
Proof.
  intro H. apply Qnot_le_lt. intro Hle. apply Qle_bool_iff in Hle. congruence.
Qed.

Lemma of_nat_nonneg (n : nat) : 0 <= of_nat n.
Proof.
  unfold of_nat. change 0 with (inject_Z 0). rewrite <- Zle_Qle. lia.
Qed.

Lemma Qdiv_nonneg (a b : Q) : 0 <= a -> 0 <= b -> 0 <= a / b.
Proof.
  intros Ha Hb. unfold Qdiv. apply Qmult_le_0_compat; [exact Ha|].
  apply Qinv_le_0_compat, Hb.
Qed.

Lemma nonneg_fin (x : Q) : 0 <= x -> nonneg (fin x).
Proof.
  intro H. exact H.
Qed.

Lemma nonneg_add (a b : float) : nonneg a -> nonneg b -> nonneg (a + b)%float.
Proof.
  destruct a as [x|], b as [y|]; float_unfold; try contradiction. intros Hx Hy. lra.
Qed.

Lemma nonneg_div (a b : float) : nonneg a -> nonneg b -> nonneg (a / b)%float.
Proof.
  destruct a as [x|], b as [y|]; float_unfold; try contradiction. apply Qdiv_nonneg.
Qed.

Lemma nonneg_py_min (a b : float) : nonneg a -> nonneg b -> nonneg (py_min a b).
Proof.
  unfold py_min. destruct (b <? a)%float; auto.
Qed.

Lemma nonneg_py_max_0 (x : Q) : nonneg (py_max (fin x) (fin 0)).
Proof.
  unfold py_max. float_unfold.
  destruct (Qltb x 0) eqn:E; cbn [Fle]; [lra|]. apply Qltb_ge in E. exact E.
Qed.

Lemma nonneg_fround (a : float) (n : nat) : nonneg a -> nonneg (fround a n).
Proof.
  destruct a as [x|]; float_unfold; [|contradiction]. apply (py_round_ge_Z x 0 n).
Qed.

Create HintDb nonneg.
#[local] Hint Resolve nonneg_fin nonneg_add nonneg_div nonneg_py_min nonneg_py_max_0
  nonneg_fround : nonneg.

Lemma nonneg_legs_term (legs : list VCPLeg) :
  nonneg (if (2 <=? length legs)%nat
          then (fin 0 + fin (of_nat (Nat.min (length legs * 5) 20))
                + fin (of_nat (count_contracting_pairs legs) / of_nat (length legs - 1) * 25))
          else (fin 0 + fin (of_nat (Nat.min (length legs * 5) 20))))%float.
Proof.
  pose proof (of_nat_nonneg (Nat.min (length legs * 5) 20)) as H1.
  pose proof (Qdiv_nonneg _ _ (of_nat_nonneg (count_contracting_pairs legs))
                (of_nat_nonneg (length legs - 1))) as H2.
  destruct (2 <=? length legs)%nat; float_unfold; lra.
Qed.

(** With a dry-up and an RS percentile that are not negative (what
    [scan_stock] passes), the score is a number between 0 and 100. *)
Lemma calculate_vcp_score_in_range (legs : list VCPLeg)
  (base_depth volume_dry_up rs_percentile distance_from_pivot : Q) :
  0 <= volume_dry_up -> 0 <= rs_percentile ->
  exists s, calculate_vcp_score legs (fin base_depth) (fin volume_dry_up)
                                (fin rs_percentile) (fin distance_from_pivot) = fin s
            /\ 0 <= s <= 100.
Proof.
  intros Hv Hr.
  assert (Hn : nonneg (calculate_vcp_score legs (fin base_depth) (fin volume_dry_up)
                         (fin rs_percentile) (fin distance_from_pivot))).
  { unfold calculate_vcp_score. cbv zeta.
    assert (H2 : 0 <= 2) by lra. assert (H10 : 0 <= 10) by lra.
    assert (H15 : 0 <= 15) by lra. assert (H100 : 0 <= 100) by lra.
    apply nonneg_fround, nonneg_py_min; [|auto with nonneg].
    repeat apply nonneg_add.
    - pose proof (nonneg_legs_term legs) as Hlegs.
      destruct (_ && _); [|exact Hlegs].
      apply nonneg_add; [exact Hlegs|apply nonneg_py_max_0].
    - auto with nonneg.
    - auto with nonneg.
    - float_unfold.
      destruct (Qle_bool distance_from_pivot 5); [cbn [Fle]; lra|].
      destruct (Qle_bool distance_from_pivot 10) eqn:E; cbn [Fle]; [|lra].
      apply Qle_bool_iff in E. lra. }
  destruct (calculate_vcp_score _ _ _ _ _) as [s|] eqn:E; [|contradiction].
  exists s. split; [reflexivity|]. split; [exact Hn|].
  eapply calculate_vcp_score_le_100, E.
Qed.

(* ===================================================================== *)
(** * Further properties *)
(* ===================================================================== *)

(** ** Relative strength and ranking *)

Lemma iloc_from_end_nth (s : list Q) (k : Z) :
  (0 < k <= Z.of_nat (length s))%Z ->
  iloc s (- k) = Ok (nth (length s - Z.to_nat k) s 0).
Proof.
  intros [Hk Hn]. unfold iloc.
  destruct (- k <? 0)%Z eqn:E; [|apply Z.ltb_ge in E; lia].
  destruct (Z.of_nat (length s) + - k <? 0)%Z eqn:E2; [apply Z.ltb_lt in E2; lia|].
  replace (Z.to_nat (Z.of_nat (length s) + - k)) with (length s - Z.to_nat k)%nat by lia.
  destruct (nth_error s (length s - Z.to_nat k)) as [x|] eqn:En.
  - rewrite (nth_error_nth _ _ 0 En). reflexivity.
  - apply nth_error_None in En. lia.
Qed.

Lemma calculate_relative_strength_long (stock_df benchmark_df : DataFrame) (period : Z) :
  (0 < period)%Z ->
  (period <= Z.of_nat (length stock_df))%Z ->
  (period <= Z.of_nat (length benchmark_df))%Z ->
  exists rs,
    calculate_relative_strength stock_df benchmark_df period = Ok rs
    /\ rs == trailing_return stock_df period - trailing_return benchmark_df period.
Proof.
  intros Hp Hs Hb. unfold calculate_relative_strength.
  assert (Ls : length (values close stock_df) = length stock_df) by apply length_map.
  assert (Lb : length (values close benchmark_df) = length benchmark_df) by apply length_map.
  destruct (_ || _) eqn:E.
  { apply orb_true_iff in E. destruct E as [E|E]; apply Z.ltb_lt in E; lia. }
  change (-1)%Z with (- (1))%Z.
  rewrite !iloc_from_end_nth by lia. cbn [bind].
  fold (trailing_return stock_df period).
  unfold trailing_return. cbv zeta.
  change (Z.to_nat 1) with 1%nat.
  set (sr := (nth (length (values close stock_df) - 1) (values close stock_df) 0
              / nth (length (values close stock_df) - Z.to_nat period)
                    (values close stock_df) 0 - 1) * 100).
  set (br := (nth (length (values close benchmark_df) - 1) (values close benchmark_df) 0
              / nth (length (values close benchmark_df) - Z.to_nat period)
                    (values close benchmark_df) 0 - 1) * 100).
  destruct (Qeq_bool br 0) eqn:Eb.
  - exists sr. split; [reflexivity|]. apply Qeq_bool_eq in Eb. rewrite Eb. ring.
  - exists (sr - br). split; reflexivity.
Qed.

(** X1: for a positive lookback, the relative strength is 0 when either
    series has fewer bars than the lookback, and otherwise it is the
    trailing return of the stock minus that of the benchmark (also when the
    benchmark's return is zero, where the code returns the stock's return). *)
Theorem relative_strength_is_excess_return (stock_df benchmark_df : DataFrame)
  (period : Z) :
  (0 < period)%Z ->
  ((Z.of_nat (length stock_df) < period)%Z \/ (Z.of_nat (length benchmark_df) < period)%Z ->
   calculate_relative_strength stock_df benchmark_df period = Ok 0)
  /\ ((period <= Z.of_nat (length stock_df))%Z ->
      (period <= Z.of_nat (length benchmark_df))%Z ->
      exists rs,
        calculate_relative_strength stock_df benchmark_df period = Ok rs
        /\ rs == trailing_return stock_df period - trailing_return benchmark_df period).
Proof.
  intro Hp. split.
  - intro Hshort. unfold calculate_relative_strength.
    assert (E : ((Z.of_nat (length stock_df) <? period)%Z
                 || (Z.of_nat (length benchmark_df) <? period)%Z) = true).
    { apply orb_true_iff. destruct Hshort as [H|H]; [left|right]; apply Z.ltb_lt, H. }
    rewrite E. reflexivity.
  - intros Hs Hb. apply calculate_relative_strength_long; assumption.
Qed.

Lemma relative_strength_is_excess_return_witness :
  calculate_relative_strength hundred_df flat_df 252 = Ok 0
  /\ exists rs,
       calculate_relative_strength vcp_df flat_df 252 = Ok rs
       /\ rs == trailing_return vcp_df 252 - trailing_return flat_df 252
       /\ rs == 110.
Proof.
  destruct (relative_strength_is_excess_return hundred_df flat_df 252 eq_refl) as [Hshort _].
  destruct (relative_strength_is_excess_return vcp_df flat_df 252 eq_refl) as [_ Hlong].
  split.
  - apply Hshort. left. vm_compute. reflexivity.
  - destruct Hlong as (rs & Hrs & Heq).
    + vm_compute. discriminate.
    + vm_compute. discriminate.
    + exists rs. split; [exact Hrs|]. split; [exact Heq|].
      rewrite Heq. vm_compute. reflexivity.
Defined.

(** X2: measured against itself, a series has relative strength 0, whatever
    its length. *)
Theorem relative_strength_against_itself (df : DataFrame) (period : Z) :
  (0 < period)%Z ->
  exists rs, calculate_relative_strength df df period = Ok rs /\ rs == 0.
Proof.
  intro Hp.
  destruct (Z_lt_le_dec (Z.of_nat (length df)) period) as [Hshort|Hlong].
  - exists 0. split; [|reflexivity].
    unfold calculate_relative_strength.
    apply Z.ltb_lt in Hshort. rewrite Hshort. reflexivity.
  - destruct (calculate_relative_strength_long df df period Hp Hlong Hlong)
      as (rs & Hrs & Heq).
    exists rs. split; [exact Hrs|]. rewrite Heq. ring.
Qed.

Lemma relative_strength_against_itself_witness :
  exists rs, calculate_relative_strength vcp_df vcp_df 252 = Ok rs /\ rs == 0.
Proof.
  apply (relative_strength_against_itself vcp_df 252). reflexivity.
Defined.

Lemma rs_percentile_value (stock_df : DataFrame) (cohort : list (string * DataFrame))
  (benchmark_df : DataFrame) (period : Z) :
  (0 < period)%Z ->
  exists (stock_rs : Q) (cohort_rs : list Q),
    calculate_relative_strength stock_df benchmark_df period = Ok stock_rs
    /\ map_result (fun '(_, df) => calculate_relative_strength df benchmark_df period) cohort
       = Ok cohort_rs
    /\ calculate_rs_percentile stock_df cohort benchmark_df period
       = Ok (spec_percentile_rank stock_rs cohort_rs).
Proof.
  intro Hp.
  destruct (calculate_relative_strength_total stock_df benchmark_df period Hp) as [stock_rs Es].
  destruct (map_result_total
              (fun '(_, df) => calculate_relative_strength df benchmark_df period) cohort)
    as (cohort_rs & Ec & Hl).
  { intros [sym df]. apply calculate_relative_strength_total, Hp. }
  exists stock_rs, cohort_rs. split; [exact Es|]. split; [exact Ec|].
  unfold calculate_rs_percentile. rewrite Ec. cbn [bind]. rewrite Es. cbn [bind].
  destruct cohort_rs as [|r rs]; [reflexivity|].
  unfold spec_percentile_rank, of_nat.
  rewrite (count_if_perm _ _ _ (sorted_perm (r :: rs))). reflexivity.
Qed.

Lemma filter_length_mono {A : Type} (p q : A -> bool) (l : list A) :
  (forall x, p x = true -> q x = true) ->
  (length (filter p l) <= length (filter q l))%nat.
Proof.
  intro Hpq. induction l as [|x l IH]; simpl; [lia|].
  destruct (p x) eqn:Ep.
  - rewrite (Hpq x Ep). simpl. lia.
  - destruct (q x); simpl; lia.
Qed.

Lemma spec_percentile_rank_mono (a b : Q) (cohort_rs : list Q) :
  a <= b -> spec_percentile_rank a cohort_rs <= spec_percentile_rank b cohort_rs.
Proof.
  intro Hab. unfold spec_percentile_rank.
  destruct cohort_rs as [|r rs]; [apply Qle_refl|].
  set (l := r :: rs).
  assert (Hc : (length (filter (fun x => Qltb x a) l)
                <= length (filter (fun x => Qltb x b) l))%nat).
  { apply filter_length_mono. intros x Hx. apply Qltb_lt in Hx. apply Qltb_lt. lra. }
  assert (Hl : 0 < of_nat (length l)).
  { unfold of_nat. change 0 with (inject_Z 0). rewrite <- Zlt_Qlt. simpl. lia. }
  assert (Hq : of_nat (length (filter (fun x => Qltb x a) l))
               <= of_nat (length (filter (fun x => Qltb x b) l))).
  { unfold of_nat. rewrite <- Zle_Qle. lia. }
  apply Qmult_le_compat_r; [|lra].
  unfold Qdiv. apply Qmult_le_compat_r; [exact Hq|].
  apply Qlt_le_weak, Qinv_lt_0_compat, Hl.
Qed.

(** X3: for a fixed cohort and benchmark the percentile is monotone in the
    relative strength: a series that is at least as strong as another one
    never gets a lower percentile. *)
Theorem calculate_rs_percentile_monotone (df_a df_b : DataFrame)
  (cohort : list (string * DataFrame)) (benchmark_df : DataFrame) (period : Z)
  (rs_a rs_b : Q) :
  (0 < period)%Z ->
  calculate_relative_strength df_a benchmark_df period = Ok rs_a ->
  calculate_relative_strength df_b benchmark_df period = Ok rs_b ->
  rs_a <= rs_b ->
  exists pa pb,
    calculate_rs_percentile df_a cohort benchmark_df period = Ok pa
    /\ calculate_rs_percentile df_b cohort benchmark_df period = Ok pb
    /\ pa <= pb.
Proof.
  intros Hp Ha Hb Hle.
  destruct (rs_percentile_value df_a cohort benchmark_df period Hp)
    as (ra & ca & Era & Eca & Epa).
  destruct (rs_percentile_value df_b cohort benchmark_df period Hp)
    as (rb & cb & Erb & Ecb & Epb).
  rewrite Ha in Era. injection Era as <-.
  rewrite Hb in Erb. injection Erb as <-.
  rewrite Eca in Ecb. injection Ecb as <-.
  exists (spec_percentile_rank rs_a ca), (spec_percentile_rank rs_b ca).
  split; [exact Epa|]. split; [exact Epb|].
  apply spec_percentile_rank_mono, Hle.
Qed.

Lemma calculate_rs_percentile_monotone_witness :
  exists pa pb,
    calculate_rs_percentile flat_df [("ACME"%string, vcp_df); ("FLAT"%string, flat_df)]
                            flat_df 252 = Ok pa
    /\ calculate_rs_percentile vcp_df [("ACME"%string, vcp_df); ("FLAT"%string, flat_df)]
                               flat_df 252 = Ok pb
    /\ pa <= pb.
Proof.
  assert (Ha : exists r, calculate_relative_strength flat_df flat_df 252 = Ok r /\ r == 0).
  { eexists. split; [vm_compute; reflexivity|reflexivity]. }
  assert (Hb : exists r, calculate_relative_strength vcp_df flat_df 252 = Ok r /\ r == 110).
  { eexists. split; [vm_compute; reflexivity|reflexivity]. }
  destruct Ha as (ra & Ha & Hra). destruct Hb as (rb & Hb & Hrb).
  apply (calculate_rs_percentile_monotone flat_df vcp_df
           [("ACME"%string, vcp_df); ("FLAT"%string, flat_df)] flat_df 252 ra rb).
  - reflexivity.
  - exact Ha.
  - exact Hb.
  - rewrite Hra, Hrb. unfold Qle. simpl. lia.
Defined.

Lemma map_result_In {A B : Type} (f : A -> result B) (xs : list A) (ys : list B)
  (x : A) (y : B) :
  map_result f xs = Ok ys -> In x xs -> f x = Ok y -> In y ys.
Proof.
  revert ys. induction xs as [|a xs IH]; intros ys Hmap Hin Hfx; [contradiction|].
  simpl in Hmap.
  destruct (f a) as [b|e] eqn:Efa; cbn [bind] in Hmap; [|discriminate].
  destruct (map_result f xs) as [bs|e] eqn:Ebs; cbn [bind] in Hmap; [|discriminate].
  injection Hmap as <-.
  destruct Hin as [<-|Hin].
  - rewrite Hfx in Efa. injection Efa as <-. left. reflexivity.
  - right. eapply IH; [reflexivity|exact Hin|exact Hfx].
Qed.

Lemma filter_length_lt {A : Type} (p : A -> bool) (l : list A) (x : A) :
  In x l -> p x = false -> (length (filter p l) < length l)%nat.
Proof.
  intros Hin Hpx. induction l as [|a l IH]; [contradiction|]. simpl.
  destruct Hin as [<-|Hin].
  - rewrite Hpx. pose proof (filter_length_le p l). lia.
  - specialize (IH Hin). destruct (p a); simpl; lia.
Qed.

(** X4: a series that is itself a member of the cohort never reaches the
    100th percentile (it is not strictly weaker than itself): its
    percentile is at most (n-1)/n * 100 for a cohort of n. *)
Theorem calculate_rs_percentile_member_below_100 (stock_df : DataFrame)
  (cohort : list (string * DataFrame)) (benchmark_df : DataFrame) (period : Z)
  (sym : string) :
  (0 < period)%Z ->
  In (sym, stock_df) cohort ->
  exists p,
    calculate_rs_percentile stock_df cohort benchmark_df period = Ok p
    /\ p <= of_nat (length cohort - 1) / of_nat (length cohort) * 100
    /\ p < 100.
Proof.
  intros Hp Hin.
  destruct (rs_percentile_value stock_df cohort benchmark_df period Hp)
    as (rs & crs & Ers & Ecrs & Epct).
  exists (spec_percentile_rank rs crs). split; [exact Epct|].
  assert (Hmem : In rs crs).
  { eapply (map_result_In _ cohort crs (sym, stock_df) rs Ecrs Hin). exact Ers. }
  assert (Hlen : length crs = length cohort).
  { destruct (map_result_total
                (fun '(_, df) => calculate_relative_strength df benchmark_df period) cohort)
      as (crs' & Ec' & Hl).
    { intros [s d]. apply calculate_relative_strength_total, Hp. }
    rewrite Ecrs in Ec'. injection Ec' as <-. exact Hl. }
  assert (Hself : Qltb rs rs = false) by (apply Qltb_ge, Qle_refl).
  pose proof (filter_length_lt (fun x => Qltb x rs) crs rs Hmem Hself) as Hcount.
  unfold spec_percentile_rank.
  destruct crs as [|r crs']; [contradiction|].
  set (l := r :: crs') in *. rewrite <- Hlen.
  set (c := length (filter (fun x => Qltb x rs) l)) in *.
  assert (Hl : 0 < of_nat (length l)).
  { unfold of_nat. change 0 with (inject_Z 0). rewrite <- Zlt_Qlt. simpl. lia. }
  assert (Hq : of_nat c <= of_nat (length l - 1)).
  { unfold of_nat. rewrite <- Zle_Qle. lia. }
  assert (Hq1 : of_nat (length l - 1) < of_nat (length l)).
  { unfold of_nat. rewrite <- Zlt_Qlt. lia. }
  assert (Hinv : 0 < / of_nat (length l)) by (apply Qinv_lt_0_compat, Hl).
  assert (Hfrac : of_nat c / of_nat (length l)
                  <= of_nat (length l - 1) / of_nat (length l)).
  { unfold Qdiv. apply Qmult_le_compat_r; [exact Hq|lra]. }
  assert (Hfrac1 : of_nat (length l - 1) / of_nat (length l) < 1).
  { apply Qlt_shift_div_r; [exact Hl|]. lra. }
  split; lra.
Qed.

Lemma calculate_rs_percentile_member_below_100_witness :
  exists p,
    calculate_rs_percentile vcp_df [("ACME"%string, vcp_df); ("FLAT"%string, flat_df)]
                            flat_df 252 = Ok p
    /\ p <= of_nat (2 - 1) / of_nat 2 * 100
    /\ p < 100.
Proof.
  apply (calculate_rs_percentile_member_below_100 vcp_df
           [("ACME"%string, vcp_df); ("FLAT"%string, flat_df)] flat_df 252 "ACME").
  - reflexivity.
  - left. reflexivity.
Defined.

(** ** The cohort and the symbol format *)

Lemma dict_lookup_set {V : Type} (d : list (string * V)) (key key' : string) (v : V) :
  dict_lookup (dict_set d key v) key'
  = if String.eqb key key' then Some v else dict_lookup d key'.
Proof.
  induction d as [|[k w] d IH]; simpl.
  - reflexivity.
  - destruct (String.eqb k key) eqn:Ek; simpl.
    + apply String.eqb_eq in Ek. subst k.
      destruct (String.eqb key key'); reflexivity.
    + destruct (String.eqb k key') eqn:Ek'.
      * apply String.eqb_eq in Ek'. subst k.
        rewrite String.eqb_sym in Ek. rewrite Ek. reflexivity.
      * exact IH.
Qed.

Lemma dict_set_keys {V : Type} (d : list (string * V)) (key : string) (v : V) :
  NoDup (map fst d) ->
  NoDup (map fst (dict_set d key v))
  /\ (forall k, In k (map fst (dict_set d key v)) <-> k = key \/ In k (map fst d)).
Proof.
  induction d as [|[k w] d IH]; intro Hnd; simpl.
  - split; [constructor; [intros []|constructor]|]. intro k0. split.
    + intros [<-|[]]. left. reflexivity.
    + intros [->|[]]. left. reflexivity.
  - inversion Hnd as [|? ? Hnotin Hnd']; subst.
    destruct (IH Hnd') as [IHnd IHin].
    destruct (String.eqb k key) eqn:Ek; simpl.
    + apply String.eqb_eq in Ek. subst k. split; [exact Hnd|].
      intro k0. split; [intros [<-|H]; [left; reflexivity|right; right; exact H]|].
      intros [->|[<-|H]]; [left; reflexivity|left; reflexivity|right; exact H].
    + apply String.eqb_neq in Ek. split.
      * constructor; [|exact IHnd]. intro Hin. apply IHin in Hin.
        destruct Hin as [->|Hin]; [apply Ek; reflexivity|exact (Hnotin Hin)].
      * intro k0. rewrite IHin. tauto.
Qed.

Lemma get_multiple_stocks_acc (data_fetcher : DataFetcher) (symbols : list string) :
  forall acc symbol,
    dict_lookup
      (fold_left (fun result symbol =>
                    match get_stock_data data_fetcher symbol with
                    | Some df => dict_set result symbol df
                    | None => result
                    end) symbols acc) symbol
    = if existsb (String.eqb symbol) symbols
      then match get_stock_data data_fetcher symbol with
           | Some df => Some df
           | None => dict_lookup acc symbol
           end
      else dict_lookup acc symbol.
Proof.
  induction symbols as [|s symbols IH]; intros acc symbol; simpl; [reflexivity|].
  rewrite IH.
  destruct (String.eqb symbol s) eqn:Es; simpl.
  - apply String.eqb_eq in Es. subst s.
    destruct (get_stock_data data_fetcher symbol) as [df|] eqn:Ed.
    + destruct (existsb _ symbols); [reflexivity|].
      rewrite dict_lookup_set, String.eqb_refl. reflexivity.
    + destruct (existsb _ symbols); reflexivity.
  - destruct (get_stock_data data_fetcher s) as [df'|]; [|reflexivity].
    rewrite dict_lookup_set. rewrite String.eqb_sym in Es. rewrite Es. reflexivity.
Qed.

Lemma get_multiple_stocks_nodup_acc (data_fetcher : DataFetcher) (symbols : list string) :
  forall acc,
    NoDup (map fst acc) ->
    NoDup (map fst (fold_left (fun result symbol =>
                                 match get_stock_data data_fetcher symbol with
                                 | Some df => dict_set result symbol df
                                 | None => result
                                 end) symbols acc)).
Proof.
  induction symbols as [|s symbols IH]; intros acc Hnd; simpl; [exact Hnd|].
  apply IH. destruct (get_stock_data data_fetcher s); [|exact Hnd].
  apply dict_set_keys, Hnd.
Qed.

(** X5: the cohort built by [get_multiple_stocks] holds, for every requested
    symbol, exactly the series the provider has for it, holds nothing for
    a symbol that was not requested or has no series, and lists no symbol
    twice, even when the request repeats one. *)
Theorem get_multiple_stocks_lookup (data_fetcher : DataFetcher) (symbols : list string)
  (symbol : string) :
  (In symbol symbols ->
   dict_lookup (get_multiple_stocks data_fetcher symbols) symbol
   = get_stock_data data_fetcher symbol)
  /\ (~ In symbol symbols ->
      dict_lookup (get_multiple_stocks data_fetcher symbols) symbol = None)
  /\ NoDup (map fst (get_multiple_stocks data_fetcher symbols)).
Proof.
  unfold get_multiple_stocks. rewrite get_multiple_stocks_acc. split; [|split].
  - intro Hin.
    assert (E : existsb (String.eqb symbol) symbols = true).
    { apply existsb_exists. exists symbol. split; [exact Hin|apply String.eqb_refl]. }
    rewrite E. destruct (get_stock_data data_fetcher symbol); reflexivity.
  - intro Hnin.
    destruct (existsb (String.eqb symbol) symbols) eqn:E; [|reflexivity].
    apply existsb_exists in E. destruct E as (s & Hs & Es).
    apply String.eqb_eq in Es. subst s. contradiction.
  - apply get_multiple_stocks_nodup_acc. constructor.
Qed.

Lemma get_multiple_stocks_lookup_witness :
  dict_lookup (get_multiple_stocks demo_fetcher ["ACME"; "NONE"; "ACME"]%string) "ACME"
  = Some vcp_df
  /\ dict_lookup (get_multiple_stocks demo_fetcher ["ACME"; "NONE"; "ACME"]%string) "NONE"
     = None
  /\ dict_lookup (get_multiple_stocks demo_fetcher ["ACME"; "NONE"; "ACME"]%string) "FLAT"
     = None.
Proof.
  pose proof (get_multiple_stocks_lookup demo_fetcher ["ACME"; "NONE"; "ACME"]%string "ACME")
    as (Ha & _ & _).
  pose proof (get_multiple_stocks_lookup demo_fetcher ["ACME"; "NONE"; "ACME"]%string "NONE")
    as (Hn & _ & _).
  pose proof (get_multiple_stocks_lookup demo_fetcher ["ACME"; "NONE"; "ACME"]%string "FLAT")
    as (_ & Hf & _).
  split; [|split].
  - rewrite Ha; [reflexivity|]. left. reflexivity.
  - rewrite Hn; [reflexivity|]. right. left. reflexivity.
  - apply Hf. intros [H|[H|[H|[]]]]; discriminate H.
Defined.

Lemma substring_at_end (s t : string) :
  substring (String.length s) (String.length t) (s ++ t) = t.
Proof.
  induction s as [|c s IH]; simpl.
  - induction t as [|c t IHt]; simpl; [reflexivity|]. rewrite IHt. reflexivity.
  - exact IH.
Qed.

Lemma length_append (s t : string) :
  String.length (s ++ t) = (String.length s + String.length t)%nat.
Proof.
  induction s as [|c s IH]; simpl; [reflexivity|]. rewrite IH. reflexivity.
Qed.

Lemma endswith_append (s t : string) : endswith (s ++ t) t = true.
Proof.
  unfold endswith. rewrite length_append.
  replace (String.length s + String.length t - String.length t)%nat
    with (String.length s) by lia.
  rewrite substring_at_end, String.eqb_refl.
  apply andb_true_iff. split; [apply Nat.leb_le; lia|reflexivity].
Qed.

(** X6: [_get_yf_symbol] always gives a symbol that ends with ".NS", leaves
    such a symbol unchanged, and is therefore idempotent. *)
Theorem get_yf_symbol_normalises (symbol : string) :
  endswith (_get_yf_symbol symbol) ".NS" = true
  /\ (endswith symbol ".NS" = true -> _get_yf_symbol symbol = symbol)
  /\ _get_yf_symbol (_get_yf_symbol symbol) = _get_yf_symbol symbol.
Proof.
  assert (H1 : endswith (_get_yf_symbol symbol) ".NS" = true).
  { unfold _get_yf_symbol. destruct (endswith symbol ".NS") eqn:E; simpl.
    - exact E.
    - apply endswith_append. }
  split; [exact H1|]. split.
  - intro E. unfold _get_yf_symbol. rewrite E. reflexivity.
  - unfold _get_yf_symbol at 1. rewrite H1. reflexivity.
Qed.

Lemma get_yf_symbol_normalises_witness :
  _get_yf_symbol "TCS" = "TCS.NS"%string /\ _get_yf_symbol "TCS.NS" = "TCS.NS"%string.
Proof.
  destruct (get_yf_symbol_normalises "TCS.NS") as (_ & Hfix & _).
  split; [reflexivity|]. apply Hfix. reflexivity.
Defined.

(** ** The filters *)

Lemma dropna_fin (l : list Q) : dropna (map fin l) = l.
Proof.
  induction l as [|x l IH]; simpl; [reflexivity|]. rewrite IH. reflexivity.
Qed.

Lemma In_dropna (s : Series) (x : Q) : In (fin x) s -> In x (dropna s).
Proof.
  induction s as [|[y|] s IH]; simpl; [tauto| |].
  - intros [H|H]; [left; injection H as ->; reflexivity|right; apply IH, H].
  - intros [H|H]; [discriminate H|apply IH, H].
Qed.

Lemma series_max_upper (s : Series) (x : Q) :
  In (fin x) s -> exists m, series_max s = fin m /\ x <= m.
Proof.
  intro Hin. apply In_dropna in Hin. unfold series_max.
  destruct (dropna s) as [|y l]; [contradiction|]. cbn [reduce].
  destruct (fold_left_Qmax_upper l y) as [Hy Hall].
  eexists. split; [reflexivity|].
  destruct Hin as [<-|Hin]; [exact Hy|].
  rewrite Forall_forall in Hall. apply Hall, Hin.
Qed.

Lemma In_islice {A : Type} (s : list A) (i a b : nat) (x : A) :
  nth_error s i = Some x -> (a <= i < b)%nat -> In x (firstn (b - a) (skipn a s)).
Proof.
  intros Hx Hi. apply (nth_error_In _ (i - a)).
  rewrite nth_error_firstn.
  destruct (i - a <? b - a)%nat eqn:E; [|apply Nat.ltb_ge in E; lia].
  rewrite nth_error_skipn. replace (a + (i - a))%nat with i by lia. exact Hx.
Qed.

Lemma iloc_In_trailing {A : Type} (s : list A) (x : A) :
  iloc s (-2) = Ok x -> In x (islice s (Some (-31)%Z) (Some (-1)%Z)).
Proof.
  unfold iloc. cbn [Z.ltb Z.compare].
  destruct (Z.of_nat (length s) + -2 <? 0)%Z eqn:E; [discriminate|].
  apply Z.ltb_ge in E.
  destruct (nth_error s (Z.to_nat (Z.of_nat (length s) + -2))) as [y|] eqn:En; [|discriminate].
  intro H. injection H as ->.
  unfold islice, slice_bound. cbn [Z.ltb Z.compare].
  apply (In_islice s (Z.to_nat (Z.of_nat (length s) + -2))); [exact En|]. lia.
Qed.

Lemma count_contractions_nan (vol_sma : Series) (points : list Z) :
  forall c c', count_contractions vol_sma nan points c = Ok c' -> c' = c.
Proof.
  induction points as [|offset rest IH]; intros c c'; simpl.
  - intro H. injection H as <-. reflexivity.
  - destruct (offset <? Z.of_nat (length vol_sma))%Z; [|apply IH].
    destruct (iloc vol_sma (- (offset + 1))) as [past|e]; cbn [bind]; [|discriminate].
    apply IH.
Qed.

(** What a passed volume filter says: the current average [c] is a number,
    and the dry-up is 0 or the decline from a positive maximum [m >= c]. *)
Lemma check_volume_pass (df : DataFrame) (dry_up : float) :
  check_volume_contracting df = Ok (true, dry_up) ->
  exists c,
    iloc (rolling 20 series_mean (col volume df)) (-2) = Ok (fin c)
    /\ (dry_up = fin 0
        \/ exists m, 0 < m /\ c <= m /\ dry_up = fin ((m - c) / m * 100)).
Proof.
  unfold check_volume_contracting.
  destruct (length df <? 50)%nat; [discriminate|].
  set (vol_sma := rolling 20 series_mean (col volume df)).
  destruct (iloc vol_sma (-2)) as [cur|e] eqn:Ecur; cbn [bind]; [|discriminate].
  destruct (count_contractions vol_sma cur _ 0) as [n|e] eqn:En; cbn [bind]; [|discriminate].
  destruct (n =? 0)%nat eqn:E0; [discriminate|].
  destruct cur as [c|].
  2:{ apply count_contractions_nan in En. subst n. discriminate E0. }
  destruct (30 <? length vol_sma)%nat.
  2:{ intro H. injection H as <-. exists c. split; [reflexivity|]. left. reflexivity. }
  destruct (series_max_upper _ c (iloc_In_trailing vol_sma _ Ecur)) as (m & Em & Hcm).
  rewrite Em. unfold fgtb. cbn [fltb cmp2 fin].
  destruct (Qltb 0 m) eqn:Epos.
  - intro H. injection H as <-. apply Qltb_lt in Epos.
    exists c. split; [reflexivity|].
    right. exists m. split; [exact Epos|]. split; [exact Hcm|reflexivity].
  - intro H. injection H as <-. exists c. split; [reflexivity|]. left. reflexivity.
Qed.

Lemma check_volume_dry_up_nonneg (df : DataFrame) (dry_up : float) :
  check_volume_contracting df = Ok (true, dry_up) ->
  exists d, dry_up = fin d /\ 0 <= d.
Proof.
  intro H. destruct (check_volume_pass df dry_up H) as (c & _ & [->|(m & Hm & Hcm & ->)]).
  - exists 0. split; [reflexivity|apply Qle_refl].
  - eexists. split; [reflexivity|].
    apply Qmult_le_0_compat; [|lra].
    apply Qle_shift_div_l; [exact Hm|]. lra.
Qed.

Lemma Qsum_nonneg (l : list Q) : Forall (fun x => 0 <= x) l -> 0 <= Qsum l.
Proof.
  induction 1 as [|x l Hx _ IH]; simpl; [apply Qle_refl|].
  change 0 with (0 + 0). apply Qplus_le_compat; assumption.
Qed.

Lemma dropna_subset (s : Series) (x : Q) : In x (dropna s) -> In (fin x) s.
Proof.
  induction s as [|[y|] s IH]; simpl; [tauto| |].
  - intros [->|H]; [left; reflexivity|right; apply IH, H].
  - intro H. right. apply IH, H.
Qed.

Lemma In_firstn_skipn {A : Type} (n k : nat) (l : list A) (x : A) :
  In x (firstn n (skipn k l)) -> In x l.
Proof.
  intro H. rewrite <- (firstn_skipn k l). apply in_or_app. right.
  rewrite <- (firstn_skipn n (skipn k l)). apply in_or_app. left. exact H.
Qed.

Lemma rolling_mean_nonneg (w : nat) (s : Series) (c : Q) :
  (forall x, In (fin x) s -> 0 <= x) ->
  In (fin c) (rolling w series_mean s) -> 0 <= c.
Proof.
  intros Hs Hin. unfold rolling in Hin. apply in_map_iff in Hin.
  destruct Hin as (i & Hi & _).
  destruct (S i <? w)%nat; [discriminate|].
  unfold window_stat in Hi.
  destruct (length (dropna _) =? w)%nat; [|discriminate].
  unfold series_mean in Hi.
  set (win := firstn w (skipn (S i - w) s)) in *.
  assert (Hwin : Forall (fun x => 0 <= x) (dropna win)).
  { apply Forall_forall. intros x Hx. apply Hs.
    apply dropna_subset in Hx. unfold win in Hx.
    eapply In_firstn_skipn, Hx. }
  destruct (dropna win) as [|y l] eqn:Ed; [discriminate|].
  injection Hi as <-. unfold Qmean.
  apply Qdiv_nonneg; [apply Qsum_nonneg, Hwin|apply of_nat_nonneg].
Qed.

Lemma iloc_In {A : Type} (s : list A) (i : Z) (x : A) : iloc s i = Ok x -> In x s.
Proof.
  unfold iloc. destruct (_ <? 0)%Z; [discriminate|].
  destruct (nth_error s _) as [y|] eqn:E; [|discriminate].
  intro H. injection H as <-. eapply nth_error_In, E.
Qed.

(** X7: when the volume filter passes, the dry-up it reports is a number
    that is not negative (the current 20-bar volume average is one of the
    averages whose maximum it is compared with); and when no bar has a
    negative volume, it is at most 100. *)
Theorem check_volume_contracting_dry_up_range (df : DataFrame) (dry_up : float) :
  check_volume_contracting df = Ok (true, dry_up) ->
  exists d,
    dry_up = fin d /\ 0 <= d
    /\ (Forall (fun b => 0 <= volume b) df -> d <= 100).
Proof.
  intro H. destruct (check_volume_pass df dry_up H) as (c & Hc & [->|(m & Hm & Hcm & ->)]).
  - exists 0. split; [reflexivity|]. split; [apply Qle_refl|]. intros _. lra.
  - eexists. split; [reflexivity|]. split.
    + apply Qmult_le_0_compat; [|lra]. apply Qle_shift_div_l; [exact Hm|]. lra.
    + intro Hvol.
      assert (H0 : 0 <= c).
      { apply (rolling_mean_nonneg 20 (col volume df) c); [|apply (iloc_In _ _ _ Hc)].
        intros x Hx. unfold col, values in Hx. rewrite map_map in Hx.
        apply in_map_iff in Hx. destruct Hx as (b & Hb & Hin).
        injection Hb as <-. rewrite Forall_forall in Hvol. apply Hvol, Hin. }
      assert (Hq : (m - c) / m <= 1) by (apply Qle_shift_div_r; [exact Hm|lra]).
      lra.
Qed.

Lemma check_volume_contracting_dry_up_range_witness :
  exists d,
    check_volume_contracting vcp_df = Ok (true, fin d) /\ 0 <= d
    /\ (Forall (fun b => 0 <= volume b) vcp_df -> d <= 100).
Proof.
  destruct (check_volume_contracting vcp_df) as [[[|] dry_up]|e] eqn:E.
  - destruct (check_volume_contracting_dry_up_range vcp_df dry_up E) as (d & -> & Hd).
    exists d. split; [reflexivity|exact Hd].
  - exfalso. vm_compute in E. discriminate E.
  - exfalso. vm_compute in E. discriminate E.
Defined.

Lemma iloc_map {A B : Type} (f : A -> B) (s : list A) (i : Z) :
  iloc (map f s) i = match iloc s i with Ok x => Ok (f x) | Raise e => Raise e end.
Proof.
  unfold iloc. rewrite length_map.
  destruct (_ <? 0)%Z; [reflexivity|].
  rewrite nth_error_map. destruct (nth_error s _); reflexivity.
Qed.

Lemma iloc_col (f : Bar -> Q) (df : DataFrame) (i : Z) (x : float) :
  iloc (col f df) i = Ok x -> exists q, x = fin q /\ iloc (values f df) i = Ok q.
Proof.
  unfold col. rewrite iloc_map.
  destruct (iloc (values f df) i) as [q|e]; [|discriminate].
  intro H. injection H as <-. exists q. split; reflexivity.
Qed.

Lemma trailing_pivot_finite (df : DataFrame) :
  (101 <= length df)%nat -> exists p, trailing_pivot df = fin p.
Proof.
  intro Hlen. unfold trailing_pivot, col.
  rewrite trailing_window by (unfold values; rewrite !length_map; exact Hlen).
  rewrite skipn_map, firstn_map.
  unfold series_max. rewrite dropna_fin.
  destruct (firstn 100 (skipn _ (values high df))) as [|x l] eqn:E.
  - exfalso. apply (f_equal (@length Q)) in E.
    rewrite length_firstn, length_skipn in E. unfold values in E.
    rewrite !length_map in E. cbn [length] in E. lia.
  - eexists. reflexivity.
Qed.

(** What a passed near-breakout filter says about the last close [c] and
    the pivot [p]. *)
Lemma check_uptrend_pass (df : DataFrame) (m : message) :
  check_uptrend_near_breakout df = Ok (true, m) ->
  exists c p,
    (101 <= length df)%nat
    /\ iloc (values close df) (-1) = Ok c
    /\ trailing_pivot df = fin p
    /\ c <= p
    /\ (p - c) / p * 100 <= 7.
Proof.
  unfold check_uptrend_near_breakout.
  destruct (length df <? 101)%nat eqn:Elen; [discriminate|].
  apply Nat.ltb_ge in Elen.
  destruct (iloc (col close df) (-1)) as [x|e] eqn:Ec; cbn [bind]; [|discriminate].
  destruct (iloc_col _ _ _ _ Ec) as (c & -> & Ecv).
  fold (trailing_pivot df).
  destruct (trailing_pivot_finite df Elen) as [p Ep]. rewrite Ep.
  unfold fgtb, fsub, fdiv, fmul. cbn [fltb cmp2 lift2 fin].
  destruct (Qltb p c) eqn:E1; [discriminate|].
  destruct (Qltb 7 _) eqn:E2; [discriminate|].
  intros _. apply Qltb_ge in E1. apply Qltb_ge in E2.
  exists c, p. auto.
Qed.

Lemma scan_rs_percentile_range (benchmark : option DataFrame) (df : DataFrame) (r : Q) :
  scan_rs_percentile benchmark df = Ok r -> 0 <= r <= 100.
Proof.
  unfold scan_rs_percentile. destruct benchmark as [b|].
  - destruct (calculate_relative_strength df b 252) as [rs|e]; cbn [bind]; [|discriminate].
    intro H. injection H as <-. unfold Qpy_min, Qpy_max.
    destruct (Qltb (50 + rs) 0) eqn:E1; destruct (Qltb 100 _) eqn:E2;
      try apply Qltb_lt in E1; try apply Qltb_ge in E1;
      try apply Qltb_lt in E2; try apply Qltb_ge in E2; split; lra.
  - intro H. injection H as <-. split; lra.
Qed.

Lemma check_liquidity_pass (settings : VcpSettings) (df : DataFrame) (info : option Info)
  (rs_percentile : Q) (m : message) :
  check_liquidity_filter settings df info rs_percentile = Ok (true, m) ->
  rs_percentile_min settings <= rs_percentile.
Proof.
  unfold check_liquidity_filter.
  destruct (if info_truthy info then _ else _) as [[|]|e]; cbn [bind]; try discriminate.
  destruct (iloc (col close df) (-1)) as [c|e]; cbn [bind]; [|discriminate].
  destruct (iloc (rolling 20 series_mean (col close df)) (-1)) as [a|e]; cbn [bind];
    [|discriminate].
  destruct (c <=? a)%float; [discriminate|].
  destruct (Qltb rs_percentile (rs_percentile_min settings)) eqn:E; [discriminate|].
  intros _. apply Qltb_ge, E.
Qed.

(** Everything that holds when the body of [scan_stock] produces a setup. *)
Lemma scan_stock_body_inv (settings : VcpSettings) (data_fetcher : DataFetcher)
  (benchmark : option DataFrame) (sym : string) (df : DataFrame) (setup : VCPSetup) :
  scan_stock_body settings data_fetcher benchmark sym df = Ok (Some setup) ->
  exists rsp m1 m2 m3 vol_dry_up current,
    scan_rs_percentile benchmark df = Ok rsp
    /\ check_liquidity_filter settings df (get_stock_info data_fetcher sym) rsp
       = Ok (true, m1)
    /\ check_uptrend_near_breakout df = Ok (true, m2)
    /\ check_higher_lows df = (true, m3)
    /\ check_volume_contracting df = Ok (true, vol_dry_up)
    /\ iloc (values close df) (-1) = Ok current
    /\ symbol setup = sym
    /\ legs setup = fst (detect_vcp_legs df)
    /\ current_price setup = py_round current 2
    /\ pivot_price setup = fround (trailing_pivot df) 2
    /\ distance_from_pivot setup
       = fround (((trailing_pivot df - fin current) / trailing_pivot df) * fin 100)%float 2
    /\ rs_percentile setup = py_round rsp 1
    /\ volume_dry_up setup = fround vol_dry_up 1
    /\ base_duration_days setup
       = fold_right Nat.add 0%nat (map duration_days (fst (detect_vcp_legs df)))
    /\ score setup
       = calculate_vcp_score (fst (detect_vcp_legs df)) (fin (snd (detect_vcp_legs df)))
           vol_dry_up (fin rsp)
           (((trailing_pivot df - fin current) / trailing_pivot df) * fin 100)%float.
Proof.
  unfold scan_stock_body. intro H.
  scan_step H. scan_step H. destruct a0 as [liquidity_pass m1]. scan_step H.
  scan_step H. destruct a0 as [uptrend_pass m2]. scan_step H.
  scan_step H. scan_step H.
  scan_step H. destruct a0 as [vol_pass vol_dry_up]. scan_step H.
  scan_step H. scan_step H. scan_step H.
  repeat scan_step H.
  injection H as <-.
  match goal with
  | Hc : iloc (values close df) (-1) = Ok ?c |- _ =>
      exists a, m1, m2, m, vol_dry_up, c
  end.
  cbn [symbol legs current_price pivot_price distance_from_pivot rs_percentile
       volume_dry_up base_duration_days score fst snd].
  repeat split; auto.
Qed.

(** ** What a reported setup guarantees *)

Lemma scan_stock_inv (data_fetcher : DataFetcher) (self : VCPScanner) (sym : string)
  (setup : VCPSetup) :
  snd (scan_stock data_fetcher self sym) = Some setup ->
  exists df rsp m1 m2 vol_dry_up current p,
    get_stock_data data_fetcher sym = Some df
    /\ (101 <= length df)%nat
    /\ 0 <= rsp <= 100
    /\ rs_percentile_min (settings self) <= rsp
    /\ check_uptrend_near_breakout df = Ok (true, m2)
    /\ check_volume_contracting df = Ok (true, vol_dry_up)
    /\ check_liquidity_filter (settings self) df (get_stock_info data_fetcher sym) rsp
       = Ok (true, m1)
    /\ iloc (values close df) (-1) = Ok current
    /\ trailing_pivot df = fin p
    /\ current <= p
    /\ (p - current) / p * 100 <= 7
    /\ symbol setup = sym
    /\ legs setup = fst (detect_vcp_legs df)
    /\ current_price setup = py_round current 2
    /\ pivot_price setup = fin (py_round p 2)
    /\ distance_from_pivot setup = fin (py_round ((p - current) / p * 100) 2)
    /\ rs_percentile setup = py_round rsp 1
    /\ score setup
       = calculate_vcp_score (fst (detect_vcp_legs df)) (fin (snd (detect_vcp_legs df)))
           vol_dry_up (fin rsp) (fin ((p - current) / p * 100)).
Proof.
  intro H.
  destruct (scan_stock_some _ _ _ _ H) as (df & benchmark & Hdf & Hbody).
  destruct (scan_stock_body_inv _ _ _ _ _ _ Hbody)
    as (rsp & m1 & m2 & m3 & vol_dry_up & current & Hrsp & Hliq & Hup & Hhl & Hvol & Hcur
        & Hsym & Hlegs & Hprice & Hpivot & Hdist & Hrs & Hvd & Hdur & Hscore).
  destruct (check_uptrend_pass df m2 Hup) as (c & p & Hlen & Hc & Hp & Hcp & Hd).
  rewrite Hcur in Hc. injection Hc as <-.
  rewrite Hp in Hpivot, Hdist, Hscore.
  exists df, rsp, m1, m2, vol_dry_up, current, p.
  repeat split; try assumption.
  - apply (scan_rs_percentile_range _ _ _ Hrsp).
  - apply (scan_rs_percentile_range _ _ _ Hrsp).
  - apply (check_liquidity_pass _ _ _ _ _ Hliq).
Qed.

(** X8: under the default settings every setup that [scan_stock] returns
    is for the symbol asked, reports an RS percentile between 70 and 100, a
    current price that does not exceed the pivot price, and a distance from
    the pivot of at most 7 percent. *)
Theorem scan_stock_setup_fields (data_fetcher : DataFetcher) (self : VCPScanner)
  (sym : string) (setup : VCPSetup) :
  settings self = VCP_SETTINGS ->
  snd (scan_stock data_fetcher self sym) = Some setup ->
  symbol setup = sym
  /\ 70 <= rs_percentile setup <= 100
  /\ Fle (fin (current_price setup)) (pivot_price setup)
  /\ Fle (distance_from_pivot setup) (fin 7).
Proof.
  intros Hset H.
  destruct (scan_stock_inv _ _ _ _ H)
    as (df & rsp & m1 & m2 & vd & current & p & _ & _ & Hr & Hmin & _ & _ & _ & _ & _
        & Hcp & Hd & Hsym & _ & Hprice & Hpivot & Hdist & Hrs & _).
  rewrite Hset in Hmin. cbn [rs_percentile_min VCP_SETTINGS] in Hmin.
  split; [exact Hsym|]. rewrite Hrs, Hprice, Hpivot, Hdist. cbn [Fle fin].
  split; [split|split].
  - apply (py_round_ge_Z rsp 70 1), Hmin.
  - apply (py_round_le_Z rsp 100 1), Hr.
  - apply py_round_mono, Hcp.
  - apply (py_round_le_Z _ 7 2), Hd.
Qed.

Lemma scan_stock_setup_fields_witness :
  exists setup,
    snd (scan_stock demo_fetcher new_scanner "ACME") = Some setup
    /\ symbol setup = "ACME"%string
    /\ 70 <= rs_percentile setup <= 100
    /\ Fle (fin (current_price setup)) (pivot_price setup)
    /\ Fle (distance_from_pivot setup) (fin 7).
Proof.
  destruct (snd (scan_stock demo_fetcher new_scanner "ACME")) as [setup|] eqn:E.
  - exists setup. split; [reflexivity|].
    apply (scan_stock_setup_fields demo_fetcher new_scanner "ACME" setup eq_refl E).
  - exfalso. vm_compute in E. discriminate E.
Defined.

(** X9: the score of every setup that [scan_stock] returns is a number
    between 0 and 100: the dry-up and the percentile it is computed from
    are never negative. *)
Theorem scan_stock_score_in_range (data_fetcher : DataFetcher) (self : VCPScanner)
  (sym : string) (setup : VCPSetup) :
  snd (scan_stock data_fetcher self sym) = Some setup ->
  exists s, score setup = fin s /\ 0 <= s <= 100.
Proof.
  intro H.
  destruct (scan_stock_inv _ _ _ _ H)
    as (df & rsp & m1 & m2 & vd & current & p & _ & _ & Hr & _ & _ & Hvol & _ & _ & _
        & _ & _ & _ & _ & _ & _ & _ & _ & Hscore).
  destruct (check_volume_dry_up_nonneg df vd Hvol) as (d & -> & Hd).
  rewrite Hscore. apply calculate_vcp_score_in_range; [exact Hd|apply Hr].
Qed.

Lemma scan_stock_score_in_range_witness :
  exists setup s,
    snd (scan_stock demo_fetcher new_scanner "ACME") = Some setup
    /\ score setup = fin s /\ 0 <= s <= 100.
Proof.
  destruct (snd (scan_stock demo_fetcher new_scanner "ACME")) as [setup|] eqn:E.
  - destruct (scan_stock_score_in_range demo_fetcher new_scanner "ACME" setup E)
      as (s & Hs & Hrange).
    exists setup, s. split; [reflexivity|]. split; [exact Hs|exact Hrange].
  - exfalso. vm_compute in E. discriminate E.
Defined.

Lemma find_breakout_not_above_pivot (settings : BreakoutSettings)
  (data_fetcher : DataFetcher) (sym : string) (setup : option VCPSetup)
  (df : DataFrame) (c p : Q) :
  get_stock_data data_fetcher sym = Some df ->
  iloc (values close df) (-1) = Ok c ->
  trailing_pivot df = fin p ->
  c <= p ->
  find_breakout settings data_fetcher sym setup = None.
Proof.
  intros Hdf Hc Hp Hle. unfold find_breakout. rewrite Hdf.
  destruct (length df <? 101)%nat eqn:E; [reflexivity|].
  unfold find_breakout_body, check_breakout_conditions. rewrite E.
  unfold col at 1. rewrite iloc_map, Hc. cbn [bind].
  destruct (iloc (col volume df) (-1)) as [v|e]; cbn [bind]; [|reflexivity].
  fold (trailing_pivot df). rewrite Hp. cbn [fleb cmp2 fin].
  apply Qle_bool_iff in Hle. rewrite Hle. reflexivity.
Qed.

(** X10: on the same data a symbol is never both a VCP setup and a
    breakout: when [scan_stock] returns a setup for it, [find_breakout]
    returns nothing (the setup needs a close at or below the pivot, the
    breakout a close above it). *)
Theorem setup_excludes_breakout (data_fetcher : DataFetcher) (self : VCPScanner)
  (breakout_settings : BreakoutSettings) (sym : string) (setup : VCPSetup)
  (linked : option VCPSetup) :
  snd (scan_stock data_fetcher self sym) = Some setup ->
  find_breakout breakout_settings data_fetcher sym linked = None.
Proof.
  intro H.
  destruct (scan_stock_inv _ _ _ _ H)
    as (df & rsp & m1 & m2 & vd & current & p & Hdf & _ & _ & _ & _ & _ & _ & Hc & Hp
        & Hcp & _).
  eapply find_breakout_not_above_pivot; eassumption.
Qed.

Lemma setup_excludes_breakout_witness :
  exists setup,
    snd (scan_stock demo_fetcher new_scanner "ACME") = Some setup
    /\ find_breakout BREAKOUT_SETTINGS demo_fetcher "ACME" (Some setup) = None.
Proof.
  destruct (snd (scan_stock demo_fetcher new_scanner "ACME")) as [setup|] eqn:E.
  - exists setup. split; [reflexivity|].
    apply (setup_excludes_breakout demo_fetcher new_scanner BREAKOUT_SETTINGS "ACME"
             setup (Some setup) E).
  - exfalso. vm_compute in E. discriminate E.
Defined.

(** ** Numbering and duration of the legs *)

Lemma leg_loop_numbered (analysis_df : DataFrame) (low_indices highs_to_visit : list nat) :
  forall st, leg_numbered st ->
             leg_numbered (leg_loop analysis_df low_indices highs_to_visit st).
Proof.
  induction highs_to_visit as [|high_idx rest IH]; intros st Hst; simpl; [exact Hst|].
  destruct (scan_leg_number st <? 5)%nat; [|exact Hst].
  destruct (filter _ low_indices) as [|low_idx others] eqn:Ef; [exact Hst|].
  destruct (Qltb _ (scan_prev_pullback_depth st) && Qltb 2 _); [|apply IH, Hst].
  apply IH. destruct Hst as (Hnum & Hdur & Hlen).
  assert (Hlow : (high_idx < low_idx)%nat).
  { assert (Hin : In low_idx (filter (fun l => (high_idx <? l)%nat) low_indices))
      by (rewrite Ef; left; reflexivity).
    apply filter_In in Hin. apply Nat.ltb_lt, Hin. }
  unfold leg_numbered. cbn [scan_legs scan_leg_number].
  split; [|split].
  - rewrite map_app, Hnum, seq_S. reflexivity.
  - apply Forall_app. split; [exact Hdur|].
    constructor; [|constructor]. cbn [make_leg duration_days]. lia.
  - rewrite length_app, Hlen. simpl. lia.
Qed.

(** X11: the legs [detect_vcp_legs] returns are numbered 1, 2, 3, ... in the
    order of the list, there are at most five of them, and each one lasts
    at least one bar (its low comes strictly after its high). *)
Theorem detect_vcp_legs_numbering (df : DataFrame) :
  map leg_number (fst (detect_vcp_legs df)) = seq 1 (length (fst (detect_vcp_legs df)))
  /\ (length (fst (detect_vcp_legs df)) <= 5)%nat
  /\ Forall (fun l => (1 <= duration_days l)%nat) (fst (detect_vcp_legs df)).
Proof.
  assert (H : exists st, leg_numbered st /\ fst (detect_vcp_legs df) = scan_legs st).
  { unfold detect_vcp_legs.
    assert (H0 : leg_numbered (mkLegScan [] 0 100)).
    { unfold leg_numbered. simpl. repeat split. constructor. }
    destruct (length df <? 60)%nat; [exists (mkLegScan [] 0 100); split; [exact H0|reflexivity]|].
    destruct (_ || _); [exists (mkLegScan [] 0 100); split; [exact H0|reflexivity]|].
    eexists. split; [apply leg_loop_numbered, H0|reflexivity]. }
  destruct H as (st & (Hnum & Hdur & Hlen) & E).
  pose proof (detect_vcp_legs_at_most_5 df) as H5.
  rewrite E in *. rewrite Hnum, Hlen. split; [reflexivity|]. split; [lia|exact Hdur].
Qed.

(** ** The universe scan, symbol by symbol *)

Lemma load_benchmark_idem (data_fetcher : DataFetcher) (self : VCPScanner) :
  _load_benchmark data_fetcher (_load_benchmark data_fetcher self)
  = _load_benchmark data_fetcher self.
Proof.
  unfold _load_benchmark.
  destruct (benchmark_data self) as [b|] eqn:E.
  - rewrite E. reflexivity.
  - cbn [benchmark_data settings all_stocks_data].
    destruct (get_benchmark_data data_fetcher) as [b|]; reflexivity.
Qed.

Lemma scan_stock_state (data_fetcher : DataFetcher) (self : VCPScanner) (sym : string) :
  _load_benchmark data_fetcher self = self ->
  fst (scan_stock data_fetcher self sym) = self.
Proof.
  intro Hl. unfold scan_stock.
  destruct (get_stock_data data_fetcher sym) as [df|]; [|reflexivity].
  destruct (length df <? 100)%nat; [reflexivity|]. cbn [fst]. exact Hl.
Qed.

Lemma scan_stock_depends (data_fetcher : DataFetcher) (s1 s2 : VCPScanner) (sym : string) :
  settings s1 = settings s2 ->
  benchmark_data (_load_benchmark data_fetcher s1)
  = benchmark_data (_load_benchmark data_fetcher s2) ->
  snd (scan_stock data_fetcher s1 sym) = snd (scan_stock data_fetcher s2 sym).
Proof.
  intros Hs Hb. unfold scan_stock.
  destruct (get_stock_data data_fetcher sym) as [df|]; [|reflexivity].
  destruct (length df <? 100)%nat; [reflexivity|]. cbn [snd].
  rewrite !load_benchmark_settings, Hs, Hb. reflexivity.
Qed.

Lemma scan_loop_unfold (data_fetcher : DataFetcher) (self : VCPScanner)
  (symbols : list string) :
  _load_benchmark data_fetcher self = self ->
  forall acc,
    fold_left (fun '(self, results) symbol =>
                 let '(self, setup) := scan_stock data_fetcher self symbol in
                 match setup with
                 | Some s => (self, results ++ [s])
                 | None => (self, results)
                 end)
              symbols (self, acc)
    = (self, acc ++ setups_found data_fetcher self symbols).
Proof.
  intro Hl. induction symbols as [|s symbols IH]; intro acc; simpl.
  - rewrite app_nil_r. reflexivity.
  - pose proof (scan_stock_state data_fetcher self s Hl) as Hst.
    destruct (scan_stock data_fetcher self s) as [self' [r|]] eqn:E;
      cbn [fst snd] in *; subst self'.
    + rewrite IH, <- app_assoc. reflexivity.
    + rewrite IH. reflexivity.
Qed.

Lemma scan_universe_unfold (data_fetcher : DataFetcher) (self : VCPScanner)
  (symbols : list string) :
  snd (scan_universe data_fetcher self (Some symbols))
  = sort_desc score (setups_found data_fetcher self symbols).
Proof.
  unfold scan_universe.
  set (self1 := {| settings := settings (_load_benchmark data_fetcher self);
                   benchmark_data := benchmark_data (_load_benchmark data_fetcher self);
                   all_stocks_data := get_multiple_stocks data_fetcher symbols |}).
  assert (Hl : _load_benchmark data_fetcher self1 = self1).
  { unfold self1. unfold _load_benchmark at 1.
    cbn [benchmark_data settings all_stocks_data].
    destruct (benchmark_data (_load_benchmark data_fetcher self)) as [b|] eqn:E;
      [reflexivity|].
    assert (Eb : get_benchmark_data data_fetcher = None).
    { unfold _load_benchmark in E. destruct (benchmark_data self) eqn:E0.
      - rewrite E0 in E. discriminate E.
      - exact E. }
    rewrite Eb. reflexivity. }
  rewrite (scan_loop_unfold data_fetcher self1 symbols Hl []). cbn [snd app].
  f_equal. unfold setups_found. apply flat_map_ext. intro s.
  rewrite (scan_stock_depends data_fetcher self1 self s); [reflexivity| |].
  - unfold self1. cbn [settings]. apply load_benchmark_settings.
  - rewrite Hl. reflexivity.
Qed.

Lemma insert_desc_perm {A : Type} (key : A -> float) (x : A) (l : list A) :
  Permutation (insert_desc key x l) (x :: l).
Proof.
  induction l as [|y l IH]; simpl; [reflexivity|].
  destruct (key y <? key x)%float; [reflexivity|].
  rewrite IH. apply perm_swap.
Qed.

Lemma sort_desc_perm {A : Type} (key : A -> float) (l : list A) :
  Permutation (sort_desc key l) l.
Proof.
  unfold sort_desc.
  assert (H : forall acc, Permutation (fold_left (fun acc x => insert_desc key x acc) l acc)
                                      (acc ++ l)).
  { induction l as [|x l IH]; intro acc; simpl.
    - rewrite app_nil_r. reflexivity.
    - rewrite IH, insert_desc_perm. apply Permutation_middle. }
  apply (H []).
Qed.

Lemma setups_found_spec (data_fetcher : DataFetcher) (self : VCPScanner)
  (symbols : list string) (r : VCPSetup) :
  In r (setups_found data_fetcher self symbols) ->
  exists s, In s symbols /\ snd (scan_stock data_fetcher self s) = Some r.
Proof.
  unfold setups_found. intro H. apply in_flat_map in H.
  destruct H as (s & Hs & Hr). exists s. split; [exact Hs|].
  destruct (snd (scan_stock data_fetcher self s)) as [r'|]; [|contradiction].
  destruct Hr as [->|[]]. reflexivity.
Qed.

Lemma setups_found_length (data_fetcher : DataFetcher) (self : VCPScanner)
  (symbols : list string) :
  (length (setups_found data_fetcher self symbols) <= length symbols)%nat.
Proof.
  unfold setups_found. induction symbols as [|s symbols IH]; simpl; [lia|].
  rewrite length_app. destruct (snd (scan_stock data_fetcher self s)); simpl; lia.
Qed.

(** X12: [scan_universe] reports exactly the setups that [scan_stock] finds
    for the requested symbols, each symbol judged on its own: the result is
    a rearrangement of those setups, every reported setup is the answer of
    [scan_stock] (on the scanner as it was) for its own symbol, which is one
    of the requested ones, and there are no more results than symbols. *)
Theorem scan_universe_results (data_fetcher : DataFetcher) (self : VCPScanner)
  (symbols : list string) :
  Permutation (snd (scan_universe data_fetcher self (Some symbols)))
              (setups_found data_fetcher self symbols)
  /\ Forall (fun r => In (symbol r) symbols
                      /\ snd (scan_stock data_fetcher self (symbol r)) = Some r)
            (snd (scan_universe data_fetcher self (Some symbols)))
  /\ (length (snd (scan_universe data_fetcher self (Some symbols))) <= length symbols)%nat.
Proof.
  rewrite scan_universe_unfold.
  pose proof (sort_desc_perm score (setups_found data_fetcher self symbols)) as Hperm.
  split; [exact Hperm|]. split.
  - apply Forall_forall. intros r Hr.
    apply (Permutation_in _ Hperm) in Hr.
    destruct (setups_found_spec _ _ _ _ Hr) as (s & Hs & Hscan).
    destruct (scan_stock_inv _ _ _ _ Hscan)
      as (df & rsp & m1 & m2 & vd & cur & p & _ & _ & _ & _ & _ & _ & _ & _ & _ & _ & _
          & Hsym & _).
    rewrite Hsym. split; [exact Hs|exact Hscan].
  - rewrite (Permutation_length Hperm). apply setups_found_length.
Qed.

(** ** Ordering of the results *)

Lemma Fle_trans (a b c : float) : Fle a b -> Fle b c -> Fle a c.
Proof.
  destruct a as [x|], b as [y|], c as [z|]; simpl; try contradiction. apply Qle_trans.
Qed.

Lemma insert_desc_sorted {A : Type} (key : A -> float) (x : A) (l : list A) :
  (exists q, key x = fin q) ->
  (forall z, In z l -> exists q, key z = fin q) ->
  sorted_desc key l -> sorted_desc key (insert_desc key x l).
Proof.
  intros [qx Hx] Hfin. induction l as [|y l IH]; intro Hs; simpl.
  - split; [constructor|exact I].
  - destruct Hs as [Hy Hs].
    destruct (Hfin y (or_introl eq_refl)) as [qy Hqy].
    destruct (key y <? key x)%float eqn:E; cbn [sorted_desc].
    + split; [|split; assumption].
      assert (Hyx : Fle (key y) (key x)).
      { rewrite Hx, Hqy in *. cbn [fltb cmp2 fin Fle] in *.
        apply Qltb_lt in E. apply Qlt_le_weak, E. }
      constructor; [exact Hyx|].
      eapply Forall_impl; [|exact Hy]. intros z Hz. cbv beta in Hz.
      exact (Fle_trans _ _ _ Hz Hyx).
    + split.
      * apply (Permutation_Forall (Permutation_sym (insert_desc_perm key x l))).
        constructor; [|exact Hy].
        rewrite Hx, Hqy in *. cbn [fltb cmp2 fin Fle] in *. apply Qltb_ge, E.
      * apply IH; [|exact Hs]. intros z Hz. apply Hfin. right. exact Hz.
Qed.

Lemma sort_desc_sorted {A : Type} (key : A -> float) (l : list A) :
  (forall z, In z l -> exists q, key z = fin q) ->
  sorted_desc key (sort_desc key l).
Proof.
  unfold sort_desc. intro Hfin.
  assert (H : forall acc,
             (forall z, In z acc -> exists q, key z = fin q) ->
             sorted_desc key acc ->
             sorted_desc key (fold_left (fun acc x => insert_desc key x acc) l acc)).
  { induction l as [|x l IH]; intros acc Hacc Hs; simpl; [exact Hs|].
    apply IH.
    - intros z Hz. apply Hfin. right. exact Hz.
    - intros z Hz. apply (Permutation_in _ (insert_desc_perm key x acc)) in Hz.
      destruct Hz as [<-|Hz]; [apply Hfin; left; reflexivity|apply Hacc, Hz].
    - apply insert_desc_sorted; [apply Hfin; left; reflexivity|exact Hacc|exact Hs]. }
  apply H; [intros z []|exact I].
Qed.

Lemma scan_stock_score_finite (data_fetcher : DataFetcher) (self : VCPScanner)
  (sym : string) (setup : VCPSetup) :
  snd (scan_stock data_fetcher self sym) = Some setup ->
  exists s, score setup = fin s.
Proof.
  intro H.
  destruct (scan_stock_inv _ _ _ _ H)
    as (df & rsp & m1 & m2 & vd & current & p & _ & _ & Hr & _ & _ & Hvol & _ & _ & _
        & _ & _ & _ & _ & _ & _ & _ & _ & Hscore).
  destruct (check_volume_dry_up_nonneg df vd Hvol) as (d & -> & Hd).
  rewrite Hscore.
  destruct (calculate_vcp_score_in_range (fst (detect_vcp_legs df))
              (snd (detect_vcp_legs df)) d rsp ((p - current) / p * 100) Hd (proj1 Hr))
    as (s & Hs & _).
  exists s. exact Hs.
Qed.

(** X13: the list [scan_universe] returns is in descending order of score:
    every setup's score is a number and no later setup scores higher than
    an earlier one. *)
Theorem scan_universe_sorted (data_fetcher : DataFetcher) (self : VCPScanner)
  (symbols : list string) :
  sorted_desc score (snd (scan_universe data_fetcher self (Some symbols))).
Proof.
  rewrite scan_universe_unfold. apply sort_desc_sorted.
  intros r Hr. destruct (setups_found_spec _ _ _ _ Hr) as (s & _ & Hscan).
  eapply scan_stock_score_finite, Hscan.
Qed.

(** ** The confirmation score *)

Lemma finite_fin (x : Q) : finite (fin x).
Proof.
  exists x. reflexivity.
Qed.

Lemma finite_lift2 (op : Q -> Q -> Q) (a b : float) :
  finite a -> finite b -> finite (lift2 op a b).
Proof.
  intros [x ->] [y ->]. eexists. reflexivity.
Qed.

Lemma finite_py_min (a b : float) : finite a -> finite b -> finite (py_min a b).
Proof.
  unfold py_min. destruct (b <? a)%float; auto.
Qed.

Lemma finite_py_max (a b : float) : finite a -> finite b -> finite (py_max a b).
Proof.
  unfold py_max. destruct (b >? a)%float; auto.
Qed.

Lemma nonneg_finite (a : float) : nonneg a -> finite a.
Proof.
  destruct a as [x|]; [intros _; exists x; reflexivity|contradiction].
Qed.

Lemma nonneg_py_max_0_any (a : float) : finite a -> nonneg (py_max a (fin 0)).
Proof.
  intros [x ->]. apply nonneg_py_max_0.
Qed.

Lemma positive_finite (a : float) : (a >? fin 0)%float = true -> exists x, a = fin x /\ 0 < x.
Proof.
  destruct a as [x|]; [|discriminate]. unfold fgtb. cbn [fltb cmp2 fin].
  intro H. apply Qltb_lt in H. exists x. split; [reflexivity|exact H].
Qed.

Lemma length_rolling (w : nat) (agg : Series -> float) (s : Series) :
  length (rolling w agg s) = length s.
Proof.
  unfold rolling. rewrite length_map, length_seq. reflexivity.
Qed.

Lemma length_true_range (hs ls cs : Series) :
  length ls = length hs -> length cs = length hs ->
  length (true_range hs ls cs) = length hs.
Proof.
  revert ls cs. induction hs as [|h hs IH]; intros [|l ls] [|c cs] Hl Hc;
    simpl in *; try discriminate; try reflexivity.
  rewrite IH; [reflexivity|lia|lia].
Qed.

Lemma length_shift1 (s : Series) : length (shift1 s) = length s.
Proof.
  destruct s as [|x s]; [reflexivity|]. unfold shift1.
  cbn [length]. rewrite removelast_firstn_len, length_firstn. cbn [length]. lia.
Qed.

Lemma calculate_atr_ok (df : DataFrame) (period : nat) :
  (0 < length df)%nat -> exists atr, _calculate_atr df period = Ok atr.
Proof.
  intro H. unfold _calculate_atr. apply iloc_last.
  rewrite length_rolling, length_true_range; rewrite ?length_shift1, ?length_col; lia.
Qed.

(** The terms of the confirmation score, for the bars [current] and
    [previous], the average true range [atr_14] and the relative volume. *)
Lemma confirmation_terms (current previous : Bar) (atr_14 : float) (relative_volume : Q) :
  let score0 := fin 0 in
  let daily_range := high current - low current in
  let score1 :=
    if (atr_14 >? fin 0)%float
    then (score0 + py_min ((fin daily_range / atr_14) * fin 10)%float (fin 25))%float
    else score0 in
  let score2 :=
    if Qltb 0 daily_range
    then (score1 + fin ((close current - low current) / daily_range * 25))%float
    else score1 in
  let gap_pct := ((open current - close previous) / close previous) * 100 in
  let score3 :=
    if Qltb 0 gap_pct then (score2 + fin (Qpy_min (gap_pct * 5) 25))%float else score2 in
  let vol_score := py_min ((fin relative_volume - fin 1) * fin (25 # 2))%float (fin 25) in
  let score4 := (score3 + py_max vol_score (fin 0))%float in
  finite score4
  /\ (low current <= close current -> low current <= high current -> nonneg score4).
Proof.
  cbv zeta.
  set (daily_range := high current - low current).
  set (gap_pct := ((open current - close previous) / close previous) * 100).
  assert (Hvol : nonneg (py_max (py_min ((fin relative_volume - fin 1) * fin (25 # 2))%float
                                        (fin 25)) (fin 0))).
  { apply nonneg_py_max_0_any, finite_py_min; [|apply finite_fin].
    eexists. reflexivity. }
  assert (Hgap : Qltb 0 gap_pct = true -> nonneg (fin (Qpy_min (gap_pct * 5) 25))).
  { intro E. apply Qltb_lt in E. apply nonneg_fin. unfold Qpy_min.
    destruct (Qltb 25 (gap_pct * 5)); lra. }
  split.
  - apply finite_lift2; [|apply nonneg_finite, Hvol].
    assert (F1 : finite (if (atr_14 >? fin 0)%float
                         then (fin 0 + py_min ((fin daily_range / atr_14) * fin 10)%float
                                              (fin 25))%float
                         else fin 0)).
    { destruct (atr_14 >? fin 0)%float eqn:Ea; [|apply finite_fin].
      destruct (positive_finite _ Ea) as (a & -> & _).
      apply finite_lift2; [apply finite_fin|].
      apply finite_py_min; [eexists; reflexivity|apply finite_fin]. }
    destruct (Qltb 0 daily_range); destruct (Qltb 0 gap_pct);
      repeat (apply finite_lift2; try apply finite_fin); exact F1.
  - intros Hlc Hlh.
    assert (Hrange : 0 <= daily_range) by (unfold daily_range; lra).
    apply nonneg_add; [|exact Hvol].
    assert (N1 : nonneg (if (atr_14 >? fin 0)%float
                         then (fin 0 + py_min ((fin daily_range / atr_14) * fin 10)%float
                                              (fin 25))%float
                         else fin 0)).
    { destruct (atr_14 >? fin 0)%float eqn:Ea; [|apply nonneg_fin; lra].
      destruct (positive_finite _ Ea) as (a & -> & Ha).
      apply nonneg_add; [apply nonneg_fin; lra|].
      apply nonneg_py_min; [|apply nonneg_fin; lra].
      unfold fdiv, fmul, fin. cbn [lift2]. apply nonneg_fin.
      apply Qmult_le_0_compat; [|lra]. apply Qdiv_nonneg; lra. }
    assert (N2 : Qltb 0 daily_range = true ->
                 nonneg (fin ((close current - low current) / daily_range * 25))).
    { intro E. apply Qltb_lt in E. apply nonneg_fin.
      apply Qmult_le_0_compat; [|lra]. apply Qdiv_nonneg; lra. }
    destruct (Qltb 0 daily_range) eqn:E1; destruct (Qltb 0 gap_pct) eqn:E2;
      repeat apply nonneg_add; auto.
Qed.

Lemma confirmation_score_core (df : DataFrame) (relative_volume : Q)
  (current previous : Bar) (atr_14 : float) :
  iloc df (-1) = Ok current ->
  iloc df (-2) = Ok previous ->
  _calculate_atr df 14 = Ok atr_14 ->
  exists s,
    calculate_confirmation_score df (fin relative_volume) = Ok (fin s)
    /\ s <= 100
    /\ (low current <= close current -> low current <= high current -> 0 <= s).
Proof.
  intros Hcur Hprev Hatr. unfold calculate_confirmation_score.
  rewrite Hcur. cbn [bind]. rewrite Hprev. cbn [bind]. rewrite Hatr. cbn [bind].
  destruct (confirmation_terms current previous atr_14 relative_volume) as [Hfin Hnn].
  cbv zeta in Hfin, Hnn.
  set (total := (_ + py_max _ (fin 0))%float) in *.
  destruct Hfin as [t Ht].
  destruct (fround (py_min total (fin 100)) 1) as [s|] eqn:Es.
  - exists s. split; [reflexivity|]. split; [apply (capped_at_100 total), Es|].
    intros Hlc Hlh.
    assert (Hn : nonneg (fround (py_min total (fin 100)) 1)).
    { apply nonneg_fround, nonneg_py_min; [apply Hnn; assumption|apply nonneg_fin; lra]. }
    rewrite Es in Hn. exact Hn.
  - exfalso. rewrite Ht in Es. unfold py_min in Es. cbn [fltb cmp2 fin] in Es.
    destruct (Qltb 100 t); discriminate Es.
Qed.

(** X14: on a series of at least two bars the confirmation score is
    computed without an exception and is a number that never exceeds 100;
    it is not negative when the last bar's low is not above its close and
    its high. *)
Theorem calculate_confirmation_score_range (df : DataFrame) (relative_volume : Q)
  (current : Bar) :
  (2 <= length df)%nat ->
  iloc df (-1) = Ok current ->
  exists s,
    calculate_confirmation_score df (fin relative_volume) = Ok (fin s)
    /\ s <= 100
    /\ (low current <= close current -> low current <= high current -> 0 <= s).
Proof.
  intros Hlen Hcur.
  destruct (iloc_from_end df 2) as [previous Hprev]; [lia|].
  destruct (calculate_atr_ok df 14) as [atr_14 Hatr]; [lia|].
  eapply confirmation_score_core; eassumption.
Qed.

Lemma calculate_confirmation_score_range_witness :
  exists current s,
    iloc breakout_df (-1) = Ok current
    /\ calculate_confirmation_score breakout_df (fin (15 # 10)) = Ok (fin s)
    /\ s <= 100
    /\ (low current <= close current -> low current <= high current -> 0 <= s).
Proof.
  destruct (iloc breakout_df (-1)) as [current|e] eqn:E.
  - destruct (calculate_confirmation_score_range breakout_df (15 # 10) current)
      as (s & Hs & Hrange).
    + vm_compute. lia.
    + exact E.
    + exists current, s. split; [reflexivity|]. split; [exact Hs|exact Hrange].
  - exfalso. vm_compute in E. discriminate E.
Defined.

(** ** Reported breakouts *)

Lemma check_breakout_pass (settings : BreakoutSettings) (df : DataFrame)
  (rv pivot : float) :
  check_breakout_conditions settings df = Ok (true, rv, pivot) ->
  exists c p r,
    (101 <= length df)%nat
    /\ iloc (values close df) (-1) = Ok c
    /\ trailing_pivot df = fin p /\ pivot = fin p /\ p < c
    /\ rv = fin r /\ relative_volume_threshold settings <= r.
Proof.
  unfold check_breakout_conditions.
  destruct (length df <? 101)%nat eqn:Elen; [discriminate|].
  apply Nat.ltb_ge in Elen.
  destruct (iloc (col close df) (-1)) as [x|e] eqn:Ec; cbn [bind]; [|discriminate].
  destruct (iloc_col _ _ _ _ Ec) as (c & -> & Ecv).
  destruct (iloc (col volume df) (-1)) as [y|e] eqn:Ev; cbn [bind]; [|discriminate].
  destruct (iloc_col _ _ _ _ Ev) as (v & -> & Evv).
  fold (trailing_pivot df).
  destruct (trailing_pivot_finite df Elen) as [p Ep]. rewrite Ep.
  cbn [fleb cmp2 fin].
  destruct (Qle_bool c p) eqn:Ecp; [discriminate|].
  apply Qle_bool_lt in Ecp.
  destruct (iloc (rolling 20 series_mean (col volume df)) (-2)) as [sma|e]; cbn [bind];
    [|discriminate].
  assert (Hrv : exists r, (if (sma >? fin 0)%float then (fin v / sma)%float else fin 0)
                          = fin r).
  { destruct (sma >? fin 0)%float eqn:Es; [|exists 0; reflexivity].
    destruct (positive_finite _ Es) as (a & -> & _). eexists. reflexivity. }
  destruct Hrv as [r Hr]. rewrite Hr. cbn [fltb cmp2 fin].
  destruct (Qltb r (relative_volume_threshold settings)) eqn:Et; [discriminate|].
  apply Qltb_ge in Et.
  intro H. injection H as <- <-. exists c, p, r. auto 10.
Qed.

Lemma find_breakout_inv (settings : BreakoutSettings) (data_fetcher : DataFetcher)
  (sym : string) (linked : option VCPSetup) (cand : BreakoutCandidate) :
  find_breakout settings data_fetcher sym linked = Some cand ->
  exists df c p r s,
    get_stock_data data_fetcher sym = Some df
    /\ (101 <= length df)%nat
    /\ iloc (values close df) (-1) = Ok c
    /\ trailing_pivot df = fin p /\ p < c
    /\ relative_volume_threshold settings <= r
    /\ s <= 100
    /\ bc_symbol cand = sym
    /\ vcp_setup cand = linked
    /\ breakout_price cand = py_round c 2
    /\ bc_pivot_price cand = fin (py_round p 2)
    /\ relative_volume cand = fin (py_round r 2)
    /\ confirmation_score cand = fin s.
Proof.
  unfold find_breakout.
  destruct (get_stock_data data_fetcher sym) as [df|]; [|discriminate].
  destruct (length df <? 101)%nat eqn:Elen; [discriminate|].
  unfold find_breakout_body.
  destruct (check_breakout_conditions settings df) as [[[is_breakout rv] pivot]|e] eqn:Ecb;
    cbn [bind try_or_none]; [|discriminate].
  destruct is_breakout; cbn [negb try_or_none]; [|discriminate].
  destruct (check_breakout_pass _ _ _ _ Ecb) as (c & p & r & Hlen & Hc & Hp & -> & Hpc & -> & Hr).
  destruct (iloc df (-1)) as [current|e] eqn:Ecur; cbn [bind try_or_none]; [|discriminate].
  destruct (iloc df (-2)) as [previous|e] eqn:Eprev; cbn [bind try_or_none]; [|discriminate].
  destruct (calculate_atr_ok df 14) as [atr_14 Hatr]; [lia|].
  destruct (confirmation_score_core df r current previous atr_14 Ecur Eprev Hatr)
    as (s & Hs & Hs100 & _).
  rewrite Hs. cbn [bind try_or_none].
  destruct (stock_name_of _ sym) as [name|e]; cbn [bind try_or_none]; [|discriminate].
  intro H. injection H as <-.
  assert (Hcl : close current = c).
  { unfold values in Hc. rewrite iloc_map, Ecur in Hc. injection Hc as ->. reflexivity. }
  exists df, c, p, r, s.
  cbn [bc_symbol vcp_setup breakout_price bc_pivot_price relative_volume
       confirmation_score fround lift1 fin].
  rewrite Hcl. auto 20.
Qed.

(** X15: a candidate that [find_breakout] returns is for the symbol asked
    and carries the setup that was passed in; its breakout price is not
    below its pivot price, its relative volume is not below the (rounded)
    threshold, and its confirmation score is a number of at most 100. *)
Theorem find_breakout_candidate_fields (settings : BreakoutSettings)
  (data_fetcher : DataFetcher) (sym : string) (linked : option VCPSetup)
  (cand : BreakoutCandidate) :
  find_breakout settings data_fetcher sym linked = Some cand ->
  bc_symbol cand = sym
  /\ vcp_setup cand = linked
  /\ Fle (bc_pivot_price cand) (fin (breakout_price cand))
  /\ Fle (fin (py_round (relative_volume_threshold settings) 2)) (relative_volume cand)
  /\ Fle (confirmation_score cand) (fin 100).
Proof.
  intro H.
  destruct (find_breakout_inv _ _ _ _ _ H)
    as (df & c & p & r & s & _ & _ & _ & _ & Hpc & Hr & Hs & Hsym & Hl & Hbp & Hpp & Hrv & Hcs).
  rewrite Hbp, Hpp, Hrv, Hcs. cbn [Fle fin].
  repeat split; try assumption.
  - apply py_round_mono, Qlt_le_weak, Hpc.
  - apply py_round_mono, Hr.
Qed.

Lemma find_breakout_candidate_fields_witness :
  exists cand,
    find_breakout BREAKOUT_SETTINGS (const_fetcher breakout_df) "ACME" None = Some cand
    /\ bc_symbol cand = "ACME"%string
    /\ vcp_setup cand = None
    /\ Fle (bc_pivot_price cand) (fin (breakout_price cand))
    /\ Fle (fin (py_round 1 2)) (relative_volume cand)
    /\ Fle (confirmation_score cand) (fin 100).
Proof.
  destruct (find_breakout BREAKOUT_SETTINGS (const_fetcher breakout_df) "ACME" None)
    as [cand|] eqn:E.
  - exists cand. split; [reflexivity|].
    apply (find_breakout_candidate_fields BREAKOUT_SETTINGS (const_fetcher breakout_df)
             "ACME" None cand E).
  - exfalso. vm_compute in E. discriminate E.
Defined.

Lemma breakout_loop_unfold (settings : BreakoutSettings) (data_fetcher : DataFetcher)
  (symbols : list string) :
  forall acc,
    fold_left (fun breakouts symbol =>
                 match find_breakout settings data_fetcher symbol None with
                 | Some b => breakouts ++ [b]
                 | None => breakouts
                 end)
              symbols acc
    = acc ++ breakouts_found settings data_fetcher symbols.
Proof.
  induction symbols as [|s symbols IH]; intro acc; simpl.
  - rewrite app_nil_r. reflexivity.
  - rewrite IH. destruct (find_breakout settings data_fetcher s None).
    + rewrite <- app_assoc. reflexivity.
    + reflexivity.
Qed.

(** X16: [scan_for_breakouts] returns a rearrangement of the candidates
    that [find_breakout] reports for the requested symbols, in descending
    order of confirmation score, each for one of the requested symbols. *)
Theorem scan_for_breakouts_results (settings : BreakoutSettings)
  (data_fetcher : DataFetcher) (symbols : list string) :
  Permutation (scan_for_breakouts settings data_fetcher (Some symbols))
              (breakouts_found settings data_fetcher symbols)
  /\ sorted_desc confirmation_score (scan_for_breakouts settings data_fetcher (Some symbols))
  /\ Forall (fun b => In (bc_symbol b) symbols
                      /\ find_breakout settings data_fetcher (bc_symbol b) None = Some b)
            (scan_for_breakouts settings data_fetcher (Some symbols)).
Proof.
  unfold scan_for_breakouts. rewrite breakout_loop_unfold. cbn [app].
  pose proof (sort_desc_perm confirmation_score
                (breakouts_found settings data_fetcher symbols)) as Hperm.
  assert (Hspec : forall b, In b (breakouts_found settings data_fetcher symbols) ->
                            exists s, In s symbols
                                      /\ find_breakout settings data_fetcher s None = Some b).
  { unfold breakouts_found. intros b Hb. apply in_flat_map in Hb.
    destruct Hb as (s & Hs & Hb). exists s. split; [exact Hs|].
    destruct (find_breakout settings data_fetcher s None) as [b'|]; [|contradiction].
    destruct Hb as [->|[]]. reflexivity. }
  split; [exact Hperm|]. split.
  - apply sort_desc_sorted. intros b Hb.
    destruct (Hspec b Hb) as (s & _ & Hf).
    destruct (find_breakout_inv _ _ _ _ _ Hf)
      as (df & c & p & r & q & _ & _ & _ & _ & _ & _ & _ & _ & _ & _ & _ & _ & Hcs).
    exists q. exact Hcs.
  - apply Forall_forall. intros b Hb. apply (Permutation_in _ Hperm) in Hb.
    destruct (Hspec b Hb) as (s & Hs & Hf).
    destruct (find_breakout_inv _ _ _ _ _ Hf)
      as (df & c & p & r & q & _ & _ & _ & _ & _ & _ & _ & Hsym & _).
    rewrite Hsym. split; [exact Hs|exact Hf].
Qed.

Lemma vcp_breakouts_loop_empty (settings : BreakoutSettings) (data_fetcher : DataFetcher)
  (setups : list VCPSetup) :
  (forall r, In r setups ->
             find_breakout settings data_fetcher (symbol r) (Some r) = None) ->
  scan_vcp_breakouts settings data_fetcher setups = [].
Proof.
  unfold scan_vcp_breakouts. induction setups as [|r setups IH]; intro H; simpl.
  - reflexivity.
  - rewrite (H r (or_introl eq_refl)). apply IH. intros r' Hr'. apply H. right. exact Hr'.
Qed.

(** X17: fed with the setups a universe scan has just returned (same
    provider), [scan_vcp_breakouts] finds nothing: a symbol that qualifies
    as a setup closes at or below its pivot and so is no breakout. *)
Theorem scan_vcp_breakouts_of_fresh_scan (settings : BreakoutSettings)
  (data_fetcher : DataFetcher) (self : VCPScanner) (symbols : list string) :
  scan_vcp_breakouts settings data_fetcher
    (snd (scan_universe data_fetcher self (Some symbols))) = [].
Proof.
  apply vcp_breakouts_loop_empty. intros r Hr.
  rewrite scan_universe_unfold in Hr.
  apply (Permutation_in _ (sort_desc_perm score _)) in Hr.
  destruct (setups_found_spec _ _ _ _ Hr) as (s & _ & Hscan).
  destruct (scan_stock_inv _ _ _ _ Hscan)
    as (df & rsp & m1 & m2 & vd & current & p & Hdf & _ & _ & _ & _ & _ & _ & Hc & Hp
        & Hcp & _ & Hsym & _).
  rewrite Hsym. eapply find_breakout_not_above_pivot; eassumption.
Qed.

(** ** The liquidity filter and the info record *)

Lemma check_liquidity_no_cap (settings : VcpSettings) (df : DataFrame) (d : Info)
  (rs_percentile : Q) :
  d <> [] ->
  (forall q, dict_get d "marketCap" (PNum 0) = PNum q -> q < min_market_cap settings) ->
  check_liquidity_filter settings df (Some d) rs_percentile
  = Ok (false, MarketCapBelowThreshold)
  \/ check_liquidity_filter settings df (Some d) rs_percentile = Raise TypeError.
Proof.
  intros Hd Hcap. unfold check_liquidity_filter.
  destruct d as [|kv d]; [contradiction|]. cbn [info_truthy info_dict].
  destruct (dict_get (kv :: d) "marketCap" (PNum 0)) as [q| |] eqn:E; cbn [pyval_ltb bind].
  - left. specialize (Hcap q eq_refl). apply Qltb_lt in Hcap. rewrite Hcap. reflexivity.
  - right. reflexivity.
  - right. reflexivity.
Qed.

(** X18: under the default settings [scan_stock] returns nothing for a
    symbol whose (non-empty) info record has no market capitalisation of
    at least the floor: the key is missing (read as 0), holds a smaller
    number, or holds None or text (the comparison then raises and the
    exception is swallowed). *)
Theorem scan_stock_needs_market_cap (data_fetcher : DataFetcher) (self : VCPScanner)
  (sym : string) (d : Info) :
  settings self = VCP_SETTINGS ->
  get_stock_info data_fetcher sym = Some d ->
  d <> [] ->
  (forall q, dict_get d "marketCap" (PNum 0) = PNum q -> q < 2000000000) ->
  snd (scan_stock data_fetcher self sym) = None.
Proof.
  intros Hset Hinfo Hd Hcap.
  destruct (snd (scan_stock data_fetcher self sym)) as [setup|] eqn:E; [|reflexivity].
  exfalso.
  destruct (scan_stock_inv _ _ _ _ E)
    as (df & rsp & m1 & m2 & vd & current & p & _ & _ & _ & _ & _ & _ & Hliq & _).
  rewrite Hinfo, Hset in Hliq.
  destruct (check_liquidity_no_cap VCP_SETTINGS df d rsp Hd Hcap) as [H|H];
    rewrite H in Hliq; discriminate Hliq.
Qed.

Lemma scan_stock_needs_market_cap_witness :
  snd (scan_stock demo_fetcher new_scanner "ACME") <> None
  /\ snd (scan_stock
            {| get_stock_data := get_stock_data demo_fetcher;
               get_stock_info := fun _ => Some [("longName"%string, PStr "Acme Ltd")];
               get_benchmark_data := get_benchmark_data demo_fetcher;
               now_isoformat := now_isoformat demo_fetcher |}
            new_scanner "ACME") = None.
Proof.
  split; [vm_compute; discriminate|].
  apply (scan_stock_needs_market_cap _ new_scanner "ACME"
           [("longName"%string, PStr "Acme Ltd")]).
  - reflexivity.
  - reflexivity.
  - discriminate.
  - intros q H. cbn in H. injection H as <-. reflexivity.
Defined.

(** ** The fundamental quality score *)

Lemma dict_get_lookup {V : Type} (d : list (string * V)) (key : string) (default : V) :
  dict_get d key default
  = match dict_lookup d key with Some v => v | None => default end.
Proof.
  induction d as [|[k v] d IH]; simpl; [reflexivity|].
  destruct (String.eqb k key); [reflexivity|exact IH].
Qed.

Lemma points_above_range (x : pyval) (ladder : list (Q * Z)) (top p : Z) :
  Forall (fun tp => (0 <= snd tp <= top)%Z /\ (5 | snd tp)%Z) ladder ->
  (0 <= top)%Z ->
  FundamentalAnalyzer.points_above x ladder = Ok p -> (0 <= p <= top)%Z /\ (5 | p)%Z.
Proof.
  intros Hl Htop. induction Hl as [|[t pts] rest Hhd _ IH]; simpl.
  - intro H. injection H as <-. split; [lia|apply Z.divide_0_r].
  - destruct (FundamentalAnalyzer.pyval_gtb x t) as [[|]|e]; cbn [bind]; try discriminate.
    + intro H. injection H as <-. exact Hhd.
    + exact IH.
Qed.

Lemma points_below_range (x : pyval) (ladder : list (Q * Z)) (top p : Z) :
  Forall (fun tp => (0 <= snd tp <= top)%Z /\ (5 | snd tp)%Z) ladder ->
  (0 <= top)%Z ->
  FundamentalAnalyzer.points_below x ladder = Ok p -> (0 <= p <= top)%Z /\ (5 | p)%Z.
Proof.
  intros Hl Htop. induction Hl as [|[t pts] rest Hhd _ IH]; simpl.
  - intro H. injection H as <-. split; [lia|apply Z.divide_0_r].
  - destruct (pyval_ltb x t) as [[|]|e]; cbn [bind]; try discriminate.
    + intro H. injection H as <-. exact Hhd.
    + exact IH.
Qed.

Lemma points_above_num (q : Q) (ladder : list (Q * Z)) :
  exists p, FundamentalAnalyzer.points_above (PNum q) ladder = Ok p.
Proof.
  induction ladder as [|[t pts] rest IH]; simpl; [eexists; reflexivity|].
  destruct (Qltb t q); [eexists; reflexivity|exact IH].
Qed.

Lemma points_below_num (q : Q) (ladder : list (Q * Z)) :
  exists p, FundamentalAnalyzer.points_below (PNum q) ladder = Ok p.
Proof.
  induction ladder as [|[t pts] rest IH]; simpl; [eexists; reflexivity|].
  destruct (Qltb q t); [eexists; reflexivity|exact IH].
Qed.

Lemma get_or_numeric (data : Info) (key : string) (default : Q) :
  numeric_or_absent data key ->
  exists q, FundamentalAnalyzer.get_or data key default = PNum q.
Proof.
  intro H. unfold FundamentalAnalyzer.get_or. rewrite dict_get_lookup.
  destruct (dict_lookup data key) as [[q|s|]|] eqn:E.
  - cbn [FundamentalAnalyzer.pyval_truthy]. destruct (negb _); eexists; reflexivity.
  - rewrite (H s E). cbn. eexists. reflexivity.
  - cbn. eexists. reflexivity.
  - cbn [FundamentalAnalyzer.pyval_truthy]. destruct (negb _); eexists; reflexivity.
Qed.

Ltac ladder_facts :=
  repeat (constructor; [cbn [snd]; split; [lia|];
                        first [exists 4%Z; reflexivity | exists 3%Z; reflexivity
                              | exists 2%Z; reflexivity | exists 1%Z; reflexivity]|]);
  try constructor.

(** X19: [_calculate_quality_score] either raises (a metric holds
    non-empty text) or returns a whole number of points between 0 and 100
    that is a multiple of 5; it does return when each of the six metrics is
    missing, None, empty or a number, and an empty record scores 0. *)
Theorem calculate_quality_score_range (data : Info) :
  (forall s, FundamentalAnalyzer._calculate_quality_score data = Ok s ->
             (0 <= s <= 100)%Z /\ (5 | s)%Z)
  /\ (Forall (numeric_or_absent data) quality_metrics ->
      exists s, FundamentalAnalyzer._calculate_quality_score data = Ok s)
  /\ FundamentalAnalyzer._calculate_quality_score [] = Ok 0%Z.
Proof.
  split; [|split; [|reflexivity]].
  - intro s. unfold FundamentalAnalyzer._calculate_quality_score.
    match goal with |- bind ?m _ = _ -> _ =>
      destruct m as [p1|e] eqn:E1; cbn [bind]; [|discriminate] end.
    match goal with |- bind ?m _ = _ -> _ =>
      destruct m as [p2|e] eqn:E2; cbn [bind]; [|discriminate] end.
    match goal with |- bind ?m _ = _ -> _ =>
      destruct m as [p3|e] eqn:E3; cbn [bind]; [|discriminate] end.
    match goal with |- bind ?m _ = _ -> _ =>
      destruct m as [p4|e] eqn:E4; cbn [bind]; [|discriminate] end.
    match goal with |- bind ?m _ = _ -> _ =>
      destruct m as [p5|e] eqn:E5; cbn [bind]; [|discriminate] end.
    match goal with |- bind ?m _ = _ -> _ =>
      destruct m as [p6|e] eqn:E6; cbn [bind]; [|discriminate] end.
    intro H. injection H as <-.
    apply (points_above_range _ _ 20) in E1; [|ladder_facts|lia].
    apply (points_above_range _ _ 15) in E2; [|ladder_facts|lia].
    apply (points_above_range _ _ 20) in E3; [|ladder_facts|lia].
    apply (points_below_range _ _ 15) in E4; [|ladder_facts|lia].
    apply (points_above_range _ _ 15) in E5; [|ladder_facts|lia].
    apply (points_above_range _ _ 15) in E6; [|ladder_facts|lia].
    destruct E1 as [B1 D1], E2 as [B2 D2], E3 as [B3 D3], E4 as [B4 D4],
             E5 as [B5 D5], E6 as [B6 D6].
    split; [lia|].
    rewrite Z.min_l by lia.
    repeat apply Z.divide_add_r; assumption.
  - intro Hall. unfold quality_metrics in Hall.
    repeat match goal with
           | H : Forall _ (_ :: _) |- _ => inversion H; clear H; subst
           end.
    unfold FundamentalAnalyzer._calculate_quality_score.
    repeat match goal with
           | H : numeric_or_absent data ?k |- context [FundamentalAnalyzer.get_or data ?k ?d] =>
               let q := fresh "q" in
               let E := fresh "E" in
               destruct (get_or_numeric data k d H) as [q E]; rewrite E; clear H
           end.
    repeat match goal with
           | |- context [bind (FundamentalAnalyzer.points_above (PNum ?q) ?l) _] =>
               let p := fresh "p" in
               let E := fresh "E" in
               destruct (points_above_num q l) as [p E]; rewrite E; cbn [bind]
           | |- context [bind (FundamentalAnalyzer.points_below (PNum ?q) ?l) _] =>
               let p := fresh "p" in
               let E := fresh "E" in
               destruct (points_below_num q l) as [p E]; rewrite E; cbn [bind]
           end.
    eexists. reflexivity.
Qed.

Lemma calculate_quality_score_range_witness :
  FundamentalAnalyzer._calculate_quality_score
    [("earningsGrowth"%string, PNum (30 # 100)); ("returnOnEquity"%string, PNone);
     ("debtToEquity"%string, PNum 40)] = Ok 30%Z
  /\ (0 <= 30 <= 100)%Z /\ (5 | 30)%Z.
Proof.
  split; [reflexivity|].
  apply (proj1 (calculate_quality_score_range
                  [("earningsGrowth"%string, PNum (30 # 100));
                   ("returnOnEquity"%string, PNone);
                   ("debtToEquity"%string, PNum 40)]) 30%Z).
  reflexivity.
Defined.

(** ** News sentiment *)

Section Sentiment.

Variable self : SentimentAnalyzer.Services.

Let polarity (a : SentimentAnalyzer.Article) : Q :=
  SentimentAnalyzer._analyze_sentiment self (article_text a).

Lemma tally_fold (articles : list SentimentAnalyzer.Article) :
  forall t,
    let t' := fold_left (SentimentAnalyzer.tally_article self) articles t in
    SentimentAnalyzer.sentiments t'
    = SentimentAnalyzer.sentiments t ++ map polarity articles
    /\ (SentimentAnalyzer.positive_count t' + SentimentAnalyzer.negative_count t'
        + SentimentAnalyzer.neutral_count t'
        = SentimentAnalyzer.positive_count t + SentimentAnalyzer.negative_count t
          + SentimentAnalyzer.neutral_count t + length articles)%nat
    /\ (Forall (fun a => 1 # 10 < polarity a) articles ->
        SentimentAnalyzer.positive_count t'
        = (SentimentAnalyzer.positive_count t + length articles)%nat).
Proof.
  induction articles as [|a articles IH]; intro t; cbn [fold_left].
  - cbv zeta. rewrite app_nil_r. simpl. split; [reflexivity|]. split; [lia|]. intros _. lia.
  - specialize (IH (SentimentAnalyzer.tally_article self t a)). cbv zeta in *.
    destruct IH as (Hs & Hc & Hp).
    assert (Ht : SentimentAnalyzer.sentiments (SentimentAnalyzer.tally_article self t a)
                 = SentimentAnalyzer.sentiments t ++ [polarity a]).
    { unfold SentimentAnalyzer.tally_article, polarity, article_text. cbv zeta.
      destruct (Qltb (1 # 10) _); [reflexivity|]. destruct (Qltb _ _); reflexivity. }
    split; [|split].
    + rewrite Hs, Ht, <- app_assoc. reflexivity.
    + rewrite Hc. unfold SentimentAnalyzer.tally_article. cbv zeta.
      destruct (Qltb (1 # 10) _); [simpl; lia|]. destruct (Qltb _ _); simpl; lia.
    + intro Hall. inversion Hall as [|? ? Ha Hrest]; subst.
      rewrite (Hp Hrest). unfold SentimentAnalyzer.tally_article. cbv zeta.
      fold (article_text a). fold (polarity a).
      apply Qltb_lt in Ha. rewrite Ha. simpl. lia.
Qed.

Lemma fold_sum_bounds (lo hi : Q) (xs : list Q) :
  Forall (fun x => lo <= x <= hi) xs ->
  forall a,
    a + of_nat (length xs) * lo <= fold_left Qplus xs a
    /\ fold_left Qplus xs a <= a + of_nat (length xs) * hi.
Proof.
  induction 1 as [|x xs Hx _ IH]; intro a; cbn [fold_left length].
  - change (of_nat 0) with 0. split; lra.
  - destruct (IH (a + x)) as [H1 H2].
    assert (E : of_nat (S (length xs)) == of_nat (length xs) + 1).
    { unfold of_nat. rewrite Nat2Z.inj_succ, <- Z.add_1_r, inject_Z_plus. reflexivity. }
    rewrite E. split; lra.
Qed.

Lemma mean_bounds (lo hi : Q) (x : Q) (xs : list Q) :
  Forall (fun y => lo <= y <= hi) (x :: xs) ->
  lo <= SentimentAnalyzer.py_sum (x :: xs) / of_nat (length (x :: xs)) <= hi.
Proof.
  intro H. unfold SentimentAnalyzer.py_sum.
  destruct (fold_sum_bounds lo hi (x :: xs) H 0) as [H1 H2].
  assert (Hn : 0 < of_nat (length (x :: xs))).
  { unfold of_nat. change 0 with (inject_Z 0). rewrite <- Zlt_Qlt. simpl. lia. }
  split.
  - apply Qle_shift_div_l; [exact Hn|]. lra.
  - apply Qle_shift_div_r; [exact Hn|]. lra.
Qed.

Lemma analyze_unfold (symbol : string) :
  let articles := SentimentAnalyzer._fetch_news self symbol 10 in
  exists d,
    SentimentAnalyzer.analyze self symbol = Some d
    /\ SentimentAnalyzer.symbol d = symbol
    /\ SentimentAnalyzer.news_count d = length articles
    /\ SentimentAnalyzer.top_headlines d = map SentimentAnalyzer.title (firstn 5 articles)
    /\ (SentimentAnalyzer.positive_news d + SentimentAnalyzer.negative_news d
        + SentimentAnalyzer.neutral_news d = length articles)%nat
    /\ (Forall (fun a => 1 # 10 < polarity a) articles ->
        SentimentAnalyzer.positive_news d = length articles)
    /\ exists avg,
         SentimentAnalyzer.news_sentiment_score d == py_round avg 3
         /\ SentimentAnalyzer.sentiment_label d = SentimentAnalyzer._classify_sentiment avg
         /\ (articles = [] -> avg = 0)
         /\ (articles <> [] ->
             avg = SentimentAnalyzer.py_sum (map polarity articles)
                   / of_nat (length (map polarity articles)))
         /\ forall lo hi, lo <= 0 <= hi ->
                          Forall (fun a => lo <= polarity a <= hi) articles ->
                          lo <= avg <= hi.
Proof.
  cbv zeta. unfold SentimentAnalyzer.analyze.
  destruct (SentimentAnalyzer._fetch_news self symbol 10) as [|a articles] eqn:E.
  - eexists. split; [reflexivity|].
    cbn [SentimentAnalyzer.symbol SentimentAnalyzer.news_count
         SentimentAnalyzer.top_headlines SentimentAnalyzer.positive_news
         SentimentAnalyzer.negative_news SentimentAnalyzer.neutral_news
         SentimentAnalyzer.news_sentiment_score SentimentAnalyzer.sentiment_label
         length firstn map Nat.add].
    split; [reflexivity|]. split; [reflexivity|]. split; [reflexivity|].
    split; [reflexivity|]. split; [intros _; reflexivity|].
    exists 0. split; [symmetry; apply (py_round_Z 0 3)|].
    split; [reflexivity|]. split; [reflexivity|].
    split; [intro C; contradiction|].
    intros lo hi [Hlo Hhi] _. split; assumption.
  - set (arts := a :: articles) in *.
    destruct (tally_fold arts (SentimentAnalyzer.mkTally [] 0 0 0)) as (Hs & Hc & Hp).
    cbv zeta in Hs, Hc, Hp. cbn [SentimentAnalyzer.sentiments app
      SentimentAnalyzer.positive_count SentimentAnalyzer.negative_count
      SentimentAnalyzer.neutral_count Nat.add] in Hs, Hc, Hp.
    eexists. split; [reflexivity|].
    cbn [SentimentAnalyzer.symbol SentimentAnalyzer.news_count
         SentimentAnalyzer.top_headlines SentimentAnalyzer.positive_news
         SentimentAnalyzer.negative_news SentimentAnalyzer.neutral_news
         SentimentAnalyzer.news_sentiment_score SentimentAnalyzer.sentiment_label].
    split; [reflexivity|]. split; [reflexivity|]. split; [reflexivity|].
    split; [exact Hc|]. split; [exact Hp|].
    eexists. split; [reflexivity|]. split; [reflexivity|]. split; [discriminate|].
    split; [intros _; rewrite Hs; unfold arts; cbn [map]; reflexivity|].
    intros lo hi _ Hall. rewrite Hs. unfold arts. cbn [map].
    apply mean_bounds.
    change (polarity a :: map polarity articles) with (map polarity arts).
    apply Forall_map. exact Hall.
Qed.

Lemma fetch_news_length (symbol : string) (limit : nat) :
  (length (SentimentAnalyzer._fetch_news self symbol limit) <= limit)%nat.
Proof.
  unfold SentimentAnalyzer._fetch_news. apply firstn_le_length.
Qed.

(** X20: [analyze] always returns a record, for the symbol asked; it counts
    at most 10 articles, its positive, negative and neutral counts add up
    to the article count, it lists min(5, count) headlines, and with no
    article the score is 0 and the label NEUTRAL. *)
Theorem sentiment_analyze_counts (symbol : string) :
  exists d,
    SentimentAnalyzer.analyze self symbol = Some d
    /\ SentimentAnalyzer.symbol d = symbol
    /\ (SentimentAnalyzer.news_count d <= 10)%nat
    /\ (SentimentAnalyzer.positive_news d + SentimentAnalyzer.negative_news d
        + SentimentAnalyzer.neutral_news d = SentimentAnalyzer.news_count d)%nat
    /\ length (SentimentAnalyzer.top_headlines d)
       = Nat.min 5 (SentimentAnalyzer.news_count d)
    /\ (SentimentAnalyzer.news_count d = 0%nat ->
        SentimentAnalyzer.news_sentiment_score d == 0
        /\ SentimentAnalyzer.sentiment_label d = SentimentAnalyzer.NEUTRAL).
Proof.
  destruct (analyze_unfold symbol)
    as (d & Hd & Hsym & Hn & Hh & Hc & _ & avg & Hscore & Hlabel & H0 & _).
  exists d. split; [exact Hd|]. split; [exact Hsym|]. rewrite Hn, Hh, Hlabel.
  split; [apply fetch_news_length|]. split; [exact Hc|]. split.
  - rewrite length_map, length_firstn. reflexivity.
  - intro Hz. apply length_zero_iff_nil in Hz. rewrite Hscore, (H0 Hz).
    split; [apply (py_round_Z 0 3)|reflexivity].
Qed.

(** X21: when the polarity of every text lies between -1 and 1, so does
    the news sentiment score that [analyze] reports. *)
Theorem sentiment_score_bounded (symbol : string) (d : SentimentAnalyzer.SentimentData) :
  (forall text, -1 <= SentimentAnalyzer._analyze_sentiment self text <= 1) ->
  SentimentAnalyzer.analyze self symbol = Some d ->
  -1 <= SentimentAnalyzer.news_sentiment_score d <= 1.
Proof.
  intros Hpol Hd.
  destruct (analyze_unfold symbol)
    as (d' & Hd' & _ & _ & _ & _ & _ & avg & Hscore & _ & _ & _ & Hb).
  rewrite Hd in Hd'. injection Hd' as <-. rewrite Hscore.
  assert (Havg : -1 <= avg <= 1).
  { apply Hb; [split; lra|]. apply Forall_forall. intros a _. apply Hpol. }
  split.
  - apply (py_round_ge_Z avg (-1) 3), Havg.
  - apply (py_round_le_Z avg 1 3), Havg.
Qed.



End Sentiment.

Lemma sentiment_score_bounded_witness :
  exists d,
    SentimentAnalyzer.analyze (demo_news (1 # 2) 3) "ACME" = Some d
    /\ -1 <= SentimentAnalyzer.news_sentiment_score d <= 1.
Proof.
  destruct (SentimentAnalyzer.analyze (demo_news (1 # 2) 3) "ACME") as [d|] eqn:E.
  - exists d. split; [reflexivity|].
    apply (sentiment_score_bounded (demo_news (1 # 2) 3) "ACME" d); [|exact E].
    intro text. cbn. lra.
  - exfalso. vm_compute in E. discriminate E.
Defined.


(** ** The combined score of the full analysis *)

(** X23: with a setup, a fundamental record and a sentiment record at
    hand, their scores within 0..100, 0..100 and -1..1, the combined score
    of [get_full_analysis] is 100 times the weighted mean of the three on
    the 0-100 scale: it lies between 0 and 10000, and the recommendation
    is STRONG BUY as soon as that mean reaches 0.7. *)
Theorem combined_score_scale (setup : VCPSetup)
  (f : FundamentalAnalyzer.FundamentalData) (s : SentimentAnalyzer.SentimentData)
  (v : Q) :
  score setup = fin v ->
  0 <= v <= 100 ->
  0 <= FundamentalAnalyzer.quality_score f <= 100 ->
  -1 <= SentimentAnalyzer.news_sentiment_score s <= 1 ->
  exists c,
    combined_score_of (Some setup) (Some f) (Some s) = fin c
    /\ c == 100 * weighted_mean v (FundamentalAnalyzer.quality_score f)
                    (SentimentAnalyzer.news_sentiment_score s)
    /\ 0 <= c <= 10000
    /\ (7 # 10 <= weighted_mean v (FundamentalAnalyzer.quality_score f)
                    (SentimentAnalyzer.news_sentiment_score s) ->
        recommendation_of (combined_score_of (Some setup) (Some f) (Some s))
        = "STRONG BUY"%string).
Proof.
  intros Hv Hvr Hq Hs.
  unfold combined_score_of. rewrite Hv.
  generalize (FundamentalAnalyzer.quality_score f) Hq.
  generalize (SentimentAnalyzer.news_sentiment_score s) Hs.
  clear Hq Hs. intros n Hn q Hq.
  cbn [Nat.ltb Nat.leb fadd fmul fdiv lift2 fin].
  change (of_nat 3) with 3.
  eexists. split; [reflexivity|].
  assert (E : (0 + v * (4 # 10) + q * (3 # 10) + (n + 1) * 50 * (3 # 10))
              / ((4 # 10) + (3 # 10) + (3 # 10)) * 3 / 3 * 100
              == 100 * weighted_mean v q n).
  { unfold weighted_mean. field. }
  split; [exact E|].
  split.
  - rewrite E. unfold weighted_mean. lra.
  - intro Hm. unfold recommendation_of, fgeb, fleb, cmp2, fin.
    assert (H70 : 70 <= (0 + v * (4 # 10) + q * (3 # 10) + (n + 1) * 50 * (3 # 10))
              / ((4 # 10) + (3 # 10) + (3 # 10)) * 3 / 3 * 100).
    { rewrite E. lra. }
    apply Qle_bool_iff in H70. rewrite H70. reflexivity.
Qed.

Lemma combined_score_scale_witness :
  exists c,
    combined_score_of (Some demo_setup) (Some demo_fundamentals) (Some demo_sentiment)
    = fin c
    /\ c == 100 * weighted_mean 80 60 (1 # 5)
    /\ 0 <= c <= 10000
    /\ recommendation_of
         (combined_score_of (Some demo_setup) (Some demo_fundamentals)
            (Some demo_sentiment))
       = "STRONG BUY"%string.
Proof.
  destruct (combined_score_scale demo_setup demo_fundamentals demo_sentiment 80)
    as (c & Hc & He & Hr & Hb).
  - reflexivity.
  - lra.
  - cbn. lra.
  - cbn. lra.
  - exists c. split; [exact Hc|]. split; [exact He|]. split; [exact Hr|].
    apply Hb. cbn. unfold weighted_mean. lra.
Defined.
